(** * compliance-mcp: the snapshot collector and the diagnosis engine

    A shallow embedding of [pkg/compliance] (types.go, collector.go,
    analyzer.go) and of the status overview of [pkg/mcp], with the
    properties of the design document stated and settled against it.

    Conventions of the embedding:
    - Go's [int] is a 64-bit and [int32] a 32-bit two's complement integer:
      both are [Z] with the wrap-around written out ([Go.wrap64],
      [Go.wrap32]);
    - Go strings are byte strings: [string];
    - the string-typed enumerations of types.go (phase, result, status) stay
      strings, as in the source, so that unrecognised values exist;
    - Go maps are [gmap]s; the order in which [range] visits a map is not
      fixed by the language and is an explicit argument wherever the source
      ranges over a map;
    - calls to the cluster and to the clock are state passing over an
      abstract world. *)

From Stdlib Require Import ZArith String Ascii List Bool Lia.
From Stdlib Require Import Floats.SpecFloat.
From stdpp Require Import base tactics option list strings gmap fin_maps pretty sorting.

Local Open Scope string_scope.
Local Open Scope Z_scope.

(** ** Go primitives used by the sources *)

Module Go.

(** Two's complement wrap-around of [int] (64 bits) and [int32]. *)
Definition wrap64 (z : Z) : Z := (z + 2 ^ 63) mod 2 ^ 64 - 2 ^ 63.
Definition wrap32 (z : Z) : Z := (z + 2 ^ 31) mod 2 ^ 32 - 2 ^ 31.

Definition MaxInt : Z := 2 ^ 63 - 1.
Definition MinInt : Z := - 2 ^ 63.

(** [x++] and [x + y] on [int]. *)
Definition incr (x : Z) : Z := wrap64 (x + 1).
Definition add64 (x y : Z) : Z := wrap64 (x + y).
(** [x += y] on [int32]. *)
Definition add32 (x y : Z) : Z := wrap32 (x + y).

(** [append(s, x)] on a slice. *)
Definition append {A : Type} (s : list A) (x : A) : list A := (s ++ [x])%list.

(** [strings.HasPrefix s p]. *)
Fixpoint HasPrefix (s p : string) {struct p} : bool :=
  match p, s with
  | EmptyString, _ => true
  | String _ _, EmptyString => false
  | String b p', String a s' => Ascii.eqb a b && HasPrefix s' p'
  end.

(** [strings.Contains s substr]: [substr] occurs somewhere in [s]. *)
Fixpoint Contains (s substr : string) : bool :=
  HasPrefix s substr ||
  match s with
  | EmptyString => false
  | String _ s' => Contains s' substr
  end.

(** The verb [%d] of [fmt.Sprintf] on an integer. *)
Definition fmt_d (z : Z) : string := pretty z.

(** ** [time.Duration]: a count of nanoseconds in an [int64],
    and [Time.Sub], which saturates instead of wrapping. *)
Definition Nanosecond : Z := 1.
Definition Second : Z := 1000000000.
Definition Minute : Z := 60 * Second.
Definition maxDuration : Z := MaxInt.
Definition minDuration : Z := MinInt.

(** An instant is a count of nanoseconds on the time line. *)
Definition Time := Z.

Definition Sub (t u : Time) : Z :=
  let d := t - u in
  if d >? maxDuration then maxDuration
  else if d <? minDuration then minDuration
  else d.

(** [Duration.Round m]: to the nearest multiple of [m], halfway values
    away from zero, saturating at the ends of the [int64] range. *)
Definition lessThanHalf (x y : Z) : bool := (x + x) mod 2 ^ 64 <? y mod 2 ^ 64.

Definition Round (d m : Z) : Z :=
  if m <=? 0 then d
  else
    let r := Z.rem d m in
    if d <? 0 then
      let r := - r in
      if lessThanHalf r m then wrap64 (d + r)
      else
        let d1 := wrap64 (d - m + r) in
        if d1 <? d then d1 else minDuration
    else
      if lessThanHalf r m then wrap64 (d - r)
      else
        let d1 := wrap64 (d + m - r) in
        if d1 >? d then d1 else maxDuration.

(** ** [float64]: IEEE 754 binary64, round to nearest even. *)
Definition prec : Z := 53.
Definition emax : Z := 1024.
Definition float64 := spec_float.

(** The conversion [float64(n)] of an [int]. *)
Definition float64_of_int (n : Z) : float64 := binary_normalize prec emax n 0 false.
Definition fdiv (x y : float64) : float64 := SFdiv prec emax x y.
Definition fmul (x y : float64) : float64 := SFmul prec emax x y.

(** Errors are carried by their message; [fmt.Errorf("ctx: %w", err)]
    prefixes the message of the wrapped error. *)
Definition error := string.
Definition Errorf (ctx : string) (err : error) : error := ctx ++ err.

End Go.

(** ** types.go *)

Module compliance.

Definition PhasePending : string := "PENDING".
Definition PhaseLaunching : string := "LAUNCHING".
Definition PhaseRunning : string := "RUNNING".
Definition PhaseAggregating : string := "AGGREGATING".
Definition PhaseDone : string := "DONE".

Definition ResultNotAvailable : string := "NOT-AVAILABLE".
Definition ResultCompliant : string := "COMPLIANT".
Definition ResultNonCompliant : string := "NON-COMPLIANT".
Definition ResultError : string := "ERROR".
Definition ResultInconsistent : string := "INCONSISTENT".
Definition ResultNotApplicable : string := "NOT-APPLICABLE".

Definition CheckPass : string := "PASS".
Definition CheckFail : string := "FAIL".
Definition CheckManual : string := "MANUAL".
Definition CheckError : string := "ERROR".
Definition CheckInfo : string := "INFO".

End compliance.

Import compliance.

(** [ComplianceCheckResult]. *)
Module ComplianceCheckResult.
Record t := mk {
  Name : string;
  ID : string;
  Status : string;
  Severity : string;
  Description : string;
  Instructions : string;
  Rationale : string
}.
End ComplianceCheckResult.

(** [CheckCounts] of collector.go. *)
Module CheckCounts.
Record t := mk {
  Pass : Z;
  Fail : Z;
  Manual : Z;
  Error : Z;
  Info : Z;
  Total : Z
}.
Definition zero : t := mk 0 0 0 0 0 0.
End CheckCounts.

(** ** collector.go: the aggregate helpers *)

(** The body of the loop of [GetCheckCounts]: [counts.Total++] and the
    [switch] on the status, which has no [default] branch. *)
Definition countCheck (counts : CheckCounts.t) (check : ComplianceCheckResult.t) : CheckCounts.t :=
  let counts :=
    CheckCounts.mk (CheckCounts.Pass counts) (CheckCounts.Fail counts)
      (CheckCounts.Manual counts) (CheckCounts.Error counts)
      (CheckCounts.Info counts) (Go.incr (CheckCounts.Total counts)) in
  let status := ComplianceCheckResult.Status check in
  if String.eqb status CheckPass then
    CheckCounts.mk (Go.incr (CheckCounts.Pass counts)) (CheckCounts.Fail counts)
      (CheckCounts.Manual counts) (CheckCounts.Error counts)
      (CheckCounts.Info counts) (CheckCounts.Total counts)
  else if String.eqb status CheckFail then
    CheckCounts.mk (CheckCounts.Pass counts) (Go.incr (CheckCounts.Fail counts))
      (CheckCounts.Manual counts) (CheckCounts.Error counts)
      (CheckCounts.Info counts) (CheckCounts.Total counts)
  else if String.eqb status CheckManual then
    CheckCounts.mk (CheckCounts.Pass counts) (CheckCounts.Fail counts)
      (Go.incr (CheckCounts.Manual counts)) (CheckCounts.Error counts)
      (CheckCounts.Info counts) (CheckCounts.Total counts)
  else if String.eqb status CheckError then
    CheckCounts.mk (CheckCounts.Pass counts) (CheckCounts.Fail counts)
      (CheckCounts.Manual counts) (Go.incr (CheckCounts.Error counts))
      (CheckCounts.Info counts) (CheckCounts.Total counts)
  else if String.eqb status CheckInfo then
    CheckCounts.mk (CheckCounts.Pass counts) (CheckCounts.Fail counts)
      (CheckCounts.Manual counts) (CheckCounts.Error counts)
      (Go.incr (CheckCounts.Info counts)) (CheckCounts.Total counts)
  else counts.

Definition GetCheckCounts (checkResults : list ComplianceCheckResult.t) : CheckCounts.t :=
  fold_left countCheck checkResults CheckCounts.zero.

(** [CalculateCompliancePercentage]. *)
Definition CalculateCompliancePercentage (counts : CheckCounts.t) : Go.float64 :=
  if CheckCounts.Total counts =? 0 then Go.float64_of_int 0
  else
    let automatedChecks := Go.add64 (CheckCounts.Pass counts) (CheckCounts.Fail counts) in
    if automatedChecks =? 0 then Go.float64_of_int 0
    else
      Go.fmul
        (Go.fdiv (Go.float64_of_int (CheckCounts.Pass counts))
                 (Go.float64_of_int automatedChecks))
        (Go.float64_of_int 100).

(** ** The data model: types.go and the parts of [corev1] the sources read *)

Module ComplianceScanStatusWrapper.
Record t := mk { Name : string; Phase : string; Result : string }.
End ComplianceScanStatusWrapper.

Module ComplianceSuiteStatus.
Record t := mk {
  Phase : string;
  Result : string;
  ErrorMessage : string;
  ScanStatuses : list ComplianceScanStatusWrapper.t
}.
End ComplianceSuiteStatus.

Module ComplianceSuite.
Record t := mk { Name : string; Status : ComplianceSuiteStatus.t }.
End ComplianceSuite.

Module ComplianceScanSpec.
Record t := mk { ScanType : string; Profile : string; Content : string }.
End ComplianceScanSpec.

Module ComplianceScanStatus.
Record t := mk {
  Phase : string;
  Result : string;
  ErrorMessage : string;
  StartTimestamp : option Go.Time;   (* [*metav1.Time], [None] for nil *)
  Warnings : string
}.
End ComplianceScanStatus.

Module ComplianceScan.
Record t := mk {
  Name : string;
  Spec : ComplianceScanSpec.t;
  Status : ComplianceScanStatus.t
}.
End ComplianceScan.

Module ComplianceRemediation.
Record t := mk { Name : string; Apply : bool; ApplicationState : string }.
End ComplianceRemediation.

Module corev1.

Definition PodPending : string := "Pending".
Definition PodRunning : string := "Running".
Definition PodFailed : string := "Failed".
Definition PodReady : string := "Ready".
Definition PodScheduled : string := "PodScheduled".
Definition ConditionTrue : string := "True".
Definition ConditionFalse : string := "False".
Definition EventTypeNormal : string := "Normal".
Definition EventTypeWarning : string := "Warning".

Module PodCondition.
Record t := mk { Type_ : string; Status : string; Reason : string; Message : string }.
End PodCondition.

Module ContainerStateWaiting.
Record t := mk { Reason : string; Message : string }.
End ContainerStateWaiting.

Module ContainerStateTerminated.
Record t := mk { ExitCode : Z; Reason : string; Message : string }.
End ContainerStateTerminated.

(** The pointer fields of [ContainerState] are options. *)
Module ContainerState.
Record t := mk {
  Waiting : option ContainerStateWaiting.t;
  Terminated : option ContainerStateTerminated.t
}.
End ContainerState.

Module ContainerStatus.
Record t := mk {
  Name : string;
  State : ContainerState.t;
  LastTerminationState : ContainerState.t;
  RestartCount : Z                      (* int32 *)
}.
End ContainerStatus.

Module PodStatus.
Record t := mk {
  Phase : string;
  Conditions : list PodCondition.t;
  Reason : string;
  ContainerStatuses : list ContainerStatus.t
}.
End PodStatus.

Module Pod.
Record t := mk { Name : string; Status : PodStatus.t }.
End Pod.

Module ObjectReference.
Record t := mk { Kind : string; Name : string }.
End ObjectReference.

Module Event.
Record t := mk {
  InvolvedObject : ObjectReference.t;
  Type_ : string;
  Message : string
}.
End Event.

End corev1.

(** ** State passing over the world the program runs in

    One value of [W] is a state of everything outside the process: the
    cluster behind the client, the wall clock, the map iteration seed of
    the runtime. *)

Definition State (W A : Type) : Type := W → A * W.

#[global] Instance State_ret {W} : MRet (State W) := λ A (a : A) w, (a, w).
#[global] Instance State_bind {W} : MBind (State W) :=
  λ A B (f : A → State W B) (m : State W A) w, let '(a, w') := m w in f a w'.
#[global] Instance State_fmap {W} : FMap (State W) :=
  λ A B (f : A → B) (m : State W A) w, let '(a, w') := m w in (f a, w').

(** A call that returns [(value, error)] with exactly one of them set. *)
Definition result (A : Type) : Type := A + Go.error.

(** ** client.go: the methods of [ComplianceClient], as the collector and
    the analyzer see them. They reach the cluster through the Kubernetes
    client libraries; what the cluster answers is not fixed here. *)
Record ComplianceClient (W : Type) := {
  GetComplianceSuites : State W (result (list ComplianceSuite.t));
  GetComplianceSuite : string → State W (result ComplianceSuite.t);
  GetComplianceScans : string → State W (result (list ComplianceScan.t));
  GetComplianceCheckResults : string → string → State W (result (list ComplianceCheckResult.t));
  GetComplianceRemediations : string → State W (result (list ComplianceRemediation.t));
  GetOperatorPods : State W (result (list corev1.Pod.t));
  GetScannerPods : string → State W (result (list corev1.Pod.t));
  GetEvents : string → string → State W (result (list corev1.Event.t))
}.
Arguments GetComplianceSuites {W}.
Arguments GetComplianceSuite {W}.
Arguments GetComplianceScans {W}.
Arguments GetComplianceCheckResults {W}.
Arguments GetComplianceRemediations {W}.
Arguments GetOperatorPods {W}.
Arguments GetScannerPods {W}.
Arguments GetEvents {W}.

(** ** collector.go: the snapshot *)

(** [PodStatus] of collector.go (not the one of [corev1]). *)
Module PodStatus.
Record t := mk {
  Name : string;
  Phase : string;
  Reason : string;
  Ready : bool;
  Restarts : Z                            (* int32 *)
}.
End PodStatus.

Module OperatorHealthStatus.
Record t := mk {
  OperatorPods : list PodStatus.t;
  IsHealthy : bool;
  Issues : list string
}.
Definition zero : t := mk [] false [].
End OperatorHealthStatus.

Module ComplianceData.
Record t := mk {
  Suites : list ComplianceSuite.t;
  Scans : gmap string ComplianceScan.t;
  CheckResults : gmap string (list ComplianceCheckResult.t);
  Remediations : gmap string (list ComplianceRemediation.t);
  OperatorStatus : OperatorHealthStatus.t;
  Timestamp : Go.Time
}.
Definition with_Suites (suites : list ComplianceSuite.t) (d : t) : t :=
  mk suites (Scans d) (CheckResults d) (Remediations d) (OperatorStatus d) (Timestamp d).
Definition with_Scans (m : gmap string ComplianceScan.t) (d : t) : t :=
  mk (Suites d) m (CheckResults d) (Remediations d) (OperatorStatus d) (Timestamp d).
Definition with_CheckResults (m : gmap string (list ComplianceCheckResult.t)) (d : t) : t :=
  mk (Suites d) (Scans d) m (Remediations d) (OperatorStatus d) (Timestamp d).
Definition with_Remediations (m : gmap string (list ComplianceRemediation.t)) (d : t) : t :=
  mk (Suites d) (Scans d) (CheckResults d) m (OperatorStatus d) (Timestamp d).
Definition with_OperatorStatus (s : OperatorHealthStatus.t) (d : t) : t :=
  mk (Suites d) (Scans d) (CheckResults d) (Remediations d) s (Timestamp d).
End ComplianceData.

(** [isPodReady]: the first condition of type [Ready] decides. *)
Fixpoint isPodReady_conditions (conditions : list corev1.PodCondition.t) : bool :=
  match conditions with
  | [] => false
  | condition :: rest =>
      if String.eqb (corev1.PodCondition.Type_ condition) corev1.PodReady
      then String.eqb (corev1.PodCondition.Status condition) corev1.ConditionTrue
      else isPodReady_conditions rest
  end.

Definition isPodReady (pod : corev1.Pod.t) : bool :=
  isPodReady_conditions (corev1.PodStatus.Conditions (corev1.Pod.Status pod)).

(** The inner loop [podStatus.Restarts += cs.RestartCount], in [int32]. *)
Definition countRestarts (containerStatuses : list corev1.ContainerStatus.t) : Z :=
  fold_left (λ restarts cs, Go.add32 restarts (corev1.ContainerStatus.RestartCount cs))
            containerStatuses 0.

(** The body of the loop over the operator pods in [collectOperatorStatus]. *)
Definition checkOperatorPod (status : OperatorHealthStatus.t) (pod : corev1.Pod.t)
  : OperatorHealthStatus.t :=
  let name := corev1.Pod.Name pod in
  let phase := corev1.PodStatus.Phase (corev1.Pod.Status pod) in
  let ready := isPodReady pod in
  let restarts := countRestarts (corev1.PodStatus.ContainerStatuses (corev1.Pod.Status pod)) in
  let '(healthy, reason, issues) :=
    if negb (String.eqb phase corev1.PodRunning)
    then (false, phase,
          Go.append (OperatorHealthStatus.Issues status)
                    ("Pod " ++ name ++ " is in phase " ++ phase))
    else (OperatorHealthStatus.IsHealthy status, "", OperatorHealthStatus.Issues status) in
  let '(healthy, issues) :=
    if negb ready
    then (false, Go.append issues ("Pod " ++ name ++ " is not ready"))
    else (healthy, issues) in
  let issues :=
    if restarts >? 5
    then Go.append issues ("Pod " ++ name ++ " has restarted " ++ Go.fmt_d restarts ++ " times")
    else issues in
  OperatorHealthStatus.mk
    (Go.append (OperatorHealthStatus.OperatorPods status)
               (PodStatus.mk name phase reason ready restarts))
    healthy issues.

Section Collector.
Context {W : Type}.
Variable client : ComplianceClient W.
(** [time.Now()]. *)
Variable Now : State W Go.Time.

(** [collectOperatorStatus] returns its status also along with an error. *)
Definition collectOperatorStatus : State W (OperatorHealthStatus.t * option Go.error) :=
  let status := OperatorHealthStatus.mk [] true [] in
  r ← GetOperatorPods client;
  match r with
  | inr err => mret (status, Some (Go.Errorf "failed to get operator pods: " err))
  | inl pods =>
      if (length pods =? 0)%nat then
        mret (OperatorHealthStatus.mk
                (OperatorHealthStatus.OperatorPods status) false
                (Go.append (OperatorHealthStatus.Issues status)
                           "No compliance operator pods found"),
              None)
      else mret (fold_left checkOperatorPod pods status, None)
  end.

(** The body of the loop over the scans in [CollectAllData]: the scan is
    recorded first, then each sub-fetch writes its map only when it
    returned no error. *)
Definition collectScan (data : ComplianceData.t) (scan : ComplianceScan.t)
  : State W ComplianceData.t :=
  let name := ComplianceScan.Name scan in
  let data := ComplianceData.with_Scans (<[name := scan]> (ComplianceData.Scans data)) data in
  r ← GetComplianceCheckResults client name "";
  let data :=
    match r with
    | inl checkResults =>
        ComplianceData.with_CheckResults
          (<[name := checkResults]> (ComplianceData.CheckResults data)) data
    | inr _ => data
    end in
  r ← GetComplianceRemediations client name;
  let data :=
    match r with
    | inl remediations =>
        ComplianceData.with_Remediations
          (<[name := remediations]> (ComplianceData.Remediations data)) data
    | inr _ => data
    end in
  mret data.

Fixpoint collectScans (scans : list ComplianceScan.t) (data : ComplianceData.t)
  : State W ComplianceData.t :=
  match scans with
  | [] => mret data
  | scan :: rest => data ← collectScan data scan; collectScans rest data
  end.

Definition CollectAllData : State W (result ComplianceData.t) :=
  now ← Now;
  let data := ComplianceData.mk [] ∅ ∅ ∅ OperatorHealthStatus.zero now in
  r ← GetComplianceSuites client;
  match r with
  | inr err => mret (inr (Go.Errorf "failed to collect suites: " err))
  | inl suites =>
      let data := ComplianceData.with_Suites suites data in
      r ← GetComplianceScans client "";
      match r with
      | inr err => mret (inr (Go.Errorf "failed to collect scans: " err))
      | inl allScans =>
          data ← collectScans allScans data;
          '(operatorStatus, err) ← collectOperatorStatus;
          match err with
          | Some err => mret (inr (Go.Errorf "failed to collect operator status: " err))
          | None => mret (inl (ComplianceData.with_OperatorStatus operatorStatus data))
          end
      end
  end.

End Collector.

(** ** analyzer.go: the diagnosis rules *)

Definition IssueTypeStuckScan : string := "StuckScan".
Definition IssueTypeFailedPod : string := "FailedPod".
Definition IssueTypePermission : string := "Permission".
Definition IssueTypeResourceConstraint : string := "ResourceConstraint".
Definition IssueTypeOOM : string := "OutOfMemory".
Definition IssueTypeMisconfiguration : string := "Misconfiguration".

Definition SeverityCritical : string := "Critical".
Definition SeverityWarning : string := "Warning".
Definition SeverityInfo : string := "Info".

Module Issue.
Record t := mk {
  Type_ : string;
  Severity : string;
  Description : string;
  Resources : list string;
  Suggestion : string
}.
End Issue.

Section StuckScans.
Context {W : Type}.
Variable Now : State W Go.Time.
(** [Duration.String], the rendering of a duration by the verb [%v]. *)
Variable Duration_String : Z → string.

(** [time.Since(t)] is [time.Now().Sub(t)]. *)
Definition Since (t : Go.Time) : State W Z :=
  now ← Now; mret (Go.Sub now t).

Definition stuckRunningIssue (scan : ComplianceScan.t) (elapsed : Z) : Issue.t :=
  Issue.mk IssueTypeStuckScan SeverityCritical
    ("Scan '" ++ ComplianceScan.Name scan ++ "' has been in RUNNING phase for "
       ++ Duration_String (Go.Round elapsed Go.Minute))
    [ComplianceScan.Name scan]
    "Check scanner pod logs and events. The scan may be stuck due to pod failures, resource constraints, or permission issues.".

Definition stuckLaunchingIssue (scan : ComplianceScan.t) : Issue.t :=
  Issue.mk IssueTypeStuckScan SeverityCritical
    ("Scan '" ++ ComplianceScan.Name scan ++ "' stuck in LAUNCHING phase")
    [ComplianceScan.Name scan]
    "Check if scanner pods are being created. Look for resource constraints or ImagePullBackOff errors.".

Definition errorResultIssue (scan : ComplianceScan.t) : Issue.t :=
  Issue.mk IssueTypeFailedPod SeverityCritical
    ("Scan '" ++ ComplianceScan.Name scan ++ "' completed with ERROR result: "
       ++ ComplianceScanStatus.ErrorMessage (ComplianceScan.Status scan))
    [ComplianceScan.Name scan]
    "Review scan logs and error message. Common causes include missing content, invalid profiles, or scanner pod failures.".

(** The body of the loop of [DetectStuckScans] is three checks in a row.
    The clock is read only where the source calls [time.Since]: behind
    the nil check of the start timestamp. *)

(** "Check if scan is stuck in RUNNING phase". *)
Definition checkRunning (issues : list Issue.t) (scan : ComplianceScan.t)
  : State W (list Issue.t) :=
  let status := ComplianceScan.Status scan in
  if String.eqb (ComplianceScanStatus.Phase status) PhaseRunning then
    match ComplianceScanStatus.StartTimestamp status with
    | Some start =>
        elapsed ← Since start;
        if elapsed >? 30 * Go.Minute
        then mret (Go.append issues (stuckRunningIssue scan elapsed))
        else mret issues
    | None => mret issues
    end
  else mret issues.

(** "Check for scans stuck in other phases". *)
Definition checkLaunching (issues : list Issue.t) (scan : ComplianceScan.t)
  : State W (list Issue.t) :=
  let status := ComplianceScan.Status scan in
  if String.eqb (ComplianceScanStatus.Phase status) PhaseLaunching then
    match ComplianceScanStatus.StartTimestamp status with
    | Some start =>
        elapsed ← Since start;
        if elapsed >? 10 * Go.Minute
        then mret (Go.append issues (stuckLaunchingIssue scan))
        else mret issues
    | None => mret issues
    end
  else mret issues.

(** "Check for error results". *)
Definition checkErrorResult (issues : list Issue.t) (scan : ComplianceScan.t)
  : list Issue.t :=
  if String.eqb (ComplianceScanStatus.Result (ComplianceScan.Status scan)) ResultError
  then Go.append issues (errorResultIssue scan)
  else issues.

Definition checkStuckScan (issues : list Issue.t) (scan : ComplianceScan.t)
  : State W (list Issue.t) :=
  issues ← checkRunning issues scan;
  issues ← checkLaunching issues scan;
  mret (checkErrorResult issues scan).

Fixpoint detectStuckLoop (scans : list ComplianceScan.t) (issues : list Issue.t)
  : State W (list Issue.t) :=
  match scans with
  | [] => mret issues
  | scan :: rest => issues ← checkStuckScan issues scan; detectStuckLoop rest issues
  end.

Definition DetectStuckScans (scans : list ComplianceScan.t) : State W (list Issue.t) :=
  detectStuckLoop scans [].

End StuckScans.

(** [DetectFailedPods]. *)
Definition failedPodIssue (pod : corev1.Pod.t) : Issue.t :=
  Issue.mk IssueTypeFailedPod SeverityCritical
    ("Scanner pod '" ++ corev1.Pod.Name pod ++ "' failed with reason: "
       ++ corev1.PodStatus.Reason (corev1.Pod.Status pod))
    [corev1.Pod.Name pod]
    "Check pod logs for error details. The scanner may have encountered an error during scan execution.".

Definition imagePullIssue (pod : corev1.Pod.t) (waiting : corev1.ContainerStateWaiting.t) : Issue.t :=
  Issue.mk IssueTypeFailedPod SeverityCritical
    ("Pod '" ++ corev1.Pod.Name pod ++ "' cannot pull image: "
       ++ corev1.ContainerStateWaiting.Message waiting)
    [corev1.Pod.Name pod]
    "Verify image name and registry credentials. Check network connectivity to image registry.".

Definition crashLoopIssue (pod : corev1.Pod.t) : Issue.t :=
  Issue.mk IssueTypeFailedPod SeverityCritical
    ("Pod '" ++ corev1.Pod.Name pod ++ "' is crash looping")
    [corev1.Pod.Name pod]
    "Check container logs for crash details. The scanner may be encountering a runtime error.".

Definition oomIssue (pod : corev1.Pod.t) (cs : corev1.ContainerStatus.t) : Issue.t :=
  Issue.mk IssueTypeOOM SeverityCritical
    ("Container '" ++ corev1.ContainerStatus.Name cs ++ "' in pod '" ++ corev1.Pod.Name pod
       ++ "' was killed due to out of memory")
    [corev1.Pod.Name pod]
    "Increase memory limits for scanner pods in ScanSetting. The scan requires more memory than allocated.".

Definition restartIssue (pod : corev1.Pod.t) (cs : corev1.ContainerStatus.t) : Issue.t :=
  Issue.mk IssueTypeFailedPod SeverityWarning
    ("Container '" ++ corev1.ContainerStatus.Name cs ++ "' in pod '" ++ corev1.Pod.Name pod
       ++ "' has restarted " ++ Go.fmt_d (corev1.ContainerStatus.RestartCount cs) ++ " times")
    [corev1.Pod.Name pod]
    "Investigate why the container is restarting. Check logs for errors.".

(** The body of the first loop over the container statuses of a pod: the
    waiting reason, then the last termination. *)
Definition checkContainer (pod : corev1.Pod.t) (issues : list Issue.t)
    (cs : corev1.ContainerStatus.t) : list Issue.t :=
  let issues :=
    match corev1.ContainerState.Waiting (corev1.ContainerStatus.State cs) with
    | Some waiting =>
        let reason := corev1.ContainerStateWaiting.Reason waiting in
        if String.eqb reason "ImagePullBackOff" || String.eqb reason "ErrImagePull"
        then Go.append issues (imagePullIssue pod waiting)
        else if String.eqb reason "CrashLoopBackOff"
        then Go.append issues (crashLoopIssue pod)
        else issues
    | None => issues
    end in
  match corev1.ContainerState.Terminated (corev1.ContainerStatus.LastTerminationState cs) with
  | Some terminated =>
      if String.eqb (corev1.ContainerStateTerminated.Reason terminated) "OOMKilled"
      then Go.append issues (oomIssue pod cs)
      else issues
  | None => issues
  end.

(** The body of the second loop over the container statuses. *)
Definition checkRestartCount (pod : corev1.Pod.t) (issues : list Issue.t)
    (cs : corev1.ContainerStatus.t) : list Issue.t :=
  if corev1.ContainerStatus.RestartCount cs >? 5
  then Go.append issues (restartIssue pod cs)
  else issues.

Definition checkFailedPod (issues : list Issue.t) (pod : corev1.Pod.t) : list Issue.t :=
  let containerStatuses := corev1.PodStatus.ContainerStatuses (corev1.Pod.Status pod) in
  let issues :=
    if String.eqb (corev1.PodStatus.Phase (corev1.Pod.Status pod)) corev1.PodFailed
    then Go.append issues (failedPodIssue pod)
    else issues in
  let issues := fold_left (checkContainer pod) containerStatuses issues in
  fold_left (checkRestartCount pod) containerStatuses issues.

Definition DetectFailedPods (pods : list corev1.Pod.t) : list Issue.t :=
  fold_left checkFailedPod pods [].

(** [DetectPermissionIssuesForScan]. *)
Definition permissionKeywords : list string :=
  [ "Forbidden";
    "Unauthorized";
    "denied";
    "insufficient permissions";
    "cannot create";
    "cannot get";
    "cannot list" ].

Definition permissionIssue (scanName : string) (event : corev1.Event.t) : Issue.t :=
  Issue.mk IssueTypePermission SeverityCritical
    ("Permission issue in scan '" ++ scanName ++ "': " ++ corev1.Event.Message event)
    [scanName; corev1.ObjectReference.Name (corev1.Event.InvolvedObject event)]
    "Check ServiceAccount permissions and RBAC configuration. The compliance operator may not have sufficient permissions.".

(** The loop over the keywords, left by [break] at the first match. *)
Fixpoint checkKeywords (scanName : string) (event : corev1.Event.t)
    (keywords : list string) (issues : list Issue.t) : list Issue.t :=
  match keywords with
  | [] => issues
  | keyword :: rest =>
      if Go.Contains (corev1.Event.Message event) keyword
      then Go.append issues (permissionIssue scanName event)
      else checkKeywords scanName event rest issues
  end.

Definition checkEvent (scanName : string) (issues : list Issue.t) (event : corev1.Event.t)
  : list Issue.t :=
  if String.eqb (corev1.Event.Type_ event) corev1.EventTypeWarning
  then checkKeywords scanName event permissionKeywords issues
  else issues.

Definition DetectPermissionIssuesForScan {W : Type} (client : ComplianceClient W)
    (scanName : string) : State W (list Issue.t * option Go.error) :=
  r ← GetEvents client "ComplianceScan" scanName;
  match r with
  | inr err => mret ([], Some err)
  | inl events => mret (fold_left (checkEvent scanName) events [], None)
  end.

(** [AnalyzeScanFailure]. *)
Definition scanFailedIssue (scan : ComplianceScan.t) : Issue.t :=
  Issue.mk IssueTypeFailedPod SeverityCritical
    ("Scan '" ++ ComplianceScan.Name scan ++ "' failed: "
       ++ ComplianceScanStatus.ErrorMessage (ComplianceScan.Status scan))
    [ComplianceScan.Name scan]
    "Review the error message and check scanner pod logs for more details.".

Definition violationsIssue (scan : ComplianceScan.t) : Issue.t :=
  Issue.mk IssueTypeMisconfiguration SeverityWarning
    ("Scan '" ++ ComplianceScan.Name scan ++ "' found compliance violations")
    [ComplianceScan.Name scan]
    "Review failed checks and apply available remediations. Some checks may require manual remediation.".

Definition AnalyzeScanFailure (scan : ComplianceScan.t) : list Issue.t :=
  let status := ComplianceScan.Status scan in
  let issues : list Issue.t := [] in
  if negb (String.eqb (ComplianceScanStatus.Result status) ResultError)
     && negb (String.eqb (ComplianceScanStatus.Result status) ResultNonCompliant)
  then issues
  else
    let issues :=
      if negb (String.eqb (ComplianceScanStatus.ErrorMessage status) "")
      then Go.append issues (scanFailedIssue scan)
      else issues in
    if String.eqb (ComplianceScanStatus.Result status) ResultNonCompliant
    then Go.append issues (violationsIssue scan)
    else issues.

(** ** pkg/mcp: the status overview

    [range] over a map visits every entry once, in an order the language
    leaves to the runtime: each [range] statement asks the world for the
    order of this visit. *)

Module StatusOverviewArgs.
Record t := mk { Namespace : string; SuiteName : option string }.
End StatusOverviewArgs.

Definition LF : string := String "010"%char EmptyString.

Section StatusOverview.
Context {W : Type}.
Variable client : ComplianceClient W.
Variable Now : State W Go.Time.
(** The entries of a map in the order of one [range] over it. *)
Variable rangeMap : ∀ V : Type, gmap string V → State W (list (string * V)).
(** The verb [%.1f] of [fmt.Sprintf]. *)
Variable fmt_f1 : Go.float64 → string.

Definition writePod (output : string) (pod : PodStatus.t) : string :=
  let readyIcon := if PodStatus.Ready pod then "✅" else "❌" in
  output ++ "  - " ++ PodStatus.Name pod ++ ": " ++ PodStatus.Phase pod ++ " " ++ readyIcon
    ++ " (Restarts: " ++ Go.fmt_d (PodStatus.Restarts pod) ++ ")" ++ LF.

(** The section "Operator Health" of the overview. *)
Definition writeOperatorHealth (output : string) (status : OperatorHealthStatus.t) : string :=
  let output := output ++ "## Operator Health" ++ LF ++ LF in
  let output :=
    if OperatorHealthStatus.IsHealthy status
    then output ++ "✅ **Status:** Healthy" ++ LF
    else output ++ "❌ **Status:** Unhealthy" ++ LF in
  let output :=
    output ++ "**Operator Pods:** "
      ++ Go.fmt_d (Z.of_nat (length (OperatorHealthStatus.OperatorPods status))) ++ LF in
  let output := fold_left writePod (OperatorHealthStatus.OperatorPods status) output in
  if (0 <? length (OperatorHealthStatus.Issues status))%nat
  then
    fold_left (λ output issue, output ++ "  - " ++ issue ++ LF)
      (OperatorHealthStatus.Issues status) (output ++ LF ++ "**Issues:**" ++ LF)
  else output.

(** [resultCounts[scanStatus.Result]++] over the scan statuses of a suite. *)
Definition countResults (scanStatuses : list ComplianceScanStatusWrapper.t) : gmap string Z :=
  fold_left
    (λ resultCounts scanStatus,
       let result := ComplianceScanStatusWrapper.Result scanStatus in
       <[result := Go.incr (default 0 (resultCounts !! result))]> resultCounts)
    scanStatuses ∅.

Definition writeResultCount (output : string) (entry : string * Z) : string :=
  output ++ "  - " ++ entry.1 ++ ": " ++ Go.fmt_d entry.2 ++ LF.

(** [for result, count := range resultCounts]: one line per entry, in the
    order of the visit. *)
Definition writeResultCounts (output : string) (resultCounts : gmap string Z)
  : State W string :=
  entries ← rangeMap Z resultCounts;
  mret (fold_left writeResultCount entries output).

(** [for scanName := range operatorStatus.Scans]: the totals behind the
    line "Overall Compliance". *)
Definition addScanChecks (data : ComplianceData.t) (acc : Z * Z * Z)
    (entry : string * ComplianceScan.t) : Z * Z * Z :=
  let '(totalChecks, passedChecks, failedChecks) := acc in
  match ComplianceData.CheckResults data !! entry.1 with
  | Some checkResults =>
      let counts := GetCheckCounts checkResults in
      (Go.add64 totalChecks (CheckCounts.Total counts),
       Go.add64 passedChecks (CheckCounts.Pass counts),
       Go.add64 failedChecks (CheckCounts.Fail counts))
  | None => acc
  end.

Definition writeOverallCompliance (output : string) (data : ComplianceData.t)
  : State W string :=
  entries ← rangeMap ComplianceScan.t (ComplianceData.Scans data);
  let '(totalChecks, passedChecks, failedChecks) :=
    fold_left (addScanChecks data) entries (0, 0, 0) in
  if totalChecks >? 0 then
    let automatedChecks := Go.add64 passedChecks failedChecks in
    if automatedChecks >? 0 then
      let compliancePercentage :=
        Go.fmul (Go.fdiv (Go.float64_of_int passedChecks) (Go.float64_of_int automatedChecks))
                (Go.float64_of_int 100) in
      mret (output ++ LF ++ "**Overall Compliance:** " ++ fmt_f1 compliancePercentage
              ++ "% (" ++ Go.fmt_d passedChecks ++ "/" ++ Go.fmt_d automatedChecks
              ++ " checks passed)" ++ LF)
    else mret output
  else mret output.

(** The body of the loop over [suitesToShow]. *)
Definition writeSuite (data : ComplianceData.t) (output : string) (suite : ComplianceSuite.t)
  : State W string :=
  let status := ComplianceSuite.Status suite in
  let output := output ++ "### " ++ ComplianceSuite.Name suite ++ LF ++ LF in
  let output := output ++ "**Phase:** " ++ ComplianceSuiteStatus.Phase status ++ LF in
  let output := output ++ "**Result:** " ++ ComplianceSuiteStatus.Result status ++ LF in
  let output :=
    if negb (String.eqb (ComplianceSuiteStatus.ErrorMessage status) "")
    then output ++ "**Error:** " ++ ComplianceSuiteStatus.ErrorMessage status ++ LF
    else output in
  output ←
    (if (0 <? length (ComplianceSuiteStatus.ScanStatuses status))%nat then
       let output :=
         output ++ LF ++ "**Scans:** "
           ++ Go.fmt_d (Z.of_nat (length (ComplianceSuiteStatus.ScanStatuses status))) ++ LF in
       let resultCounts := countResults (ComplianceSuiteStatus.ScanStatuses status) in
       output ← writeResultCounts output resultCounts;
       writeOverallCompliance output data
     else mret output);
  mret (output ++ LF).

Fixpoint writeSuites (data : ComplianceData.t) (suites : list ComplianceSuite.t)
    (output : string) : State W string :=
  match suites with
  | [] => mret output
  | suite :: rest => output ← writeSuite data output suite; writeSuites data rest output
  end.

(** The first suite of that name, if any ([break] after the first). *)
Fixpoint filterSuite (suiteName : string) (suites : list ComplianceSuite.t)
  : list ComplianceSuite.t :=
  match suites with
  | [] => []
  | suite :: rest =>
      if String.eqb (ComplianceSuite.Name suite) suiteName then [suite]
      else filterSuite suiteName rest
  end.

Definition addChecks (acc : Z * Z * Z * Z)
    (entry : string * list ComplianceCheckResult.t) : Z * Z * Z * Z :=
  let '(totalChecks, passedChecks, failedChecks, manualChecks) := acc in
  let counts := GetCheckCounts entry.2 in
  (Go.add64 totalChecks (CheckCounts.Total counts),
   Go.add64 passedChecks (CheckCounts.Pass counts),
   Go.add64 failedChecks (CheckCounts.Fail counts),
   Go.add64 manualChecks (CheckCounts.Manual counts)).

(** The section "Summary". *)
Definition writeSummary (output : string) (data : ComplianceData.t) : State W string :=
  let output := output ++ "## Summary" ++ LF ++ LF in
  let output :=
    output ++ "- **Total Suites:** "
      ++ Go.fmt_d (Z.of_nat (length (ComplianceData.Suites data))) ++ LF in
  let output :=
    output ++ "- **Total Scans:** "
      ++ Go.fmt_d (Z.of_nat (size (ComplianceData.Scans data))) ++ LF in
  entries ← rangeMap (list ComplianceCheckResult.t) (ComplianceData.CheckResults data);
  let '(totalChecks, passedChecks, failedChecks, manualChecks) :=
    fold_left addChecks entries (0, 0, 0, 0) in
  let output := output ++ "- **Total Checks:** " ++ Go.fmt_d totalChecks ++ LF in
  let output := output ++ "  - Passed: " ++ Go.fmt_d passedChecks ++ " ✅" ++ LF in
  let output := output ++ "  - Failed: " ++ Go.fmt_d failedChecks ++ " ❌" ++ LF in
  let output := output ++ "  - Manual: " ++ Go.fmt_d manualChecks ++ " ⚠️" ++ LF in
  mret output.

(** [ComplianceStatusOverview] from the point where the data has been
    collected: everything it writes after [CollectAllData] returned. *)
Definition formatStatusOverview (data : ComplianceData.t) (args : StatusOverviewArgs.t)
  : State W (result string) :=
  let output := "# Compliance Operator Status Overview" ++ LF ++ LF in
  let output := writeOperatorHealth output (ComplianceData.OperatorStatus data) in
  let output := output ++ LF ++ "## Compliance Suites" ++ LF ++ LF in
  let suites := ComplianceData.Suites data in
  r ←
    (if (length suites =? 0)%nat then
       mret (inl (output ++ "No compliance suites found." ++ LF))
     else
       match StatusOverviewArgs.SuiteName args with
       | Some suiteName =>
           if negb (String.eqb suiteName "") then
             let suitesToShow := filterSuite suiteName suites in
             if (length suitesToShow =? 0)%nat
             then mret (inr ("suite '" ++ suiteName ++ "' not found"))
             else inl <$> writeSuites data suitesToShow output
           else inl <$> writeSuites data suites output
       | None => inl <$> writeSuites data suites output
       end);
  match r with
  | inr err => mret (inr err)
  | inl output => inl <$> writeSummary output data
  end.

Definition ComplianceStatusOverview (args : StatusOverviewArgs.t) : State W (result string) :=
  r ← CollectAllData client Now;
  match r with
  | inr err => mret (inr (Go.Errorf "failed to collect data: " err))
  | inl operatorStatus => formatStatusOverview operatorStatus args
  end.

End StatusOverview.

(** * The vocabulary of the statements, and inputs for the examples *)

(** ** Tactics *)

Ltac unfold_state :=
  unfold mbind, mret, fmap, State_bind, State_ret, State_fmap in *.

(** Evaluate the comparisons of string constants in the goal. *)
Ltac eval_eqb :=
  repeat match goal with
    | |- context [String.eqb ?a ?b] =>
        let v := eval vm_compute in (String.eqb a b) in
        match v with
        | true => change (String.eqb a b) with true
        | false => change (String.eqb a b) with false
        end
    end.

(** The case analysis of a [switch] on a string: the scrutinee is either
    the constant or different from it. *)
Ltac case_eqb s c :=
  destruct (String.eqb_spec s c) as [->|?].

(** ** For C1: the statuses and their tallies *)

(** The statuses the [switch] of [GetCheckCounts] has a case for. *)
Definition recognised (status : string) : bool :=
  String.eqb status CheckPass || String.eqb status CheckFail
  || String.eqb status CheckManual || String.eqb status CheckError
  || String.eqb status CheckInfo.

Definition hasStatus (status : string) (check : ComplianceCheckResult.t) : bool :=
  String.eqb (ComplianceCheckResult.Status check) status.

Definition isUnrecognised (check : ComplianceCheckResult.t) : bool :=
  negb (recognised (ComplianceCheckResult.Status check)).

(** How many results of the list satisfy [p]. *)
Definition tally (p : ComplianceCheckResult.t → bool) (l : list ComplianceCheckResult.t) : Z :=
  Z.of_nat (length (List.filter p l)).

(** A check result with a status outside the five of types.go. *)
Definition inconsistentCheck : ComplianceCheckResult.t :=
  ComplianceCheckResult.mk "ocp4-cis-audit-log-forwarding" "" "INCONSISTENT" "medium" "" "" "".

Definition sampleChecks : list ComplianceCheckResult.t :=
  [ ComplianceCheckResult.mk "rule-a" "" CheckPass "high" "" "" "";
    ComplianceCheckResult.mk "rule-b" "" CheckFail "low" "" "" "";
    inconsistentCheck ].

(** ** For C8: the percentage of the design document *)

(** The percentage as the design document words it: 100 × Pass / (Pass +
    Fail), and 0 when the denominator is 0; Manual, Error and Info take no
    part. In [float64] it is evaluated as the source evaluates it, the
    quotient first. *)
Definition specPercentage (pass fail : Z) : Go.float64 :=
  if pass + fail =? 0 then Go.float64_of_int 0
  else Go.fmul (Go.fdiv (Go.float64_of_int pass) (Go.float64_of_int (pass + fail)))
               (Go.float64_of_int 100).

(** The literal [CheckCounts{Pass: 3, Fail: 1, Manual: 2}]: the fields it
    does not name, [Total] among them, are zero. *)
Definition countsLiteral : CheckCounts.t := CheckCounts.mk 3 1 2 0 0 0.

(** ** For C5: scans by result and error message *)

Definition scanWith (name result errorMessage : string) : ComplianceScan.t :=
  ComplianceScan.mk name
    (ComplianceScanSpec.mk "Node" "xccdf_org.ssgproject.content_profile_cis" "ssg-ocp4-ds.xml")
    (ComplianceScanStatus.mk PhaseDone result errorMessage None "").

(** ** For C7: out-of-memory containers and issues *)

(** The last termination of the container is there and its reason is
    OOMKilled. *)
Definition isOOMKilled (cs : corev1.ContainerStatus.t) : bool :=
  match corev1.ContainerState.Terminated (corev1.ContainerStatus.LastTerminationState cs) with
  | Some terminated => String.eqb (corev1.ContainerStateTerminated.Reason terminated) "OOMKilled"
  | None => false
  end.

Definition isOOMIssue (issue : Issue.t) : bool :=
  String.eqb (Issue.Type_ issue) IssueTypeOOM.

(** What one pass of each loop body appends. *)
Definition containerIssues (pod : corev1.Pod.t) (cs : corev1.ContainerStatus.t) : list Issue.t :=
  checkContainer pod [] cs.

Definition restartIssues (pod : corev1.Pod.t) (cs : corev1.ContainerStatus.t) : list Issue.t :=
  checkRestartCount pod [] cs.

Definition podIssues (pod : corev1.Pod.t) : list Issue.t := checkFailedPod [] pod.

(** The example of the design document: a scanner pod with a container
    killed for memory after 2 restarts and a healthy one. *)
Definition oomContainer : corev1.ContainerStatus.t :=
  corev1.ContainerStatus.mk "scanner"
    (corev1.ContainerState.mk None None)
    (corev1.ContainerState.mk None (Some (corev1.ContainerStateTerminated.mk 137 "OOMKilled" "")))
    2.

Definition healthyContainer : corev1.ContainerStatus.t :=
  corev1.ContainerStatus.mk "log-collector"
    (corev1.ContainerState.mk None None) (corev1.ContainerState.mk None None) 0.

Definition oomPod : corev1.Pod.t :=
  corev1.Pod.mk "ocp4-cis-node-worker-pod"
    (corev1.PodStatus.mk corev1.PodRunning [] "" [oomContainer; healthyContainer]).

(** ** For C6: the issues of one event, and a cluster for the examples *)

(** What the body of the loop over the events appends for one event. *)
Definition eventIssues (scanName : string) (event : corev1.Event.t) : list Issue.t :=
  checkEvent scanName [] event.

(** A cluster that answers every call the same way every time. *)
Definition staticClient
    (suites : result (list ComplianceSuite.t))
    (scans : string → result (list ComplianceScan.t))
    (checkResults : string → result (list ComplianceCheckResult.t))
    (remediations : string → result (list ComplianceRemediation.t))
    (operatorPods : result (list corev1.Pod.t))
    (scannerPods : string → result (list corev1.Pod.t))
    (events : string → result (list corev1.Event.t)) : ComplianceClient unit :=
  {| GetComplianceSuites := mret suites;
     GetComplianceSuite := λ name, mret (inr ("failed to get compliance suite " ++ name));
     GetComplianceScans := λ suiteLabel, mret (scans suiteLabel);
     GetComplianceCheckResults := λ scanName _, mret (checkResults scanName);
     GetComplianceRemediations := λ scanName, mret (remediations scanName);
     GetOperatorPods := mret operatorPods;
     GetScannerPods := λ scanName, mret (scannerPods scanName);
     GetEvents := λ _ objectName, mret (events objectName) |}.

(** The example of the design document: the same message on a Warning and
    on a Normal event of the scan. *)
Definition forbiddenWarning : corev1.Event.t :=
  corev1.Event.mk (corev1.ObjectReference.mk "ComplianceScan" "ocp4-cis")
    corev1.EventTypeWarning "Forbidden: cannot list pods".

Definition forbiddenNormal : corev1.Event.t :=
  corev1.Event.mk (corev1.ObjectReference.mk "ComplianceScan" "ocp4-cis")
    corev1.EventTypeNormal "Forbidden: cannot list pods".

Definition eventsClient : ComplianceClient unit :=
  staticClient (inl []) (λ _, inl []) (λ _, inl []) (λ _, inl []) (inl []) (λ _, inl [])
    (λ _, inl [forbiddenWarning; forbiddenNormal]).

(** ** For C3: the issues of one scan, and a clock for the examples *)

Definition isStuckScanIssue (issue : Issue.t) : bool :=
  String.eqb (Issue.Type_ issue) IssueTypeStuckScan.

Section StuckScansVocabulary.
Context {W : Type}.
Variable Now : State W Go.Time.
Variable Duration_String : Z → string.

(** The issues the loop body emits for [scan] when its turn comes in the
    world [w], and the world it leaves. *)
Definition scanIssues (scan : ComplianceScan.t) (w : W) : list Issue.t :=
  (checkStuckScan Now Duration_String [] scan w).1.

Definition scanWorld (scan : ComplianceScan.t) (w : W) : W :=
  (checkStuckScan Now Duration_String [] scan w).2.

End StuckScansVocabulary.

(** A clock for the examples: the world is the time of day, and reading it
    takes a microsecond. *)
Definition tickingClock : State Z Go.Time := λ w, (w, w + 1000).

Definition minutesString (d : Z) : string := Go.fmt_d (d / Go.Minute) ++ "m0s".

Definition runningScan (name : string) (start : option Go.Time) : ComplianceScan.t :=
  ComplianceScan.mk name
    (ComplianceScanSpec.mk "Platform" "xccdf_org.ssgproject.content_profile_cis" "ssg-ocp4-ds.xml")
    (ComplianceScanStatus.mk PhaseRunning ResultNotAvailable "" start "").

(** ** For C4: what is recorded for one operator pod *)

(** The exact sum of the restart counts of the containers. *)
Definition sumRestarts (containerStatuses : list corev1.ContainerStatus.t) : Z :=
  fold_right Z.add 0 (map corev1.ContainerStatus.RestartCount containerStatuses).

(** What the body of the loop over the operator pods records for a pod. *)
Definition phaseIssue (pod : corev1.Pod.t) : list string :=
  if String.eqb (corev1.PodStatus.Phase (corev1.Pod.Status pod)) corev1.PodRunning then []
  else ["Pod " ++ corev1.Pod.Name pod ++ " is in phase "
          ++ corev1.PodStatus.Phase (corev1.Pod.Status pod)].

Definition readyIssue (pod : corev1.Pod.t) : list string :=
  if isPodReady pod then [] else ["Pod " ++ corev1.Pod.Name pod ++ " is not ready"].

Definition restartFlag (pod : corev1.Pod.t) : list string :=
  let restarts := countRestarts (corev1.PodStatus.ContainerStatuses (corev1.Pod.Status pod)) in
  if restarts >? 5
  then ["Pod " ++ corev1.Pod.Name pod ++ " has restarted " ++ Go.fmt_d restarts ++ " times"]
  else [].

Definition isRunningAndReady (pod : corev1.Pod.t) : bool :=
  String.eqb (corev1.PodStatus.Phase (corev1.Pod.Status pod)) corev1.PodRunning
  && isPodReady pod.

(** An operator pod, Running and Ready, whose two containers restarted 3
    times each. *)
Definition restartedContainer (name : string) (restarts : Z) : corev1.ContainerStatus.t :=
  corev1.ContainerStatus.mk name
    (corev1.ContainerState.mk None None) (corev1.ContainerState.mk None None) restarts.

Definition operatorPod : corev1.Pod.t :=
  corev1.Pod.mk "compliance-operator-7d9f"
    (corev1.PodStatus.mk corev1.PodRunning
       [corev1.PodCondition.mk corev1.PodReady corev1.ConditionTrue "" ""] ""
       [restartedContainer "compliance-operator" 3; restartedContainer "proxy" 3]).

Definition operatorClient : ComplianceClient unit :=
  staticClient (inl []) (λ _, inl []) (λ _, inl []) (λ _, inl []) (inl [operatorPod])
    (λ _, inl []) (λ _, inl []).

(** ** For C2 and C10: clusters and snapshots that differ in one answer *)

(** Two clusters that answer alike except, possibly, in what they answer
    when the check results of the scan [n] are fetched. *)
Record agreeExcept {W : Type} (n : string) (c1 c2 : ComplianceClient W) : Prop := {
  agree_suites : ∀ w, GetComplianceSuites c1 w = GetComplianceSuites c2 w;
  agree_scans : ∀ label w, GetComplianceScans c1 label w = GetComplianceScans c2 label w;
  agree_checks : ∀ m filter w, m ≠ n →
    GetComplianceCheckResults c1 m filter w = GetComplianceCheckResults c2 m filter w;
  agree_checks_world : ∀ filter w,
    (GetComplianceCheckResults c1 n filter w).2 = (GetComplianceCheckResults c2 n filter w).2;
  agree_remediations : ∀ m w,
    GetComplianceRemediations c1 m w = GetComplianceRemediations c2 m w;
  agree_pods : ∀ w, GetOperatorPods c1 w = GetOperatorPods c2 w
}.

(** Two snapshots that are the same except, possibly, under the key [n] of
    their check results. *)
Definition sameExcept (n : string) (d1 d2 : ComplianceData.t) : Prop :=
  ComplianceData.Suites d1 = ComplianceData.Suites d2 ∧
  ComplianceData.Scans d1 = ComplianceData.Scans d2 ∧
  (∀ key, key ≠ n →
     ComplianceData.CheckResults d1 !! key = ComplianceData.CheckResults d2 !! key) ∧
  ComplianceData.Remediations d1 = ComplianceData.Remediations d2 ∧
  ComplianceData.OperatorStatus d1 = ComplianceData.OperatorStatus d2 ∧
  ComplianceData.Timestamp d1 = ComplianceData.Timestamp d2.

(** A cluster with three scans where the check results of the second
    cannot be fetched. *)
Definition scanNamed (name : string) : ComplianceScan.t :=
  ComplianceScan.mk name
    (ComplianceScanSpec.mk "Node" "xccdf_org.ssgproject.content_profile_cis-node" "ssg-ocp4-ds.xml")
    (ComplianceScanStatus.mk PhaseDone ResultNonCompliant "" None "").

Definition flakyChecks (scanName : string) : result (list ComplianceCheckResult.t) :=
  if String.eqb scanName "ocp4-cis-node-worker"
  then inr "failed to list check results: context deadline exceeded"
  else inl sampleChecks.

Definition partialClient : ComplianceClient unit :=
  staticClient (inl [])
    (λ _, inl [scanNamed "ocp4-cis"; scanNamed "ocp4-cis-node-worker";
               scanNamed "ocp4-cis-node-master"])
    flakyChecks (λ _, inl []) (inl [operatorPod]) (λ _, inl []) (λ _, inl []).

Definition fixedClock : State unit Go.Time := mret 1700000000000000000.

(** The same cluster, but the operator pods cannot be listed while every
    other call, the one for the check results included, succeeds. *)
Definition noPodsClient : ComplianceClient unit :=
  staticClient (inl [])
    (λ _, inl [scanNamed "ocp4-cis"; scanNamed "ocp4-cis-node-master"])
    (λ _, inl sampleChecks) (λ _, inl [])
    (inr "failed to list operator pods: connection refused") (λ _, inl []) (λ _, inl []).

(** ** For C9: orders of visit and the lines of the table *)

(** A [range] oracle is admissible when each visit yields every entry of
    the map once, in some order. *)
Definition rangeValid {W : Type}
    (rangeMap : ∀ V : Type, gmap string V → State W (list (string * V))) : Prop :=
  ∀ (V : Type) (m : gmap string V) (w : W), (rangeMap V m w).1 ≡ₚ map_to_list m.

(** The line of the table for one entry of [resultCounts]. *)
Definition resultCountLine (entry : string * Z) : string :=
  "  - " ++ entry.1 ++ ": " ++ Go.fmt_d entry.2 ++ LF.

(** How many scan statuses of the suite carry the result [result]. *)
Definition statusesWith (result : string) (scanStatuses : list ComplianceScanStatusWrapper.t)
  : Z :=
  Z.of_nat (length (List.filter
    (λ scanStatus, String.eqb (ComplianceScanStatusWrapper.Result scanStatus) result)
    scanStatuses)).

(** Two admissible orders of visit: the entries as [map_to_list] lists
    them, and the same list backwards. *)
Definition rangeAscending (V : Type) (m : gmap string V) : State unit (list (string * V)) :=
  mret (map_to_list m).

Definition rangeDescending (V : Type) (m : gmap string V) : State unit (list (string * V)) :=
  mret (reverse (map_to_list m)).

(** A suite with one compliant and two non-compliant scans, and the
    snapshot that holds it. *)
Definition cisSuite : ComplianceSuite.t :=
  ComplianceSuite.mk "ocp4-cis"
    (ComplianceSuiteStatus.mk PhaseDone ResultNonCompliant ""
       [ ComplianceScanStatusWrapper.mk "ocp4-cis" PhaseDone ResultCompliant;
         ComplianceScanStatusWrapper.mk "ocp4-cis-node-worker" PhaseDone ResultNonCompliant;
         ComplianceScanStatusWrapper.mk "ocp4-cis-node-master" PhaseDone ResultNonCompliant ]).

Definition overviewData : ComplianceData.t :=
  ComplianceData.mk [cisSuite] ∅ ∅ ∅
    (OperatorHealthStatus.mk
       [PodStatus.mk "compliance-operator-7d9f" corev1.PodRunning "" true 0] true [])
    1700000000000000000.

Definition overviewArgs : StatusOverviewArgs.t :=
  StatusOverviewArgs.mk "openshift-compliance" None.

(** No percentage is printed for this snapshot; any rendering will do. *)
Definition noFloat (x : Go.float64) : string := "".

(** * The rest of the sources *)

(** ** analyzer.go: [DetectResourceConstraints] and [AnalyzeAll] *)

Definition resourceConstraintIssue (pod : corev1.Pod.t) (condition : corev1.PodCondition.t)
  : Issue.t :=
  Issue.mk IssueTypeResourceConstraint SeverityCritical
    ("Pod '" ++ corev1.Pod.Name pod ++ "' cannot be scheduled: "
       ++ corev1.PodCondition.Message condition)
    [corev1.Pod.Name pod]
    "Increase cluster resources or reduce scanner pod resource requests in ScanSetting.".

(** The body of the loop over the conditions of a pending pod. *)
Definition checkCondition (pod : corev1.Pod.t) (issues : list Issue.t)
    (condition : corev1.PodCondition.t) : list Issue.t :=
  if String.eqb (corev1.PodCondition.Type_ condition) corev1.PodScheduled
     && String.eqb (corev1.PodCondition.Status condition) corev1.ConditionFalse
  then
    if Go.Contains (corev1.PodCondition.Reason condition) "Insufficient"
       || Go.Contains (corev1.PodCondition.Message condition) "Insufficient"
    then Go.append issues (resourceConstraintIssue pod condition)
    else issues
  else issues.

Definition checkPendingPod (issues : list Issue.t) (pod : corev1.Pod.t) : list Issue.t :=
  if String.eqb (corev1.PodStatus.Phase (corev1.Pod.Status pod)) corev1.PodPending
  then fold_left (checkCondition pod) (corev1.PodStatus.Conditions (corev1.Pod.Status pod)) issues
  else issues.

Definition DetectResourceConstraints (pods : list corev1.Pod.t) : list Issue.t :=
  fold_left checkPendingPod pods [].

Module DiagnosisResult.
Record t := mk {
  Issues : list Issue.t;
  Warnings : list Issue.t;
  Suggestions : list string
}.
End DiagnosisResult.

(** The body of the loop "Separate issues by severity": the two slices it
    appends to, as a pair. *)
Definition separateIssue (acc : list Issue.t * list Issue.t) (issue : Issue.t)
  : list Issue.t * list Issue.t :=
  if String.eqb (Issue.Severity issue) SeverityCritical
  then (Go.append acc.1 issue, acc.2)
  else (acc.1, Go.append acc.2 issue).

Section Analyzer.
Context {W : Type}.
Variable client : ComplianceClient W.
Variable Now : State W Go.Time.
Variable Duration_String : Z → string.

(** The body of the loop over the scans in [AnalyzeAll]: when the scanner
    pods cannot be listed, [continue] leaves the whole body. *)
Definition analyzeScan (issues : list Issue.t) (scan : ComplianceScan.t)
  : State W (list Issue.t) :=
  r ← GetScannerPods client (ComplianceScan.Name scan);
  match r with
  | inr _ => mret issues
  | inl pods =>
      let issues := (issues ++ DetectFailedPods pods)%list in
      let issues := (issues ++ DetectResourceConstraints pods)%list in
      '(permissionIssues, err) ← DetectPermissionIssuesForScan client (ComplianceScan.Name scan);
      match err with
      | None => mret (issues ++ permissionIssues)%list
      | Some _ => mret issues
      end
  end.

Fixpoint analyzeScans (scans : list ComplianceScan.t) (issues : list Issue.t)
  : State W (list Issue.t) :=
  match scans with
  | [] => mret issues
  | scan :: rest => issues ← analyzeScan issues scan; analyzeScans rest issues
  end.

Definition AnalyzeAll : State W (result DiagnosisResult.t) :=
  r ← GetComplianceScans client "";
  match r with
  | inr err => mret (inr (Go.Errorf "failed to get scans: " err))
  | inl scans =>
      stuckIssues ← DetectStuckScans Now Duration_String scans;
      issues ← analyzeScans scans ([] ++ stuckIssues)%list;
      let '(criticalIssues, warnings) := fold_left separateIssue issues ([], []) in
      let suggestions :=
        if (length criticalIssues =? 0)%nat && (length warnings =? 0)%nat
        then Go.append []
               "No issues detected. Compliance operator appears to be functioning normally."
        else [] in
      mret (inl (DiagnosisResult.mk criticalIssues warnings suggestions))
  end.

End Analyzer.

(** ** collector.go: [CollectSuiteData] *)

Module SuiteData.
Record t := mk {
  Suite : ComplianceSuite.t;
  Scans : list ComplianceScan.t;
  CheckResults : gmap string (list ComplianceCheckResult.t);
  Remediations : gmap string (list ComplianceRemediation.t)
}.
End SuiteData.

Section SuiteCollector.
Context {W : Type}.
Variable client : ComplianceClient W.

(** The body of the loop over the scans of the suite. *)
Definition collectSuiteScan (data : SuiteData.t) (scan : ComplianceScan.t)
  : State W SuiteData.t :=
  let name := ComplianceScan.Name scan in
  r ← GetComplianceCheckResults client name "";
  let data :=
    match r with
    | inl checkResults =>
        SuiteData.mk (SuiteData.Suite data) (SuiteData.Scans data)
          (<[name := checkResults]> (SuiteData.CheckResults data)) (SuiteData.Remediations data)
    | inr _ => data
    end in
  r ← GetComplianceRemediations client name;
  let data :=
    match r with
    | inl remediations =>
        SuiteData.mk (SuiteData.Suite data) (SuiteData.Scans data)
          (SuiteData.CheckResults data) (<[name := remediations]> (SuiteData.Remediations data))
    | inr _ => data
    end in
  mret data.

Fixpoint collectSuiteScans (scans : list ComplianceScan.t) (data : SuiteData.t)
  : State W SuiteData.t :=
  match scans with
  | [] => mret data
  | scan :: rest => data ← collectSuiteScan data scan; collectSuiteScans rest data
  end.

Definition CollectSuiteData (suiteName : string) : State W (result SuiteData.t) :=
  r ← GetComplianceSuite client suiteName;
  match r with
  | inr err => mret (inr (Go.Errorf "failed to get suite: " err))
  | inl suite =>
      let data := SuiteData.mk suite [] ∅ ∅ in
      r ← GetComplianceScans client suiteName;
      match r with
      | inr err => mret (inr (Go.Errorf "failed to get scans for suite: " err))
      | inl scans =>
          let data :=
            SuiteData.mk (SuiteData.Suite data) scans
              (SuiteData.CheckResults data) (SuiteData.Remediations data) in
          inl <$> collectSuiteScans scans data
      end
  end.

End SuiteCollector.

(** ** client.go: the client over the Kubernetes libraries

    The conversions read an [unstructured.Unstructured] through the
    accessors of the library and the methods call the dynamic and the typed
    client; these are what the section takes as given. The records of
    the data model keep, of [TypeMeta], [ObjectMeta] and the suite's [Spec],
    the name only, so the conversions are modelled on those fields. *)

Module GroupVersionResource.
Record t := mk { Group : string; Version : string; Resource : string }.
End GroupVersionResource.

Definition ComplianceSuiteGVR : GroupVersionResource.t :=
  GroupVersionResource.mk "compliance.openshift.io" "v1alpha1" "compliancesuites".
Definition ComplianceScanGVR : GroupVersionResource.t :=
  GroupVersionResource.mk "compliance.openshift.io" "v1alpha1" "compliancescans".
Definition ComplianceCheckResultGVR : GroupVersionResource.t :=
  GroupVersionResource.mk "compliance.openshift.io" "v1alpha1" "compliancecheckresults".
Definition ComplianceRemediationGVR : GroupVersionResource.t :=
  GroupVersionResource.mk "compliance.openshift.io" "v1alpha1" "complianceremediations".

Definition SuiteLabel : string := "compliance.openshift.io/suite".
Definition ScanLabel : string := "compliance.openshift.io/scan-name".

Section Client.
Context {W : Type}.
(** [unstructured.Unstructured], its field [Object] and its getters. *)
Variable Unstructured : Type.
Variable Object : Type.
Variable Object_of : Unstructured → Object.
Variable GetName : Unstructured → string.
(** [unstructured.NestedMap], [NestedString] and [NestedBool] on one field
    name, with the results the conversions keep: the value and [found] for a
    map, the value alone for a string or a boolean. *)
Variable NestedMap : Object → string → Object * bool.
Variable NestedString : Object → string → string.
Variable NestedBool : Object → string → bool.
(** [dynamicClient.Resource(gvr).Namespace(ns).List] with a label selector,
    and [.Get] by name. *)
Variable dynamicList :
  GroupVersionResource.t → string → string → State W (result (list Unstructured)).
Variable dynamicGet : GroupVersionResource.t → string → string → State W (result Unstructured).
(** [kubeClient.CoreV1().Pods(ns).List] with a label selector and
    [.Events(ns).List] with a field selector. *)
Variable podsList : string → string → State W (result (list corev1.Pod.t)).
Variable eventsList : string → string → State W (result (list corev1.Event.t)).
(** The field [namespace] of the client. *)
Variable namespace : string.

Definition unstructuredToComplianceSuite (obj : Unstructured) : result ComplianceSuite.t :=
  let name := GetName obj in
  let status0 := ComplianceSuiteStatus.mk "" "" "" [] in
  let '(status, found) := NestedMap (Object_of obj) "status" in
  let status1 :=
    if found then
      ComplianceSuiteStatus.mk (NestedString status "phase") (NestedString status "result")
        (NestedString status "errorMessage") (ComplianceSuiteStatus.ScanStatuses status0)
    else status0 in
  inl (ComplianceSuite.mk name status1).

Definition unstructuredToComplianceScan (obj : Unstructured) : result ComplianceScan.t :=
  let name := GetName obj in
  let spec0 := ComplianceScanSpec.mk "" "" "" in
  let status0 := ComplianceScanStatus.mk "" "" "" None "" in
  let '(spec, found) := NestedMap (Object_of obj) "spec" in
  let spec1 :=
    if found then
      ComplianceScanSpec.mk (NestedString spec "scanType") (NestedString spec "profile")
        (NestedString spec "content")
    else spec0 in
  let '(status, found) := NestedMap (Object_of obj) "status" in
  let status1 :=
    if found then
      ComplianceScanStatus.mk (NestedString status "phase") (NestedString status "result")
        (NestedString status "errorMessage")
        (ComplianceScanStatus.StartTimestamp status0) (ComplianceScanStatus.Warnings status0)
    else status0 in
  inl (ComplianceScan.mk name spec1 status1).

Definition unstructuredToCheckResult (obj : Unstructured) : result ComplianceCheckResult.t :=
  inl (ComplianceCheckResult.mk (GetName obj)
         (NestedString (Object_of obj) "id")
         (NestedString (Object_of obj) "status")
         (NestedString (Object_of obj) "severity")
         (NestedString (Object_of obj) "description")
         (NestedString (Object_of obj) "instructions")
         "").

Definition unstructuredToRemediation (obj : Unstructured) : result ComplianceRemediation.t :=
  let '(spec, found) := NestedMap (Object_of obj) "spec" in
  let apply := if found then NestedBool spec "apply" else false in
  let '(status, found) := NestedMap (Object_of obj) "status" in
  let applicationState := if found then NestedString status "applicationState" else "" in
  inl (ComplianceRemediation.mk (GetName obj) apply applicationState).

(** The loop of the list methods: an item whose conversion returns an
    error is skipped. *)
Definition convertItems {A : Type} (convert : Unstructured → result A)
    (items : list Unstructured) : list A :=
  fold_left
    (λ converted item,
       match convert item with
       | inr _ => converted
       | inl x => Go.append converted x
       end)
    items [].

Definition client_GetComplianceSuites : State W (result (list ComplianceSuite.t)) :=
  r ← dynamicList ComplianceSuiteGVR namespace "";
  match r with
  | inr err => mret (inr (Go.Errorf "failed to list compliance suites: " err))
  | inl items => mret (inl (convertItems unstructuredToComplianceSuite items))
  end.

Definition client_GetComplianceSuite (name : string) : State W (result ComplianceSuite.t) :=
  r ← dynamicGet ComplianceSuiteGVR namespace name;
  match r with
  | inr err => mret (inr (Go.Errorf ("failed to get compliance suite " ++ name ++ ": ") err))
  | inl obj => mret (unstructuredToComplianceSuite obj)
  end.

Definition client_GetComplianceScans (suiteLabel : string)
  : State W (result (list ComplianceScan.t)) :=
  let labelSelector :=
    if negb (String.eqb suiteLabel "") then SuiteLabel ++ "=" ++ suiteLabel else "" in
  r ← dynamicList ComplianceScanGVR namespace labelSelector;
  match r with
  | inr err => mret (inr (Go.Errorf "failed to list compliance scans: " err))
  | inl items => mret (inl (convertItems unstructuredToComplianceScan items))
  end.

Definition client_GetComplianceCheckResults (scanName statusFilter : string)
  : State W (result (list ComplianceCheckResult.t)) :=
  let labelSelector := ScanLabel ++ "=" ++ scanName in
  let labelSelector :=
    if negb (String.eqb statusFilter "")
    then labelSelector ++ "," ++ "compliance.openshift.io/check-status" ++ "=" ++ statusFilter
    else labelSelector in
  r ← dynamicList ComplianceCheckResultGVR namespace labelSelector;
  match r with
  | inr err => mret (inr (Go.Errorf "failed to list check results: " err))
  | inl items => mret (inl (convertItems unstructuredToCheckResult items))
  end.

Definition client_GetComplianceRemediations (scanName : string)
  : State W (result (list ComplianceRemediation.t)) :=
  let labelSelector :=
    if negb (String.eqb scanName "") then ScanLabel ++ "=" ++ scanName else "" in
  r ← dynamicList ComplianceRemediationGVR namespace labelSelector;
  match r with
  | inr err => mret (inr (Go.Errorf "failed to list remediations: " err))
  | inl items => mret (inl (convertItems unstructuredToRemediation items))
  end.

Definition client_GetOperatorPods : State W (result (list corev1.Pod.t)) :=
  r ← podsList namespace "name=compliance-operator";
  match r with
  | inr err => mret (inr (Go.Errorf "failed to list operator pods: " err))
  | inl pods => mret (inl pods)
  end.

Definition client_GetScannerPods (scanName : string) : State W (result (list corev1.Pod.t)) :=
  r ← podsList namespace (ScanLabel ++ "=" ++ scanName ++ ",workload=scanner");
  match r with
  | inr err => mret (inr (Go.Errorf "failed to list scanner pods: " err))
  | inl pods => mret (inl pods)
  end.

Definition client_GetEvents (objectKind objectName : string)
  : State W (result (list corev1.Event.t)) :=
  r ← eventsList namespace
        ("involvedObject.kind=" ++ objectKind ++ ",involvedObject.name=" ++ objectName);
  match r with
  | inr err => mret (inr (Go.Errorf "failed to list events: " err))
  | inl events => mret (inl events)
  end.

(** The methods of [*ComplianceClient], as [ComplianceClient] has them. *)
Definition kubeComplianceClient : ComplianceClient W :=
  {| GetComplianceSuites := client_GetComplianceSuites;
     GetComplianceSuite := client_GetComplianceSuite;
     GetComplianceScans := client_GetComplianceScans;
     GetComplianceCheckResults := client_GetComplianceCheckResults;
     GetComplianceRemediations := client_GetComplianceRemediations;
     GetOperatorPods := client_GetOperatorPods;
     GetScannerPods := client_GetScannerPods;
     GetEvents := client_GetEvents |}.

End Client.

(** * More vocabulary and inputs *)

(** ** For the other rules of [DetectStuckScans] *)

Definition isFailedPodIssue (issue : Issue.t) : bool :=
  String.eqb (Issue.Type_ issue) IssueTypeFailedPod.

Definition hasErrorResult (scan : ComplianceScan.t) : bool :=
  String.eqb (ComplianceScanStatus.Result (ComplianceScan.Status scan)) ResultError.

Definition launchingScan (name : string) (start : option Go.Time) : ComplianceScan.t :=
  ComplianceScan.mk name
    (ComplianceScanSpec.mk "Node" "xccdf_org.ssgproject.content_profile_moderate" "ssg-rhcos4-ds.xml")
    (ComplianceScanStatus.mk PhaseLaunching ResultNotAvailable "" start "").

(** What an issue of [DetectStuckScans] looks like. *)
Definition stuckScanShape (scans : list ComplianceScan.t) (issue : Issue.t) : Prop :=
  Issue.Severity issue = SeverityCritical ∧
  (Issue.Type_ issue = IssueTypeStuckScan ∨ Issue.Type_ issue = IssueTypeFailedPod) ∧
  ∃ scan, scan ∈ scans ∧ Issue.Resources issue = [ComplianceScan.Name scan].


(** Close a goal on the number and the shape of the issues of one scan. *)
Ltac shape_done Hrun Hlaunch Herr :=
  split;
  [ simpl; lia
  | repeat first
      [ apply List.Forall_nil
      | apply List.Forall_cons; [first [apply Hrun | exact Hlaunch | exact Herr]|] ] ].

(** ** For the other rules of [DetectFailedPods] and for
    [DetectResourceConstraints] *)

Definition isWarningIssue (issue : Issue.t) : bool :=
  String.eqb (Issue.Severity issue) SeverityWarning.

Definition hasHighRestarts (cs : corev1.ContainerStatus.t) : bool :=
  corev1.ContainerStatus.RestartCount cs >? 5.

(** The issue of a container for its waiting reason, if any. *)
Definition waitingIssues (pod : corev1.Pod.t) (cs : corev1.ContainerStatus.t) : list Issue.t :=
  match corev1.ContainerState.Waiting (corev1.ContainerStatus.State cs) with
  | Some waiting =>
      let reason := corev1.ContainerStateWaiting.Reason waiting in
      if String.eqb reason "ImagePullBackOff" || String.eqb reason "ErrImagePull"
      then [imagePullIssue pod waiting]
      else if String.eqb reason "CrashLoopBackOff" then [crashLoopIssue pod] else []
  | None => []
  end.

(** A container no rule of [DetectFailedPods] fires on. *)
Definition containerIsQuiet (cs : corev1.ContainerStatus.t) : Prop :=
  (∀ waiting,
     corev1.ContainerState.Waiting (corev1.ContainerStatus.State cs) = Some waiting →
     corev1.ContainerStateWaiting.Reason waiting ≠ "ImagePullBackOff" ∧
     corev1.ContainerStateWaiting.Reason waiting ≠ "ErrImagePull" ∧
     corev1.ContainerStateWaiting.Reason waiting ≠ "CrashLoopBackOff") ∧
  (∀ terminated,
     corev1.ContainerState.Terminated (corev1.ContainerStatus.LastTerminationState cs)
       = Some terminated →
     corev1.ContainerStateTerminated.Reason terminated ≠ "OOMKilled") ∧
  corev1.ContainerStatus.RestartCount cs ≤ 5.

Definition podIsQuiet (pod : corev1.Pod.t) : Prop :=
  corev1.PodStatus.Phase (corev1.Pod.Status pod) ≠ corev1.PodFailed ∧
  ∀ cs, cs ∈ corev1.PodStatus.ContainerStatuses (corev1.Pod.Status pod) → containerIsQuiet cs.

(** What an issue of [DetectFailedPods] looks like. *)
Definition failedPodShape (pods : list corev1.Pod.t) (issue : Issue.t) : Prop :=
  (Issue.Severity issue = SeverityCritical ∨
   Issue.Severity issue = SeverityWarning ∧ Issue.Type_ issue = IssueTypeFailedPod) ∧
  (Issue.Type_ issue = IssueTypeFailedPod ∨ Issue.Type_ issue = IssueTypeOOM) ∧
  ∃ pod, pod ∈ pods ∧ Issue.Resources issue = [corev1.Pod.Name pod].

(** The condition [DetectResourceConstraints] looks for. *)
Definition isUnschedulable (condition : corev1.PodCondition.t) : bool :=
  String.eqb (corev1.PodCondition.Type_ condition) corev1.PodScheduled
  && String.eqb (corev1.PodCondition.Status condition) corev1.ConditionFalse
  && (Go.Contains (corev1.PodCondition.Reason condition) "Insufficient"
      || Go.Contains (corev1.PodCondition.Message condition) "Insufficient").

Definition isPending (pod : corev1.Pod.t) : bool :=
  String.eqb (corev1.PodStatus.Phase (corev1.Pod.Status pod)) corev1.PodPending.

(** A scanner pod with a crash-looping container that restarted 7 times,
    and a pending pod the scheduler found no memory for. *)
Definition crashingPod : corev1.Pod.t :=
  corev1.Pod.mk "ocp4-cis-api-checks-pod"
    (corev1.PodStatus.mk corev1.PodRunning [] ""
       [corev1.ContainerStatus.mk "scanner"
          (corev1.ContainerState.mk
             (Some (corev1.ContainerStateWaiting.mk "CrashLoopBackOff" "back-off 5m0s")) None)
          (corev1.ContainerState.mk None None) 7]).

Definition pendingPod : corev1.Pod.t :=
  corev1.Pod.mk "ocp4-cis-node-worker-0-pod"
    (corev1.PodStatus.mk corev1.PodPending
       [corev1.PodCondition.mk corev1.PodScheduled corev1.ConditionFalse "Unschedulable"
          "0/3 nodes are available: 3 Insufficient memory."] "" []).

(** ** For [AnalyzeAll] *)

Definition isCriticalIssue (issue : Issue.t) : bool :=
  String.eqb (Issue.Severity issue) SeverityCritical.

(** What an issue collected by [AnalyzeAll] looks like: it names a
    resource, and it is Critical unless it is the restart warning. *)
Definition diagnosisShape (issue : Issue.t) : Prop :=
  Issue.Resources issue ≠ [] ∧
  (Issue.Severity issue = SeverityCritical ∨
   Issue.Severity issue = SeverityWarning ∧ Issue.Type_ issue = IssueTypeFailedPod).

Definition noIssuesSuggestion : string :=
  "No issues detected. Compliance operator appears to be functioning normally.".

(** A cluster with one scan whose scanner pod crash-loops, and the same
    cluster when its pods cannot be listed. *)
Definition crashingClient : ComplianceClient unit :=
  staticClient (inl []) (λ _, inl [scanNamed "ocp4-cis"]) (λ _, inl []) (λ _, inl [])
    (inl [operatorPod]) (λ _, inl [crashingPod]) (λ _, inl [forbiddenWarning]).

Definition podlessClient : ComplianceClient unit :=
  staticClient (inl []) (λ _, inl [scanWith "ocp4-cis" ResultError "scanner failed"])
    (λ _, inl []) (λ _, inl [])
    (inl [operatorPod]) (λ _, inr "failed to list scanner pods: forbidden")
    (λ _, inl [forbiddenWarning]).

Section AnalyzerVocabulary.
Context {W : Type}.
Variable client : ComplianceClient W.
Variable Now : State W Go.Time.
Variable Duration_String : Z → string.

(** The issues [AnalyzeAll] collects before it separates them, and the
    world after the collection. *)
Definition collectedIssues (scans : list ComplianceScan.t) (w : W) : list Issue.t * W :=
  let stuck := DetectStuckScans Now Duration_String scans w in
  let analyzed := analyzeScans client scans [] stuck.2 in
  ((stuck.1 ++ analyzed.1)%list, analyzed.2).

End AnalyzerVocabulary.
Arguments collectedIssues : simpl never.

(** ** For the collector *)

(** The entry of [OperatorPods] for a pod. *)
Definition podStatusOf (pod : corev1.Pod.t) : PodStatus.t :=
  let phase := corev1.PodStatus.Phase (corev1.Pod.Status pod) in
  PodStatus.mk (corev1.Pod.Name pod) phase
    (if String.eqb phase corev1.PodRunning then "" else phase)
    (isPodReady pod)
    (countRestarts (corev1.PodStatus.ContainerStatuses (corev1.Pod.Status pod))).

Definition isReadyCondition (condition : corev1.PodCondition.t) : bool :=
  String.eqb (corev1.PodCondition.Type_ condition) corev1.PodReady.

(** A pod whose first Ready condition says False and a later one True. *)
Definition twiceReadyPod : corev1.Pod.t :=
  corev1.Pod.mk "compliance-operator-5c6b"
    (corev1.PodStatus.mk corev1.PodRunning
       [ corev1.PodCondition.mk corev1.PodScheduled corev1.ConditionTrue "" "";
         corev1.PodCondition.mk corev1.PodReady corev1.ConditionFalse "ContainersNotReady" "";
         corev1.PodCondition.mk corev1.PodReady corev1.ConditionTrue "" "" ] "" []).

(** A cluster where the remediations of one scan cannot be fetched. *)
Definition flakyRemediations (scanName : string) : result (list ComplianceRemediation.t) :=
  if String.eqb scanName "ocp4-cis-node-worker"
  then inr "failed to list remediations: context deadline exceeded"
  else inl [ComplianceRemediation.mk "ocp4-cis-api-server-encryption" false "NotApplied"].

Definition remediationClient : ComplianceClient unit :=
  staticClient (inl [])
    (λ _, inl [scanNamed "ocp4-cis"; scanNamed "ocp4-cis-node-worker"])
    (λ _, inl sampleChecks) flakyRemediations (inl [operatorPod]) (λ _, inl []) (λ _, inl []).


(** ** Vocabulary for the overview *)

(** Every scan status of the suite carries the same result. *)
Definition oneResult (suite : ComplianceSuite.t) : Prop :=
  ∀ s1 s2,
    s1 ∈ ComplianceSuiteStatus.ScanStatuses (ComplianceSuite.Status suite) →
    s2 ∈ ComplianceSuiteStatus.ScanStatuses (ComplianceSuite.Status suite) →
    ComplianceScanStatusWrapper.Result s1 = ComplianceScanStatusWrapper.Result s2.

(** A suite whose three scans are all non-compliant, and a snapshot with
    the check results of two of them. *)
Definition failingSuite : ComplianceSuite.t :=
  ComplianceSuite.mk "ocp4-moderate"
    (ComplianceSuiteStatus.mk PhaseDone ResultNonCompliant ""
       [ ComplianceScanStatusWrapper.mk "ocp4-moderate" PhaseDone ResultNonCompliant;
         ComplianceScanStatusWrapper.mk "rhcos4-moderate-worker" PhaseDone ResultNonCompliant;
         ComplianceScanStatusWrapper.mk "rhcos4-moderate-master" PhaseDone ResultNonCompliant ]).

Definition failingData : ComplianceData.t :=
  ComplianceData.mk [failingSuite]
    (<["ocp4-moderate" := scanNamed "ocp4-moderate"]>
       (<["rhcos4-moderate-worker" := scanNamed "rhcos4-moderate-worker"]> ∅))
    (<["ocp4-moderate" := sampleChecks]>
       (<["rhcos4-moderate-worker" := sampleChecks]> ∅))
    ∅
    (OperatorHealthStatus.mk
       [PodStatus.mk "compliance-operator-7d9f" corev1.PodRunning "" true 0] true [])
    1700000000000000000.


(** ** A cluster for the examples of the client

    An object is given by its name; its [spec] and [status] are found, every
    object is DONE and NON-COMPLIANT, and every listing answers the same two
    objects. *)
Definition sampleNestedMap (object : string) (field : string) : string * bool := (object, true).

Definition sampleNestedString (object : string) (field : string) : string :=
  if String.eqb field "phase" then PhaseDone
  else if String.eqb field "result" then ResultNonCompliant
  else "".

Definition sampleNestedBool (object : string) (field : string) : bool := false.

Definition sampleList (gvr : GroupVersionResource.t) (namespace labelSelector : string)
  : State unit (result (list string)) :=
  mret (inl ["ocp4-cis"; "ocp4-cis-node-worker"]).

Definition sampleGet (gvr : GroupVersionResource.t) (namespace name : string)
  : State unit (result string) :=
  mret (inl name).

Definition sampleKubeClient : ComplianceClient unit :=
  kubeComplianceClient string string id id sampleNestedMap sampleNestedString sampleNestedBool
    sampleList sampleGet
    (λ _ _, mret (inl [operatorPod])) (λ _ _, mret (inl []))
    "openshift-compliance".

(** * Properties *)

(** ** Integer wrap-around *)

Lemma wrap64_small (z : Z) : Go.MinInt ≤ z ≤ Go.MaxInt → Go.wrap64 z = z.
Proof.
  unfold Go.MinInt, Go.MaxInt, Go.wrap64. intros Hz.
  rewrite Z.mod_small by lia. lia.
Qed.

Lemma incr_small (z : Z) : 0 ≤ z < Go.MaxInt → Go.incr z = z + 1.
Proof.
  intros Hz. unfold Go.incr. apply wrap64_small.
  unfold Go.MinInt, Go.MaxInt in *. lia.
Qed.

(** ** C1: the tally of [GetCheckCounts] *)

Lemma hasStatus_mk status n i st sev d ins r :
  hasStatus status (ComplianceCheckResult.mk n i st sev d ins r) = String.eqb st status.
Proof. reflexivity. Qed.

Lemma tally_nil p : tally p [] = 0.
Proof. reflexivity. Qed.

Lemma tally_cons p c l :
  tally p (c :: l) = (if p c then 1 else 0) + tally p l.
Proof. unfold tally. simpl. destruct (p c); simpl length; lia. Qed.

Lemma tally_bounds p l : 0 ≤ tally p l ≤ Z.of_nat (length l).
Proof.
  unfold tally. split; [lia|].
  apply inj_le. induction l as [|c l IH]; simpl; [lia|].
  destruct (p c); simpl; lia.
Qed.

(** Every result falls in exactly one of the six classes. *)
Lemma tally_partition l :
  tally (hasStatus CheckPass) l + tally (hasStatus CheckFail) l
  + tally (hasStatus CheckManual) l + tally (hasStatus CheckError) l
  + tally (hasStatus CheckInfo) l + tally isUnrecognised l
  = Z.of_nat (length l).
Proof.
  induction l as [|c l IH]; [reflexivity|].
  rewrite !tally_cons. simpl length. rewrite Nat2Z.inj_succ.
  unfold hasStatus, isUnrecognised, recognised in *.
  destruct c as [? ? status ? ? ? ?]. simpl ComplianceCheckResult.Status.
  case_eqb status CheckPass; [eval_eqb; simpl; lia|].
  case_eqb status CheckFail; [eval_eqb; simpl; lia|].
  case_eqb status CheckManual; [eval_eqb; simpl; lia|].
  case_eqb status CheckError; [eval_eqb; simpl; lia|].
  case_eqb status CheckInfo; [eval_eqb; simpl; lia|].
  simpl. lia.
Qed.

(** The loop invariant: while the total fits an [int], no counter wraps,
    and every counter has grown by the tally of its own status. *)
Lemma fold_countCheck (l : list ComplianceCheckResult.t) (acc : CheckCounts.t) :
  0 ≤ CheckCounts.Pass acc ≤ CheckCounts.Total acc →
  0 ≤ CheckCounts.Fail acc ≤ CheckCounts.Total acc →
  0 ≤ CheckCounts.Manual acc ≤ CheckCounts.Total acc →
  0 ≤ CheckCounts.Error acc ≤ CheckCounts.Total acc →
  0 ≤ CheckCounts.Info acc ≤ CheckCounts.Total acc →
  CheckCounts.Total acc + Z.of_nat (length l) ≤ Go.MaxInt →
  fold_left countCheck l acc =
    CheckCounts.mk
      (CheckCounts.Pass acc + tally (hasStatus CheckPass) l)
      (CheckCounts.Fail acc + tally (hasStatus CheckFail) l)
      (CheckCounts.Manual acc + tally (hasStatus CheckManual) l)
      (CheckCounts.Error acc + tally (hasStatus CheckError) l)
      (CheckCounts.Info acc + tally (hasStatus CheckInfo) l)
      (CheckCounts.Total acc + Z.of_nat (length l)).
Proof.
  revert acc. induction l as [|c l IH]; intros [p f m e i t]; simpl CheckCounts.Pass;
    simpl CheckCounts.Fail; simpl CheckCounts.Manual; simpl CheckCounts.Error;
    simpl CheckCounts.Info; simpl CheckCounts.Total; intros Hp Hf Hm He Hi Ht.
  - rewrite !tally_nil. simpl. f_equal; lia.
  - simpl length in *. rewrite Nat2Z.inj_succ in *.
    rewrite !tally_cons. simpl fold_left.
    destruct c as [? ? status ? ? ? ?].
    rewrite !hasStatus_mk. unfold countCheck. simpl.
    rewrite (incr_small t) by lia.
    case_eqb status CheckPass.
    { eval_eqb. rewrite incr_small by lia. rewrite IH; simpl; try lia. f_equal; lia. }
    case_eqb status CheckFail.
    { eval_eqb. rewrite incr_small by lia. rewrite IH; simpl; try lia. f_equal; lia. }
    case_eqb status CheckManual.
    { eval_eqb. rewrite incr_small by lia. rewrite IH; simpl; try lia. f_equal; lia. }
    case_eqb status CheckError.
    { eval_eqb. rewrite incr_small by lia. rewrite IH; simpl; try lia. f_equal; lia. }
    case_eqb status CheckInfo.
    { eval_eqb. rewrite incr_small by lia. rewrite IH; simpl; try lia. f_equal; lia. }
    rewrite IH; simpl; try lia. f_equal; lia.
Qed.

Lemma GetCheckCounts_tallies (l : list ComplianceCheckResult.t) :
  Z.of_nat (length l) ≤ Go.MaxInt →
  GetCheckCounts l =
    CheckCounts.mk (tally (hasStatus CheckPass) l) (tally (hasStatus CheckFail) l)
      (tally (hasStatus CheckManual) l) (tally (hasStatus CheckError) l)
      (tally (hasStatus CheckInfo) l) (Z.of_nat (length l)).
Proof.
  intros Hlen. unfold GetCheckCounts.
  rewrite fold_countCheck; simpl; try lia. reflexivity.
Qed.

Lemma tally_unrecognised_zero (l : list ComplianceCheckResult.t) :
  tally isUnrecognised l = 0 ↔
  Forall (λ check, recognised (ComplianceCheckResult.Status check) = true) l.
Proof.
  induction l as [|c l IH].
  - split; [constructor | reflexivity].
  - rewrite tally_cons. pose proof (tally_bounds isUnrecognised l) as Hb.
    unfold isUnrecognised at 1.
    destruct (recognised (ComplianceCheckResult.Status c)) eqn:Hc; simpl.
    + rewrite IH. split.
      * intros Hl. constructor; assumption.
      * intros Hl. inversion Hl; assumption.
    + split; [lia|]. intros Hl. inversion Hl as [|? ? Hc' ?]. congruence.
Qed.

(** C1, as stated, does not hold: one result whose status is none of PASS,
    FAIL, MANUAL, ERROR, INFO is counted in [Total] and in no other counter,
    so [Total] is 1 and the sum of the five counters is 0. *)
Lemma GetCheckCounts_total_not_sum :
  CheckCounts.Total (GetCheckCounts [inconsistentCheck]) = 1 ∧
  CheckCounts.Pass (GetCheckCounts [inconsistentCheck])
  + CheckCounts.Fail (GetCheckCounts [inconsistentCheck])
  + CheckCounts.Manual (GetCheckCounts [inconsistentCheck])
  + CheckCounts.Error (GetCheckCounts [inconsistentCheck])
  + CheckCounts.Info (GetCheckCounts [inconsistentCheck]) = 0 ∧
  CheckCounts.Total (GetCheckCounts [inconsistentCheck]) ≠
  CheckCounts.Pass (GetCheckCounts [inconsistentCheck])
  + CheckCounts.Fail (GetCheckCounts [inconsistentCheck])
  + CheckCounts.Manual (GetCheckCounts [inconsistentCheck])
  + CheckCounts.Error (GetCheckCounts [inconsistentCheck])
  + CheckCounts.Info (GetCheckCounts [inconsistentCheck]).
Proof. vm_compute. repeat split; discriminate. Qed.

(** C1 (amended): for every list of check results of length N (a slice
    never holds more than [MaxInt] elements), [GetCheckCounts] returns
    counts whose [Total] is N; the five status counters and the number of
    results with an unrecognised status add up to [Total]; hence [Total]
    equals Pass + Fail + Manual + Error + Info exactly when every status of
    the list is one of PASS, FAIL, MANUAL, ERROR, INFO. *)
Theorem GetCheckCounts_total (l : list ComplianceCheckResult.t) :
  Z.of_nat (length l) ≤ Go.MaxInt →
  CheckCounts.Total (GetCheckCounts l) = Z.of_nat (length l) ∧
  CheckCounts.Pass (GetCheckCounts l) + CheckCounts.Fail (GetCheckCounts l)
  + CheckCounts.Manual (GetCheckCounts l) + CheckCounts.Error (GetCheckCounts l)
  + CheckCounts.Info (GetCheckCounts l) + tally isUnrecognised l
  = CheckCounts.Total (GetCheckCounts l) ∧
  (CheckCounts.Total (GetCheckCounts l)
   = CheckCounts.Pass (GetCheckCounts l) + CheckCounts.Fail (GetCheckCounts l)
     + CheckCounts.Manual (GetCheckCounts l) + CheckCounts.Error (GetCheckCounts l)
     + CheckCounts.Info (GetCheckCounts l)
   ↔ Forall (λ check, recognised (ComplianceCheckResult.Status check) = true) l).
Proof.
  intros Hlen. rewrite GetCheckCounts_tallies by assumption. simpl.
  pose proof (tally_partition l) as Hpart.
  split; [reflexivity|]. split; [lia|].
  rewrite <- tally_unrecognised_zero. lia.
Qed.

Lemma GetCheckCounts_total_witness :
  Z.of_nat (length sampleChecks) ≤ Go.MaxInt ∧
  CheckCounts.Total (GetCheckCounts sampleChecks) = 3 ∧
  CheckCounts.Pass (GetCheckCounts sampleChecks) + CheckCounts.Fail (GetCheckCounts sampleChecks)
  + CheckCounts.Manual (GetCheckCounts sampleChecks) + CheckCounts.Error (GetCheckCounts sampleChecks)
  + CheckCounts.Info (GetCheckCounts sampleChecks) + tally isUnrecognised sampleChecks
  = CheckCounts.Total (GetCheckCounts sampleChecks).
Proof.
  assert (Hlen : Z.of_nat (length sampleChecks) ≤ Go.MaxInt)
    by (unfold Go.MaxInt; simpl; lia).
  split; [exact Hlen|].
  destruct (GetCheckCounts_total sampleChecks Hlen) as (Htotal & Hsum & _).
  split; [exact Htotal | exact Hsum].
Defined.

(** ** C8: the compliance percentage *)

(** C8, as stated, does not hold: for the counts {Pass:3, Fail:1, Manual:2},
    whose [Total] is 0, the guard on [Total] answers 0 although Pass + Fail
    is 4, where the claim says 75. *)
Lemma CalculateCompliancePercentage_zero_total :
  CheckCounts.Pass countsLiteral + CheckCounts.Fail countsLiteral = 4 ∧
  CalculateCompliancePercentage countsLiteral = Go.float64_of_int 0 ∧
  CalculateCompliancePercentage countsLiteral ≠ Go.float64_of_int 75.
Proof. vm_compute. repeat split; discriminate. Qed.

(** C8 (amended): for every [CheckCounts] value whose Pass + Fail fits an
    [int], [CalculateCompliancePercentage] returns 0 when [Total] is 0, and
    otherwise 100 × Pass / (Pass + Fail) (0 when Pass + Fail = 0), whatever
    Manual, Error and Info are. *)
Theorem CalculateCompliancePercentage_spec (counts : CheckCounts.t) :
  Go.MinInt ≤ CheckCounts.Pass counts + CheckCounts.Fail counts ≤ Go.MaxInt →
  CalculateCompliancePercentage counts =
    if CheckCounts.Total counts =? 0 then Go.float64_of_int 0
    else specPercentage (CheckCounts.Pass counts) (CheckCounts.Fail counts).
Proof.
  intros Hrange. unfold CalculateCompliancePercentage, specPercentage, Go.add64.
  rewrite wrap64_small by assumption. reflexivity.
Qed.

(** The three examples of the design document, with [Total] as
    [GetCheckCounts] sets it: 75.0, 0.0 and 100.0. *)
Lemma CalculateCompliancePercentage_spec_witness :
  (Go.MinInt ≤ 3 + 1 ≤ Go.MaxInt) ∧
  CalculateCompliancePercentage (CheckCounts.mk 3 1 2 0 0 6) = Go.float64_of_int 75 ∧
  CalculateCompliancePercentage (CheckCounts.mk 0 0 0 0 0 0) = Go.float64_of_int 0 ∧
  CalculateCompliancePercentage (CheckCounts.mk 5 0 0 0 0 5) = Go.float64_of_int 100.
Proof.
  assert (H31 : Go.MinInt ≤ 3 + 1 ≤ Go.MaxInt) by (unfold Go.MinInt, Go.MaxInt; lia).
  assert (H00 : Go.MinInt ≤ 0 + 0 ≤ Go.MaxInt) by (unfold Go.MinInt, Go.MaxInt; lia).
  assert (H50 : Go.MinInt ≤ 5 + 0 ≤ Go.MaxInt) by (unfold Go.MinInt, Go.MaxInt; lia).
  split; [exact H31|]. split; [|split].
  - rewrite (CalculateCompliancePercentage_spec (CheckCounts.mk 3 1 2 0 0 6) H31).
    vm_compute. reflexivity.
  - rewrite (CalculateCompliancePercentage_spec (CheckCounts.mk 0 0 0 0 0 0) H00).
    vm_compute. reflexivity.
  - rewrite (CalculateCompliancePercentage_spec (CheckCounts.mk 5 0 0 0 0 5) H50).
    vm_compute. reflexivity.
Defined.

(** ** Loops that only append *)

(** A loop whose body appends to the slice what [g] yields for the element
    computes the concatenation of these yields. *)
Lemma fold_left_emit {A B : Type} (f : list B → A → list B) (g : A → list B) :
  (∀ acc x, f acc x = (acc ++ g x)%list) →
  ∀ l acc, fold_left f l acc = (acc ++ flat_map g l)%list.
Proof.
  intros Hf l. induction l as [|x l IH]; intros acc; simpl.
  - symmetry. apply app_nil_r.
  - rewrite IH, Hf. symmetry. apply app_assoc.
Qed.

Lemma filter_flat_map {A B : Type} (p : B → bool) (g : A → list B) (l : list A) :
  List.filter p (flat_map g l) = flat_map (λ x, List.filter p (g x)) l.
Proof.
  induction l as [|x l IH]; simpl; [reflexivity|].
  rewrite List.filter_app, IH. reflexivity.
Qed.

(** ** C5: [AnalyzeScanFailure] *)

(** What [AnalyzeScanFailure] returns, by cases. *)
Lemma AnalyzeScanFailure_cases (scan : ComplianceScan.t) :
  AnalyzeScanFailure scan =
    ((if (String.eqb (ComplianceScanStatus.Result (ComplianceScan.Status scan)) ResultError
          || String.eqb (ComplianceScanStatus.Result (ComplianceScan.Status scan)) ResultNonCompliant)
         && negb (String.eqb (ComplianceScanStatus.ErrorMessage (ComplianceScan.Status scan)) "")
      then [scanFailedIssue scan] else [])
     ++
     (if String.eqb (ComplianceScanStatus.Result (ComplianceScan.Status scan)) ResultNonCompliant
      then [violationsIssue scan] else []))%list.
Proof.
  unfold AnalyzeScanFailure, Go.append.
  destruct scan as [name spec [phase result msg start warnings]]; simpl.
  case_eqb result ResultError.
  { eval_eqb. simpl. destruct (String.eqb msg ""); reflexivity. }
  case_eqb result ResultNonCompliant.
  { eval_eqb. simpl. destruct (String.eqb msg ""); reflexivity. }
  reflexivity.
Qed.

(** C5, as stated, does not hold, in both directions: a scan whose result
    is ERROR and whose error message is empty gets no issue at all, and a
    scan whose result is NON-COMPLIANT and whose error message is not empty
    gets the Critical issue quoting the message next to the Warning. *)
Lemma AnalyzeScanFailure_not_by_result_alone :
  AnalyzeScanFailure (scanWith "ocp4-cis" ResultError "") = [] ∧
  AnalyzeScanFailure (scanWith "ocp4-cis" ResultNonCompliant "content not found") =
    [ scanFailedIssue (scanWith "ocp4-cis" ResultNonCompliant "content not found");
      violationsIssue (scanWith "ocp4-cis" ResultNonCompliant "content not found") ] ∧
  Issue.Severity (scanFailedIssue (scanWith "ocp4-cis" ResultNonCompliant "content not found"))
    = SeverityCritical.
Proof. vm_compute. repeat split. Qed.

(** C5 (amended): for every scan, [AnalyzeScanFailure] returns a Critical
    issue if and only if the scan's result is Error or NonCompliant and its
    error message is not empty, and that issue quotes the message; it
    returns a Warning issue, the one suggesting to review remediations, if
    and only if the result is NonCompliant; it returns no issues for any
    other result. *)
Theorem AnalyzeScanFailure_spec (scan : ComplianceScan.t) :
  ((∃ issue, issue ∈ AnalyzeScanFailure scan ∧ Issue.Severity issue = SeverityCritical)
   ↔ (ComplianceScanStatus.Result (ComplianceScan.Status scan) = ResultError
      ∨ ComplianceScanStatus.Result (ComplianceScan.Status scan) = ResultNonCompliant)
     ∧ ComplianceScanStatus.ErrorMessage (ComplianceScan.Status scan) ≠ "") ∧
  (∀ issue, issue ∈ AnalyzeScanFailure scan → Issue.Severity issue = SeverityCritical →
     Issue.Description issue =
       "Scan '" ++ ComplianceScan.Name scan ++ "' failed: "
         ++ ComplianceScanStatus.ErrorMessage (ComplianceScan.Status scan)) ∧
  ((∃ issue, issue ∈ AnalyzeScanFailure scan ∧ Issue.Severity issue = SeverityWarning)
   ↔ ComplianceScanStatus.Result (ComplianceScan.Status scan) = ResultNonCompliant) ∧
  (∀ issue, issue ∈ AnalyzeScanFailure scan → Issue.Severity issue = SeverityWarning →
     issue = violationsIssue scan) ∧
  (ComplianceScanStatus.Result (ComplianceScan.Status scan) ≠ ResultError →
   ComplianceScanStatus.Result (ComplianceScan.Status scan) ≠ ResultNonCompliant →
   AnalyzeScanFailure scan = []).
Proof.
  rewrite AnalyzeScanFailure_cases.
  destruct scan as [name spec [phase result msg start warnings]]; simpl.
  destruct (String.eqb_spec result ResultError) as [He|He];
    destruct (String.eqb_spec result ResultNonCompliant) as [Hn|Hn];
    destruct (String.eqb_spec msg "") as [Hm|Hm]; simpl;
    try (exfalso; subst result; discriminate);
    repeat split;
    repeat match goal with
      | |- _ → _ => intros ?
      | H : ∃ _, _ |- _ => destruct H as (? & ? & ?)
      | H : _ ∧ _ |- _ => destruct H
      | H : _ ∨ _ |- _ => destruct H
      | H : _ ∈ [] |- _ => apply elem_of_nil in H; contradiction
      | H : _ ∈ _ :: _ |- _ => apply elem_of_cons in H; destruct H as [->|H]
      | H : Issue.Severity _ = _ |- _ => discriminate H
      end;
    try congruence; try reflexivity; try tauto.
  all: first
    [ eexists; split; [apply elem_of_cons; left; reflexivity | reflexivity]
    | eexists; split;
      [apply elem_of_cons; right; apply elem_of_cons; left; reflexivity | reflexivity] ].
Qed.

(** ** C7: the out-of-memory rule of [DetectFailedPods] *)

Lemma checkContainer_emit pod issues cs :
  checkContainer pod issues cs = (issues ++ containerIssues pod cs)%list.
Proof.
  unfold containerIssues, checkContainer, Go.append.
  destruct (corev1.ContainerState.Waiting _) as [waiting|];
    destruct (corev1.ContainerState.Terminated _) as [terminated|];
    repeat match goal with |- context [if ?b then _ else _] => destruct b end;
    simpl; rewrite <- ?app_assoc, ?app_nil_r; reflexivity.
Qed.

Lemma checkRestartCount_emit pod issues cs :
  checkRestartCount pod issues cs = (issues ++ restartIssues pod cs)%list.
Proof.
  unfold restartIssues, checkRestartCount, Go.append.
  destruct (_ >? 5); simpl; rewrite ?app_nil_r; reflexivity.
Qed.

Lemma checkFailedPod_emit issues pod :
  checkFailedPod issues pod = (issues ++ podIssues pod)%list.
Proof.
  unfold podIssues, checkFailedPod, Go.append.
  rewrite !(fold_left_emit _ _ (checkContainer_emit pod)).
  rewrite !(fold_left_emit _ _ (checkRestartCount_emit pod)).
  destruct (String.eqb _ corev1.PodFailed); simpl; rewrite <- ?app_assoc; reflexivity.
Qed.

Lemma DetectFailedPods_flat_map (pods : list corev1.Pod.t) :
  DetectFailedPods pods = flat_map podIssues pods.
Proof.
  unfold DetectFailedPods. rewrite (fold_left_emit _ _ checkFailedPod_emit). reflexivity.
Qed.

(** Of the issues of one container, the out-of-memory ones. *)
Lemma containerIssues_oom pod cs :
  List.filter isOOMIssue (containerIssues pod cs) =
    if isOOMKilled cs then [oomIssue pod cs] else [].
Proof.
  unfold containerIssues, checkContainer, isOOMKilled, Go.append.
  destruct (corev1.ContainerState.Waiting _) as [waiting|];
    destruct (corev1.ContainerState.Terminated _) as [terminated|];
    repeat match goal with |- context [if ?b then _ else _] => destruct b end;
    reflexivity.
Qed.

Lemma restartIssues_oom pod cs : List.filter isOOMIssue (restartIssues pod cs) = [].
Proof.
  unfold restartIssues, checkRestartCount, Go.append.
  destruct (_ >? 5); reflexivity.
Qed.

Lemma flat_map_nil {A B : Type} (g : A → list B) (l : list A) :
  (∀ x, g x = []) → flat_map g l = [].
Proof.
  intros Hg. induction l as [|x l IH]; simpl; [reflexivity|]. rewrite Hg, IH. reflexivity.
Qed.

Lemma flat_map_filter_map {A B : Type} (p : A → bool) (f : A → B) (l : list A) :
  flat_map (λ x, if p x then [f x] else []) l = map f (List.filter p l).
Proof.
  induction l as [|x l IH]; simpl; [reflexivity|].
  destruct (p x); simpl; rewrite IH; reflexivity.
Qed.

Lemma podIssues_oom (pod : corev1.Pod.t) :
  List.filter isOOMIssue (podIssues pod) =
    map (oomIssue pod)
        (List.filter isOOMKilled (corev1.PodStatus.ContainerStatuses (corev1.Pod.Status pod))).
Proof.
  unfold podIssues, checkFailedPod, Go.append.
  rewrite !(fold_left_emit _ _ (checkContainer_emit pod)).
  rewrite !(fold_left_emit _ _ (checkRestartCount_emit pod)).
  rewrite !List.filter_app, !filter_flat_map.
  rewrite (flat_map_nil (λ x, List.filter isOOMIssue (restartIssues pod x)))
    by apply restartIssues_oom.
  rewrite app_nil_r.
  rewrite (flat_map_ext _ _ (containerIssues_oom pod)).
  rewrite flat_map_filter_map.
  destruct (String.eqb _ corev1.PodFailed); reflexivity.
Qed.

(** C7: the out-of-memory issues [DetectFailedPods] returns are, pod by
    pod and container by container, one issue for each container whose last
    termination has the reason OOMKilled, and none for any other container;
    each is Critical and names its pod. In particular a pod with one such
    container and one container without it yields exactly one such issue. *)
Theorem DetectFailedPods_oom (pods : list corev1.Pod.t) :
  List.filter isOOMIssue (DetectFailedPods pods) =
    flat_map
      (λ pod, map (oomIssue pod)
                (List.filter isOOMKilled
                   (corev1.PodStatus.ContainerStatuses (corev1.Pod.Status pod))))
      pods ∧
  (∀ pod cs,
     Issue.Type_ (oomIssue pod cs) = IssueTypeOOM ∧
     Issue.Severity (oomIssue pod cs) = SeverityCritical ∧
     Issue.Resources (oomIssue pod cs) = [corev1.Pod.Name pod]) ∧
  (∀ pod killed healthy,
     corev1.PodStatus.ContainerStatuses (corev1.Pod.Status pod) = [killed; healthy] →
     isOOMKilled killed = true → isOOMKilled healthy = false →
     List.filter isOOMIssue (DetectFailedPods [pod]) = [oomIssue pod killed]).
Proof.
  assert (Hall : ∀ l, List.filter isOOMIssue (DetectFailedPods l) =
    flat_map
      (λ pod, map (oomIssue pod)
                (List.filter isOOMKilled
                   (corev1.PodStatus.ContainerStatuses (corev1.Pod.Status pod)))) l).
  { intros l. rewrite DetectFailedPods_flat_map, filter_flat_map.
    apply flat_map_ext. intros pod. apply podIssues_oom. }
  split; [apply Hall|]. split.
  - intros pod cs. repeat split.
  - intros pod killed healthy Hcs Hk Hh.
    rewrite Hall. simpl. rewrite Hcs. simpl. rewrite Hk, Hh. reflexivity.
Qed.

Example DetectFailedPods_oomPod :
  DetectFailedPods [oomPod] = [oomIssue oomPod oomContainer].
Proof. reflexivity. Qed.

(** ** Substrings *)

Lemma HasPrefix_spec (s p : string) :
  Go.HasPrefix s p = true ↔ ∃ post, s = p ++ post.
Proof.
  revert s. induction p as [|b p IH]; intros s; simpl.
  - split; [intros _; exists s; reflexivity | reflexivity].
  - destruct s as [|a s]; simpl.
    + split; [discriminate | intros [post Hpost]; discriminate].
    + rewrite andb_true_iff, IH. split.
      * intros [Hab [post ->]]. apply Ascii.eqb_eq in Hab. subst. exists post. reflexivity.
      * intros [post Hpost]. injection Hpost as -> ->. split;
          [apply Ascii.eqb_refl | exists post; reflexivity].
Qed.

(** [strings.Contains] decides the occurrence of [substr] inside [s]. *)
Lemma Contains_spec (s substr : string) :
  Go.Contains s substr = true ↔ ∃ pre post, s = pre ++ substr ++ post.
Proof.
  induction s as [|a s IH]; simpl.
  - rewrite orb_false_r, HasPrefix_spec. split.
    + intros [post Hpost]. exists "", post. exact Hpost.
    + intros (pre & post & Hs). destruct pre; [|discriminate]. exists post. exact Hs.
  - rewrite orb_true_iff, HasPrefix_spec, IH. split.
    + intros [[post Hpost] | (pre & post & ->)].
      * exists "", post. exact Hpost.
      * exists (String a pre), post. reflexivity.
    + intros (pre & post & Hs). destruct pre as [|a' pre]; simpl in Hs.
      * left. exists post. exact Hs.
      * right. injection Hs as -> ->. exists pre, post. reflexivity.
Qed.

(** ** C6: the permission rule *)

Lemma checkKeywords_emit scanName event keywords issues :
  checkKeywords scanName event keywords issues =
    (issues ++ if existsb (Go.Contains (corev1.Event.Message event)) keywords
               then [permissionIssue scanName event] else [])%list.
Proof.
  induction keywords as [|keyword rest IH]; simpl.
  - symmetry. apply app_nil_r.
  - destruct (Go.Contains _ keyword); simpl; [reflexivity | exact IH].
Qed.

Lemma eventIssues_cases scanName event :
  eventIssues scanName event =
    if String.eqb (corev1.Event.Type_ event) corev1.EventTypeWarning
       && existsb (Go.Contains (corev1.Event.Message event)) permissionKeywords
    then [permissionIssue scanName event] else [].
Proof.
  unfold eventIssues, checkEvent. rewrite checkKeywords_emit.
  destruct (String.eqb _ corev1.EventTypeWarning); reflexivity.
Qed.

Lemma checkEvent_emit scanName issues event :
  checkEvent scanName issues event = (issues ++ eventIssues scanName event)%list.
Proof.
  unfold eventIssues, checkEvent. rewrite !checkKeywords_emit.
  destruct (String.eqb _ corev1.EventTypeWarning); simpl; [reflexivity|].
  symmetry. apply app_nil_r.
Qed.

Lemma existsb_Contains (message : string) (keywords : list string) :
  existsb (Go.Contains message) keywords = true ↔
  ∃ keyword, keyword ∈ keywords ∧ ∃ pre post, message = pre ++ keyword ++ post.
Proof.
  rewrite existsb_exists. split.
  - intros (keyword & Hin & Hc). exists keyword. split.
    + apply list_elem_of_In. exact Hin.
    + apply Contains_spec. exact Hc.
  - intros (keyword & Hin & Hc). exists keyword. split.
    + apply list_elem_of_In. exact Hin.
    + apply Contains_spec. exact Hc.
Qed.

(** C6: when the events of the scan could be listed, the issues of
    [DetectPermissionIssuesForScan] are, event by event in order: exactly
    one Critical Permission issue, on the scan name and the name of the
    involved object, for a Warning event whose message contains at least one
    keyword of the fixed set, however many of them it contains; nothing for
    a Warning event without a keyword; nothing for an event of any other
    type, Normal included, whatever its message. *)
Theorem DetectPermissionIssuesForScan_spec {W : Type} (client : ComplianceClient W)
    (scanName : string) (w w' : W) (events : list corev1.Event.t) :
  GetEvents client "ComplianceScan" scanName w = (inl events, w') →
  DetectPermissionIssuesForScan client scanName w
    = ((flat_map (eventIssues scanName) events, None), w') ∧
  (∀ event,
     (corev1.Event.Type_ event = corev1.EventTypeWarning →
      (∃ keyword, keyword ∈ permissionKeywords ∧
                  ∃ pre post, corev1.Event.Message event = pre ++ keyword ++ post) →
      eventIssues scanName event = [permissionIssue scanName event]) ∧
     (corev1.Event.Type_ event = corev1.EventTypeWarning →
      (∀ keyword, keyword ∈ permissionKeywords →
                  ¬ ∃ pre post, corev1.Event.Message event = pre ++ keyword ++ post) →
      eventIssues scanName event = []) ∧
     (corev1.Event.Type_ event ≠ corev1.EventTypeWarning →
      eventIssues scanName event = []) ∧
     Issue.Type_ (permissionIssue scanName event) = IssueTypePermission ∧
     Issue.Severity (permissionIssue scanName event) = SeverityCritical ∧
     Issue.Resources (permissionIssue scanName event) =
       [scanName; corev1.ObjectReference.Name (corev1.Event.InvolvedObject event)]).
Proof.
  intros Hevents. split.
  - unfold DetectPermissionIssuesForScan, mbind, State_bind, mret, State_ret.
    rewrite Hevents. rewrite (fold_left_emit _ _ (checkEvent_emit scanName)). reflexivity.
  - intros event. rewrite eventIssues_cases. repeat split.
    + intros Htype Hkw. apply existsb_Contains in Hkw. rewrite Hkw.
      apply String.eqb_eq in Htype. rewrite Htype. reflexivity.
    + intros _ Hnone.
      destruct (existsb (Go.Contains (corev1.Event.Message event)) permissionKeywords) eqn:Hex.
      * apply existsb_Contains in Hex. destruct Hex as (keyword & Hin & Hc).
        exfalso. exact (Hnone keyword Hin Hc).
      * rewrite andb_false_r. reflexivity.
    + intros Htype. apply String.eqb_neq in Htype. rewrite Htype. reflexivity.
Qed.

Lemma DetectPermissionIssuesForScan_spec_witness :
  GetEvents eventsClient "ComplianceScan" "ocp4-cis" tt
    = (inl [forbiddenWarning; forbiddenNormal], tt) ∧
  DetectPermissionIssuesForScan eventsClient "ocp4-cis" tt
    = (([permissionIssue "ocp4-cis" forbiddenWarning], None), tt).
Proof.
  assert (Hevents : GetEvents eventsClient "ComplianceScan" "ocp4-cis" tt
                    = (inl [forbiddenWarning; forbiddenNormal], tt)) by reflexivity.
  split; [exact Hevents|].
  destruct (DetectPermissionIssuesForScan_spec eventsClient "ocp4-cis" tt tt _ Hevents)
    as [Hrun _].
  rewrite Hrun. reflexivity.
Defined.

(** ** C3: the stuck-scan rule *)

(** [Time.Sub] saturates far away from any threshold of the rules: against
    a bound inside the [int64] range it compares as the exact difference. *)
Lemma Sub_gtb (t u bound : Z) :
  Go.MinInt ≤ bound < Go.MaxInt →
  (Go.Sub t u >? bound) = (t - u >? bound).
Proof.
  unfold Go.Sub, Go.maxDuration, Go.minDuration, Go.MinInt, Go.MaxInt. intros Hb.
  destruct (Z.gtb_spec (t - u) (2 ^ 63 - 1)).
  { destruct (Z.gtb_spec (2 ^ 63 - 1) bound), (Z.gtb_spec (t - u) bound); try reflexivity; lia. }
  destruct (Z.ltb_spec (t - u) (- 2 ^ 63)); [|reflexivity].
  destruct (Z.gtb_spec (- 2 ^ 63) bound), (Z.gtb_spec (t - u) bound); try reflexivity; lia.
Qed.

Section StuckScansProps.
Context {W : Type}.
Variable Now : State W Go.Time.
Variable Duration_String : Z → string.

Lemma checkRunning_emit issues scan w :
  checkRunning Now Duration_String issues scan w =
    ((issues ++ (checkRunning Now Duration_String [] scan w).1)%list,
     (checkRunning Now Duration_String [] scan w).2).
Proof.
  unfold checkRunning, Since, Go.append. unfold_state.
  destruct (String.eqb _ PhaseRunning); [|simpl; rewrite app_nil_r; reflexivity].
  destruct (ComplianceScanStatus.StartTimestamp _) as [start|];
    [|simpl; rewrite app_nil_r; reflexivity].
  destruct (Now w) as [now w1].
  destruct (_ >? _); simpl; rewrite ?app_nil_r; reflexivity.
Qed.

Lemma checkLaunching_emit issues scan w :
  checkLaunching Now issues scan w =
    ((issues ++ (checkLaunching Now [] scan w).1)%list, (checkLaunching Now [] scan w).2).
Proof.
  unfold checkLaunching, Since, Go.append. unfold_state.
  destruct (String.eqb _ PhaseLaunching); [|simpl; rewrite app_nil_r; reflexivity].
  destruct (ComplianceScanStatus.StartTimestamp _) as [start|];
    [|simpl; rewrite app_nil_r; reflexivity].
  destruct (Now w) as [now w1].
  destruct (_ >? _); simpl; rewrite ?app_nil_r; reflexivity.
Qed.

Lemma checkErrorResult_emit issues scan :
  checkErrorResult issues scan = (issues ++ checkErrorResult [] scan)%list.
Proof.
  unfold checkErrorResult, Go.append.
  destruct (String.eqb _ ResultError); simpl; rewrite ?app_nil_r; reflexivity.
Qed.

Lemma checkStuckScan_emit issues scan w :
  checkStuckScan Now Duration_String issues scan w =
    ((issues ++ scanIssues Now Duration_String scan w)%list, scanWorld Now Duration_String scan w).
Proof.
  unfold scanIssues, scanWorld, checkStuckScan. unfold_state.
  rewrite (checkRunning_emit issues).
  destruct (checkRunning Now Duration_String [] scan w) as [running w1]. simpl.
  rewrite (checkLaunching_emit (issues ++ running)), (checkLaunching_emit running).
  destruct (checkLaunching Now [] scan w1) as [launching w2]. simpl.
  rewrite (checkErrorResult_emit (_ ++ launching)),
    (checkErrorResult_emit (running ++ launching)).
  rewrite <- !app_assoc. reflexivity.
Qed.

Lemma detectStuckLoop_app l1 l2 issues w :
  detectStuckLoop Now Duration_String (l1 ++ l2) issues w =
    detectStuckLoop Now Duration_String l2
      (detectStuckLoop Now Duration_String l1 issues w).1
      (detectStuckLoop Now Duration_String l1 issues w).2.
Proof.
  revert issues w. induction l1 as [|scan l1 IH]; intros issues w; simpl.
  - reflexivity.
  - unfold_state.
    destruct (checkStuckScan Now Duration_String issues scan w) as [issues1 w1].
    apply IH.
Qed.

Lemma detectStuckLoop_emit scans issues w :
  detectStuckLoop Now Duration_String scans issues w =
    ((issues ++ (DetectStuckScans Now Duration_String scans w).1)%list,
     (DetectStuckScans Now Duration_String scans w).2).
Proof.
  unfold DetectStuckScans. revert issues w.
  induction scans as [|scan rest IH]; intros issues w; simpl.
  - unfold_state. simpl. rewrite app_nil_r. reflexivity.
  - unfold_state. rewrite (checkStuckScan_emit issues), (checkStuckScan_emit []).
    rewrite (IH (issues ++ _)%list), (IH ([] ++ _)%list). simpl.
    rewrite <- app_assoc. reflexivity.
Qed.

(** The run over a list of scans splits at any scan of the list. *)
Lemma DetectStuckScans_split pre scan post w :
  DetectStuckScans Now Duration_String (pre ++ scan :: post) w =
    (((DetectStuckScans Now Duration_String pre w).1
       ++ scanIssues Now Duration_String scan (DetectStuckScans Now Duration_String pre w).2
       ++ (DetectStuckScans Now Duration_String post
             (scanWorld Now Duration_String scan (DetectStuckScans Now Duration_String pre w).2)).1)%list,
     (DetectStuckScans Now Duration_String post
        (scanWorld Now Duration_String scan (DetectStuckScans Now Duration_String pre w).2)).2).
Proof.
  unfold DetectStuckScans at 1. rewrite detectStuckLoop_app.
  fold (DetectStuckScans Now Duration_String pre w).
  destruct (DetectStuckScans Now Duration_String pre w) as [before w1]. simpl.
  unfold_state. rewrite checkStuckScan_emit, detectStuckLoop_emit. simpl.
  rewrite <- app_assoc. reflexivity.
Qed.

(** The stuck-scan issues among the issues of a scan in phase RUNNING. *)
Lemma scanIssues_running scan w :
  ComplianceScanStatus.Phase (ComplianceScan.Status scan) = PhaseRunning →
  List.filter isStuckScanIssue (scanIssues Now Duration_String scan w) =
    match ComplianceScanStatus.StartTimestamp (ComplianceScan.Status scan) with
    | Some start =>
        if (Now w).1 - start >? 30 * Go.Minute
        then [stuckRunningIssue Duration_String scan (Go.Sub (Now w).1 start)]
        else []
    | None => []
    end.
Proof.
  unfold scanIssues, checkStuckScan, checkRunning, checkLaunching, checkErrorResult,
    Since, Go.append. unfold_state.
  destruct scan as [name spec [phase result msg start warnings]]; simpl.
  intros ->. eval_eqb.
  destruct start as [start|]; simpl.
  - destruct (Now w) as [now w1]; simpl.
    rewrite Sub_gtb by (unfold Go.MinInt, Go.MaxInt, Go.Minute, Go.Second; lia).
    destruct (now - start >? 30 * Go.Minute); simpl;
      destruct (String.eqb result ResultError); reflexivity.
  - destruct (String.eqb result ResultError); reflexivity.
Qed.

(** C3: in a run of [DetectStuckScans], the issues emitted for a scan in
    phase RUNNING, when its turn comes, hold exactly one StuckScan issue,
    Critical and on that scan, if the start timestamp is present and the
    clock read then is more than 30 minutes after it; no StuckScan issue if
    the start timestamp is present and the clock is 30 minutes or less
    after it; no StuckScan issue if the start timestamp is absent,
    whatever the clock. *)
Theorem DetectStuckScans_running (pre post : list ComplianceScan.t)
    (scan : ComplianceScan.t) (w : W) :
  ComplianceScanStatus.Phase (ComplianceScan.Status scan) = PhaseRunning →
  let w1 := (DetectStuckScans Now Duration_String pre w).2 in
  let now := (Now w1).1 in
  let w2 := scanWorld Now Duration_String scan w1 in
  (DetectStuckScans Now Duration_String (pre ++ scan :: post) w).1 =
    ((DetectStuckScans Now Duration_String pre w).1 ++ scanIssues Now Duration_String scan w1
       ++ (DetectStuckScans Now Duration_String post w2).1)%list ∧
  (∀ start,
     ComplianceScanStatus.StartTimestamp (ComplianceScan.Status scan) = Some start →
     now - start > 30 * Go.Minute →
     ∃ issue,
       List.filter isStuckScanIssue (scanIssues Now Duration_String scan w1) = [issue] ∧
       Issue.Severity issue = SeverityCritical ∧
       Issue.Resources issue = [ComplianceScan.Name scan]) ∧
  (∀ start,
     ComplianceScanStatus.StartTimestamp (ComplianceScan.Status scan) = Some start →
     now - start ≤ 30 * Go.Minute →
     List.filter isStuckScanIssue (scanIssues Now Duration_String scan w1) = []) ∧
  (ComplianceScanStatus.StartTimestamp (ComplianceScan.Status scan) = None →
   List.filter isStuckScanIssue (scanIssues Now Duration_String scan w1) = []).
Proof.
  intros Hphase w1 now w2. split; [|split; [|split]].
  - rewrite DetectStuckScans_split. reflexivity.
  - intros start Hstart Helapsed. rewrite (scanIssues_running scan w1 Hphase), Hstart.
    fold now. destruct (Z.gtb_spec (now - start) (30 * Go.Minute)); [|lia].
    eexists. split; [reflexivity|]. split; reflexivity.
  - intros start Hstart Helapsed. rewrite (scanIssues_running scan w1 Hphase), Hstart.
    fold now. destruct (Z.gtb_spec (now - start) (30 * Go.Minute)); [lia|]. reflexivity.
  - intros Hstart. rewrite (scanIssues_running scan w1 Hphase), Hstart. reflexivity.
Qed.

End StuckScansProps.

(** The examples of the design document: started 31 minutes ago, started
    29 minutes ago, no start timestamp. *)
Lemma DetectStuckScans_running_witness :
  ComplianceScanStatus.Phase (ComplianceScan.Status (runningScan "ocp4-cis" (Some 0)))
    = PhaseRunning ∧
  (∃ issue,
     (DetectStuckScans tickingClock minutesString [runningScan "ocp4-cis" (Some 0)]
        (31 * Go.Minute)).1 = [issue] ∧
     Issue.Type_ issue = IssueTypeStuckScan ∧
     Issue.Severity issue = SeverityCritical ∧
     Issue.Resources issue = ["ocp4-cis"]) ∧
  (DetectStuckScans tickingClock minutesString [runningScan "ocp4-cis" (Some 0)]
     (29 * Go.Minute)).1 = [] ∧
  (DetectStuckScans tickingClock minutesString [runningScan "ocp4-cis" None]
     (31 * Go.Minute)).1 = [].
Proof.
  assert (Hphase : ∀ start,
    ComplianceScanStatus.Phase (ComplianceScan.Status (runningScan "ocp4-cis" start))
      = PhaseRunning) by reflexivity.
  split; [apply Hphase|].
  pose proof (DetectStuckScans_running tickingClock minutesString [] []
                (runningScan "ocp4-cis" (Some 0)) (31 * Go.Minute) (Hphase _)) as (H31 & _).
  pose proof (DetectStuckScans_running tickingClock minutesString [] []
                (runningScan "ocp4-cis" (Some 0)) (29 * Go.Minute) (Hphase _)) as (H29 & _).
  pose proof (DetectStuckScans_running tickingClock minutesString [] []
                (runningScan "ocp4-cis" None) (31 * Go.Minute) (Hphase _)) as (Hnil & _).
  simpl app in H31, H29, Hnil. rewrite H31, H29, Hnil.
  split; [|split]; [|reflexivity|reflexivity].
  eexists. split; [reflexivity|]. repeat split.
Defined.

(** ** C4: restarts in the operator health *)

Lemma wrap32_add_l (x y : Z) : Go.wrap32 (Go.wrap32 x + y) = Go.wrap32 (x + y).
Proof.
  unfold Go.wrap32. f_equal.
  replace ((x + 2 ^ 31) mod 2 ^ 32 - 2 ^ 31 + y + 2 ^ 31)
    with ((x + 2 ^ 31) mod 2 ^ 32 + y) by lia.
  rewrite Zplus_mod_idemp_l. f_equal. lia.
Qed.

Lemma wrap32_small (z : Z) : - 2 ^ 31 ≤ z < 2 ^ 31 → Go.wrap32 z = z.
Proof. intros Hz. unfold Go.wrap32. rewrite Z.mod_small by lia. lia. Qed.

(** The pod's [Restarts] is that sum, wrapped to an [int32]. *)
Lemma countRestarts_sum (containerStatuses : list corev1.ContainerStatus.t) :
  countRestarts containerStatuses = Go.wrap32 (sumRestarts containerStatuses).
Proof.
  unfold countRestarts.
  assert (Hgen : ∀ l acc,
    fold_left (λ restarts cs, Go.add32 restarts (corev1.ContainerStatus.RestartCount cs))
      l (Go.wrap32 acc) = Go.wrap32 (acc + sumRestarts l)).
  { induction l as [|cs l IH]; intros acc; simpl.
    - unfold sumRestarts. simpl. f_equal. lia.
    - unfold Go.add32. rewrite wrap32_add_l, IH. f_equal.
      unfold sumRestarts. simpl. lia. }
  change 0 with (Go.wrap32 0) at 1. rewrite Hgen. reflexivity.
Qed.

Lemma checkOperatorPod_fields status pod :
  OperatorHealthStatus.IsHealthy (checkOperatorPod status pod) =
    OperatorHealthStatus.IsHealthy status && isRunningAndReady pod ∧
  OperatorHealthStatus.Issues (checkOperatorPod status pod) =
    (OperatorHealthStatus.Issues status
       ++ (phaseIssue pod ++ readyIssue pod ++ restartFlag pod))%list.
Proof.
  unfold checkOperatorPod, phaseIssue, readyIssue, restartFlag, isRunningAndReady, Go.append.
  destruct (String.eqb _ corev1.PodRunning), (isPodReady pod), (_ >? 5); simpl;
    rewrite <- ?app_assoc, ?app_nil_r, ?andb_true_r, ?andb_false_r; split; reflexivity.
Qed.

Lemma fold_checkOperatorPod pods status :
  OperatorHealthStatus.IsHealthy (fold_left checkOperatorPod pods status) =
    OperatorHealthStatus.IsHealthy status && forallb isRunningAndReady pods ∧
  OperatorHealthStatus.Issues (fold_left checkOperatorPod pods status) =
    (OperatorHealthStatus.Issues status
       ++ flat_map (λ pod, phaseIssue pod ++ readyIssue pod ++ restartFlag pod) pods)%list.
Proof.
  revert status. induction pods as [|pod pods IH]; intros status; simpl.
  - rewrite andb_true_r, app_nil_r. split; reflexivity.
  - destruct (IH (checkOperatorPod status pod)) as [Hh Hi].
    destruct (checkOperatorPod_fields status pod) as [Hh1 Hi1].
    rewrite Hh, Hi, Hh1, Hi1. rewrite <- andb_assoc, <- !app_assoc. split; reflexivity.
Qed.

(** C4, as stated, does not hold: the flag is per pod, on the sum of the
    restart counts of its containers. A Running and Ready pod whose two
    containers restarted 3 times each, none of them more than 5 times, gets
    the issue "has restarted 6 times"; it stays healthy. *)
Lemma collectOperatorStatus_flags_the_sum :
  Forall (λ cs, corev1.ContainerStatus.RestartCount cs ≤ 5)
    (corev1.PodStatus.ContainerStatuses (corev1.Pod.Status operatorPod)) ∧
  collectOperatorStatus operatorClient tt =
    ((OperatorHealthStatus.mk
        [PodStatus.mk "compliance-operator-7d9f" corev1.PodRunning "" true 6]
        true
        ["Pod compliance-operator-7d9f has restarted 6 times"],
      None), tt).
Proof.
  split.
  - repeat constructor; simpl; lia.
  - vm_compute. reflexivity.
Qed.

(** C4 (amended): in operator health collection, when the operator pods
    could be listed and there is at least one, the issues are recorded pod by
    pod, and for every pod examined one restart issue string is recorded
    exactly when the sum of the restart counts of its containers, as an
    [int32], exceeds 5; such a restart flag never sets [IsHealthy] to false:
    [IsHealthy] is true exactly when every pod is Running and Ready (a
    Running and Ready pod whose restart counts sum to at most 5 yields no
    issue at all). *)
Theorem collectOperatorStatus_restarts {W : Type} (client : ComplianceClient W)
    (w w' : W) (pods : list corev1.Pod.t) :
  GetOperatorPods client w = (inl pods, w') →
  pods ≠ [] →
  ∃ status,
    collectOperatorStatus client w = ((status, None), w') ∧
    OperatorHealthStatus.Issues status =
      flat_map (λ pod, phaseIssue pod ++ readyIssue pod ++ restartFlag pod)%list pods ∧
    OperatorHealthStatus.IsHealthy status = forallb isRunningAndReady pods ∧
    (∀ pod,
       let restarts :=
         Go.wrap32 (sumRestarts (corev1.PodStatus.ContainerStatuses (corev1.Pod.Status pod))) in
       (restarts > 5 →
        restartFlag pod =
          ["Pod " ++ corev1.Pod.Name pod ++ " has restarted " ++ Go.fmt_d restarts ++ " times"]) ∧
       (restarts ≤ 5 → restartFlag pod = []) ∧
       (isRunningAndReady pod = true → restarts ≤ 5 →
        (phaseIssue pod ++ readyIssue pod ++ restartFlag pod)%list = [])).
Proof.
  intros Hpods Hne.
  exists (fold_left checkOperatorPod pods (OperatorHealthStatus.mk [] true [])).
  split; [|split; [|split]].
  - unfold collectOperatorStatus. unfold_state. rewrite Hpods.
    destruct pods; [contradiction|]. reflexivity.
  - destruct (fold_checkOperatorPod pods (OperatorHealthStatus.mk [] true [])) as [_ Hi].
    exact Hi.
  - destruct (fold_checkOperatorPod pods (OperatorHealthStatus.mk [] true [])) as [Hh _].
    exact Hh.
  - intros pod restarts. unfold restartFlag. rewrite countRestarts_sum. fold restarts.
    split; [|split].
    + intros Hgt. destruct (Z.gtb_spec restarts 5); [reflexivity|lia].
    + intros Hle. destruct (Z.gtb_spec restarts 5); [lia|reflexivity].
    + intros Hrr Hle. unfold phaseIssue, readyIssue. unfold isRunningAndReady in Hrr.
      apply andb_true_iff in Hrr. destruct Hrr as [-> ->].
      destruct (Z.gtb_spec restarts 5); [lia|reflexivity].
Qed.

Lemma collectOperatorStatus_restarts_witness :
  GetOperatorPods operatorClient tt = (inl [operatorPod], tt) ∧
  [operatorPod] ≠ [] ∧
  ∃ status,
    collectOperatorStatus operatorClient tt = ((status, None), tt) ∧
    OperatorHealthStatus.Issues status = ["Pod compliance-operator-7d9f has restarted 6 times"] ∧
    OperatorHealthStatus.IsHealthy status = true.
Proof.
  assert (Hpods : GetOperatorPods operatorClient tt = (inl [operatorPod], tt)) by reflexivity.
  assert (Hne : [operatorPod] ≠ []) by discriminate.
  split; [exact Hpods|]. split; [exact Hne|].
  destruct (collectOperatorStatus_restarts operatorClient tt tt [operatorPod] Hpods Hne)
    as (status & Hrun & Hissues & Hhealthy & _).
  exists status. split; [exact Hrun|]. split.
  - rewrite Hissues. vm_compute. reflexivity.
  - rewrite Hhealthy. reflexivity.
Defined.

(** ** C2 and C10: partial failure in [CollectAllData] *)

Section CollectorProps.
Context {W : Type}.
Variable client : ComplianceClient W.
Variable Now : State W Go.Time.

(** The snapshot and the world after one pass of the loop body. *)
Lemma collectScan_fields data scan w :
  let name := ComplianceScan.Name scan in
  let checks := GetComplianceCheckResults client name "" w in
  let remediations := GetComplianceRemediations client name checks.2 in
  collectScan client data scan w =
    (ComplianceData.mk
       (ComplianceData.Suites data)
       (<[name := scan]> (ComplianceData.Scans data))
       (match checks.1 with
        | inl checkResults => <[name := checkResults]> (ComplianceData.CheckResults data)
        | inr _ => ComplianceData.CheckResults data
        end)
       (match remediations.1 with
        | inl rems => <[name := rems]> (ComplianceData.Remediations data)
        | inr _ => ComplianceData.Remediations data
        end)
       (ComplianceData.OperatorStatus data)
       (ComplianceData.Timestamp data),
     remediations.2).
Proof.
  intros name checks remediations. subst checks remediations name.
  unfold collectScan. unfold_state.
  destruct (GetComplianceCheckResults client _ "" w) as [[checkResults|err] w1]; simpl;
    destruct (GetComplianceRemediations client _ w1) as [[rems|err'] w2]; reflexivity.
Qed.

Lemma collectScans_app l1 l2 data w :
  collectScans client (l1 ++ l2) data w =
    collectScans client l2 (collectScans client l1 data w).1 (collectScans client l1 data w).2.
Proof.
  revert data w. induction l1 as [|scan l1 IH]; intros data w; simpl.
  - reflexivity.
  - unfold_state. destruct (collectScan client data scan w) as [data1 w1]. apply IH.
Qed.

(** The loop leaves alone the suites, the operator status and the
    timestamp, and every key that is not the name of one of its scans; the
    names of its scans are keys of [Scans] afterwards. *)
Lemma collectScans_frame scans data w :
  let data' := (collectScans client scans data w).1 in
  ComplianceData.Suites data' = ComplianceData.Suites data ∧
  ComplianceData.OperatorStatus data' = ComplianceData.OperatorStatus data ∧
  ComplianceData.Timestamp data' = ComplianceData.Timestamp data ∧
  (∀ key, key ∉ map ComplianceScan.Name scans →
     ComplianceData.Scans data' !! key = ComplianceData.Scans data !! key ∧
     ComplianceData.CheckResults data' !! key = ComplianceData.CheckResults data !! key ∧
     ComplianceData.Remediations data' !! key = ComplianceData.Remediations data !! key).
Proof.
  revert data w. induction scans as [|scan rest IH]; intros data w; simpl.
  - split; [reflexivity|]. split; [reflexivity|]. split; [reflexivity|].
    intros key _. split; [reflexivity|]. split; reflexivity.
  - unfold_state. rewrite collectScan_fields. simpl.
    match goal with |- context [collectScans client rest ?d ?w'] =>
      destruct (IH d w') as (Hs & Ho & Ht & Hk) end.
    simpl in *. rewrite Hs, Ho, Ht.
    split; [reflexivity|]. split; [reflexivity|]. split; [reflexivity|].
    intros key Hkey. apply not_elem_of_cons in Hkey. destruct Hkey as [Hne Hrest].
    destruct (Hk key Hrest) as (HS & HC & HR). rewrite HS, HC, HR.
    split; [|split].
    + apply lookup_insert_ne. congruence.
    + destruct (GetComplianceCheckResults client _ "" w).1; [|reflexivity].
      apply lookup_insert_ne. congruence.
    + destruct (GetComplianceRemediations client _ _).1; [|reflexivity].
      apply lookup_insert_ne. congruence.
Qed.

(** Every scan of the loop is a key of [Scans] afterwards, and no key of
    [Scans] is lost. *)
Lemma collectScans_Scans_mono scans data w key :
  is_Some (ComplianceData.Scans data !! key) →
  is_Some (ComplianceData.Scans (collectScans client scans data w).1 !! key).
Proof.
  revert data w. induction scans as [|scan rest IH]; intros data w Hkey; simpl.
  - exact Hkey.
  - unfold_state. rewrite collectScan_fields. simpl. apply IH. simpl.
    rewrite lookup_insert_is_Some.
    destruct (decide (ComplianceScan.Name scan = key)); [left|right; split]; assumption.
Qed.

Lemma collectScans_Scans_keys scans data w other :
  other ∈ scans →
  is_Some (ComplianceData.Scans (collectScans client scans data w).1
             !! ComplianceScan.Name other).
Proof.
  revert data w. induction scans as [|scan rest IH]; intros data w Hin; simpl.
  - apply elem_of_nil in Hin. contradiction.
  - unfold_state. rewrite collectScan_fields. simpl.
    apply elem_of_cons in Hin. destruct Hin as [->|Hin].
    + apply collectScans_Scans_mono. simpl. rewrite lookup_insert_eq. eexists. reflexivity.
    + apply IH. exact Hin.
Qed.

(** [collectOperatorStatus] fails exactly when the pods cannot be listed. *)
Lemma collectOperatorStatus_ok w pods :
  (GetOperatorPods client w).1 = inl pods →
  ∃ status, collectOperatorStatus client w = ((status, None), (GetOperatorPods client w).2).
Proof.
  intros Hpods. unfold collectOperatorStatus. unfold_state.
  destruct (GetOperatorPods client w) as [r w']. simpl in *. subst r.
  destruct (length pods =? 0)%nat; eexists; reflexivity.
Qed.

Lemma collectOperatorStatus_error w err :
  (GetOperatorPods client w).1 = inr err →
  collectOperatorStatus client w =
    ((OperatorHealthStatus.mk [] true [],
      Some (Go.Errorf "failed to get operator pods: " err)),
     (GetOperatorPods client w).2).
Proof.
  intros Hpods. unfold collectOperatorStatus. unfold_state.
  destruct (GetOperatorPods client w) as [r w']. simpl in *. subst r. reflexivity.
Qed.

(** [CollectAllData] once the suites and the scans have been listed. *)
Lemma CollectAllData_listed w0 suites allScans :
  (GetComplianceSuites client (Now w0).2).1 = inl suites →
  (GetComplianceScans client "" (GetComplianceSuites client (Now w0).2).2).1
    = inl allScans →
  let data0 :=
    ComplianceData.with_Suites suites
      (ComplianceData.mk [] ∅ ∅ ∅ OperatorHealthStatus.zero (Now w0).1) in
  let collected :=
    collectScans client allScans data0
      (GetComplianceScans client "" (GetComplianceSuites client (Now w0).2).2).2 in
  let operator := collectOperatorStatus client collected.2 in
  CollectAllData client Now w0 =
    (match operator.1.2 with
     | Some err => inr (Go.Errorf "failed to collect operator status: " err)
     | None => inl (ComplianceData.with_OperatorStatus operator.1.1 collected.1)
     end, operator.2).
Proof.
  intros Hsuites Hscans data0 collected operator.
  subst operator collected data0. unfold CollectAllData. unfold_state.
  destruct (Now w0) as [now w1]. simpl in *.
  destruct (GetComplianceSuites client w1) as [r w2]. simpl in *. subst r.
  destruct (GetComplianceScans client "" w2) as [r w3]. simpl in *. subst r.
  destruct (collectScans client allScans _ w3) as [data w4]. simpl.
  destruct (collectOperatorStatus client w4) as [[status [err|]] w5]; reflexivity.
Qed.

End CollectorProps.

(** Whatever the fetch of the check results of the scan [n] answers, the
    loop over the scans builds the same snapshot except under the key [n]
    of the check results, and leaves the same world. *)
Lemma collectScans_agree {W : Type} (n : string) (c1 c2 : ComplianceClient W)
    (scans : list ComplianceScan.t) (d1 d2 : ComplianceData.t) (w : W) :
  agreeExcept n c1 c2 →
  sameExcept n d1 d2 →
  sameExcept n (collectScans c1 scans d1 w).1 (collectScans c2 scans d2 w).1 ∧
  (collectScans c1 scans d1 w).2 = (collectScans c2 scans d2 w).2.
Proof.
  intros Hagree. revert d1 d2 w.
  induction scans as [|scan rest IH]; intros d1 d2 w Hsame; simpl.
  - split; [exact Hsame | reflexivity].
  - unfold_state. rewrite !collectScan_fields. simpl.
    destruct Hsame as (Hsu & Hsc & Hcr & Hre & Hop & Hts).
    assert (Hworld : (GetComplianceCheckResults c1 (ComplianceScan.Name scan) "" w).2
                     = (GetComplianceCheckResults c2 (ComplianceScan.Name scan) "" w).2).
    { destruct (decide (ComplianceScan.Name scan = n)) as [->|Hne].
      - apply (agree_checks_world _ _ _ Hagree).
      - rewrite (agree_checks _ _ _ Hagree _ "" w Hne). reflexivity. }
    rewrite <- Hworld, <- (agree_remediations _ _ _ Hagree).
    rewrite <- Hsu, <- Hsc, <- Hre, <- Hop, <- Hts.
    apply IH. unfold sameExcept. simpl.
    split; [reflexivity|]. split; [reflexivity|]. split; [|repeat split].
    intros key Hkey.
    destruct (decide (ComplianceScan.Name scan = n)) as [Heq|Hne].
    + rewrite Heq.
      destruct (GetComplianceCheckResults c1 n "" w).1,
        (GetComplianceCheckResults c2 n "" w).1;
        rewrite ?lookup_insert_ne by congruence; apply Hcr; exact Hkey.
    + rewrite (agree_checks _ _ _ Hagree _ "" w Hne).
      destruct (GetComplianceCheckResults c2 _ "" w).1; [|apply Hcr; exact Hkey].
      destruct (decide (ComplianceScan.Name scan = key)) as [->|Hk].
      * rewrite !lookup_insert_eq. reflexivity.
      * rewrite !lookup_insert_ne by exact Hk. apply Hcr. exact Hkey.
Qed.

Lemma collectOperatorStatus_agree {W : Type} (n : string) (c1 c2 : ComplianceClient W) (w : W) :
  agreeExcept n c1 c2 → collectOperatorStatus c1 w = collectOperatorStatus c2 w.
Proof.
  intros Hagree. unfold collectOperatorStatus. unfold_state.
  rewrite (agree_pods _ _ _ Hagree). reflexivity.
Qed.

(** C2: if the suites and the scans are listed, the check results of the
    scan [scan] cannot be fetched when its turn comes, no other scan of the
    list has its name (names are unique in a namespace), and the operator
    pods are listed, then [CollectAllData] returns a snapshot; that scan is
    a key of [Scans] and is not a key of [CheckResults]; every other scan of
    the list is a key of [Scans]; and against a cluster that differs only in
    what it answers to that fetch, [CollectAllData] returns the same
    snapshot except under that key of [CheckResults]: the failure touches
    no other entry. *)
Theorem CollectAllData_partial_failure {W : Type} (client : ComplianceClient W)
    (Now : State W Go.Time) (w0 : W) (suites : list ComplianceSuite.t)
    (pre post : list ComplianceScan.t) (scan : ComplianceScan.t)
    (err : Go.error) (pods : list corev1.Pod.t) :
  let w1 := (Now w0).2 in
  (GetComplianceSuites client w1).1 = inl suites →
  let w2 := (GetComplianceSuites client w1).2 in
  (GetComplianceScans client "" w2).1 = inl (pre ++ scan :: post)%list →
  let w3 := (GetComplianceScans client "" w2).2 in
  let data0 :=
    ComplianceData.with_Suites suites
      (ComplianceData.mk [] ∅ ∅ ∅ OperatorHealthStatus.zero (Now w0).1) in
  let w4 := (collectScans client pre data0 w3).2 in
  (GetComplianceCheckResults client (ComplianceScan.Name scan) "" w4).1 = inr err →
  ComplianceScan.Name scan ∉ map ComplianceScan.Name (pre ++ post)%list →
  let w5 := (collectScans client (pre ++ scan :: post)%list data0 w3).2 in
  (GetOperatorPods client w5).1 = inl pods →
  ∃ data,
    CollectAllData client Now w0 = (inl data, (GetOperatorPods client w5).2) ∧
    ComplianceData.Scans data !! ComplianceScan.Name scan = Some scan ∧
    ComplianceData.CheckResults data !! ComplianceScan.Name scan = None ∧
    (∀ other, other ∈ (pre ++ post)%list →
       is_Some (ComplianceData.Scans data !! ComplianceScan.Name other)) ∧
    (∀ client2, agreeExcept (ComplianceScan.Name scan) client client2 →
       ∃ data2,
         CollectAllData client2 Now w0 = (inl data2, (GetOperatorPods client w5).2) ∧
         sameExcept (ComplianceScan.Name scan) data data2).
Proof.
  intros w1 Hsuites w2 Hscans w3 data0 w4 Hfetch Hunique w5 Hpods.
  pose proof (CollectAllData_listed client Now w0 suites _ Hsuites Hscans) as Hrun.
  simpl in Hrun. fold w1 w2 w3 data0 in Hrun. fold w5 in Hrun.
  destruct (collectOperatorStatus_ok client w5 pods Hpods) as [status Hstatus].
  rewrite Hstatus in Hrun. simpl in Hrun.
  eexists. split; [exact Hrun|].
  rewrite map_app in Hunique.
  apply not_elem_of_app in Hunique. destruct Hunique as [Hpre Hpost].
  (* the snapshot after the loop, seen from the turn of [scan] *)
  assert (Hloop : (collectScans client (pre ++ scan :: post)%list data0 w3).1 =
    (collectScans client post
       (collectScan client (collectScans client pre data0 w3).1 scan w4).1
       (collectScan client (collectScans client pre data0 w3).1 scan w4).2).1).
  { rewrite collectScans_app. fold w4. simpl. unfold_state.
    destruct (collectScan client _ scan w4) as [d w']. reflexivity. }
  destruct (collectScans_frame client pre data0 w3) as (_ & _ & _ & Hkpre).
  destruct (Hkpre _ Hpre) as (_ & HCpre & _).
  split; [|split; [|split]].
  - simpl. rewrite Hloop.
    match goal with |- context [collectScans client post ?d ?w'] =>
      destruct (collectScans_frame client post d w') as (_ & _ & _ & Hk) end.
    destruct (Hk _ Hpost) as (-> & _ & _).
    rewrite collectScan_fields. simpl. apply lookup_insert_eq.
  - simpl. rewrite Hloop.
    match goal with |- context [collectScans client post ?d ?w'] =>
      destruct (collectScans_frame client post d w') as (_ & _ & _ & Hk) end.
    destruct (Hk _ Hpost) as (_ & -> & _).
    rewrite collectScan_fields. simpl. fold w4. rewrite Hfetch.
    rewrite HCpre. reflexivity.
  - intros other Hother. simpl. apply collectScans_Scans_keys.
    apply elem_of_app in Hother. apply elem_of_app.
    destruct Hother as [Hin|Hin]; [left; exact Hin | right; right; exact Hin].
  - intros client2 Hagree.
    assert (Hsuites2 : (GetComplianceSuites client2 w1).1 = inl suites).
    { rewrite <- (agree_suites _ _ _ Hagree). exact Hsuites. }
    assert (Hw2 : (GetComplianceSuites client2 w1).2 = w2).
    { rewrite <- (agree_suites _ _ _ Hagree). reflexivity. }
    assert (Hscans2 : (GetComplianceScans client2 "" (GetComplianceSuites client2 w1).2).1
                      = inl (pre ++ scan :: post)%list).
    { rewrite Hw2, <- (agree_scans _ _ _ Hagree). exact Hscans. }
    pose proof (CollectAllData_listed client2 Now w0 suites _ Hsuites2 Hscans2) as Hrun2.
    simpl in Hrun2. fold w1 in Hrun2. rewrite Hw2 in Hrun2.
    rewrite <- (agree_scans _ _ _ Hagree) in Hrun2. fold w3 data0 in Hrun2.
    assert (Hsame0 : sameExcept (ComplianceScan.Name scan) data0 data0)
      by (repeat split; reflexivity).
    destruct (collectScans_agree _ client client2 (pre ++ scan :: post)%list data0 data0 w3
                Hagree Hsame0) as [Hsame Hworld].
    fold w5 in Hworld. rewrite <- Hworld in Hrun2.
    rewrite <- (collectOperatorStatus_agree _ _ _ w5 Hagree), Hstatus in Hrun2.
    simpl in Hrun2. eexists. split; [exact Hrun2|].
    destruct Hsame as (Hsu & Hsc & Hcr & Hre & Hop & Hts).
    unfold sameExcept. simpl. repeat split; assumption.
Qed.

(** C10: if the suites and the scans are listed, then whatever the fetches
    of the scans answer, when the operator pods cannot be listed
    [CollectAllData] returns an error, the one of the listing wrapped twice,
    and no snapshot. *)
Theorem CollectAllData_operator_failure {W : Type} (client : ComplianceClient W)
    (Now : State W Go.Time) (w0 : W) (suites : list ComplianceSuite.t)
    (allScans : list ComplianceScan.t) (err : Go.error) :
  let w1 := (Now w0).2 in
  (GetComplianceSuites client w1).1 = inl suites →
  let w2 := (GetComplianceSuites client w1).2 in
  (GetComplianceScans client "" w2).1 = inl allScans →
  let w3 := (GetComplianceScans client "" w2).2 in
  let data0 :=
    ComplianceData.with_Suites suites
      (ComplianceData.mk [] ∅ ∅ ∅ OperatorHealthStatus.zero (Now w0).1) in
  let w5 := (collectScans client allScans data0 w3).2 in
  (GetOperatorPods client w5).1 = inr err →
  CollectAllData client Now w0 =
    (inr (Go.Errorf "failed to collect operator status: "
            (Go.Errorf "failed to get operator pods: " err)),
     (GetOperatorPods client w5).2).
Proof.
  intros w1 Hsuites w2 Hscans w3 data0 w5 Hpods.
  pose proof (CollectAllData_listed client Now w0 suites _ Hsuites Hscans) as Hrun.
  simpl in Hrun. fold w1 w2 w3 data0 in Hrun. fold w5 in Hrun.
  rewrite (collectOperatorStatus_error client w5 err Hpods) in Hrun. exact Hrun.
Qed.

Lemma CollectAllData_partial_failure_witness :
  (GetComplianceCheckResults partialClient "ocp4-cis-node-worker" "" tt).1
    = inr "failed to list check results: context deadline exceeded" ∧
  ∃ data,
    CollectAllData partialClient fixedClock tt = (inl data, tt) ∧
    ComplianceData.Scans data !! "ocp4-cis-node-worker"
      = Some (scanNamed "ocp4-cis-node-worker") ∧
    ComplianceData.CheckResults data !! "ocp4-cis-node-worker" = None ∧
    is_Some (ComplianceData.Scans data !! "ocp4-cis") ∧
    is_Some (ComplianceData.Scans data !! "ocp4-cis-node-master").
Proof.
  split; [reflexivity|].
  assert (Hunique :
    ComplianceScan.Name (scanNamed "ocp4-cis-node-worker")
      ∉ map ComplianceScan.Name
          ([scanNamed "ocp4-cis"] ++ [scanNamed "ocp4-cis-node-master"])%list).
  { simpl. intros Hin. apply elem_of_cons in Hin. destruct Hin as [Hin|Hin]; [discriminate|].
    apply elem_of_cons in Hin. destruct Hin as [Hin|Hin]; [discriminate|].
    apply elem_of_nil in Hin. exact Hin. }
  destruct (CollectAllData_partial_failure partialClient fixedClock tt []
              [scanNamed "ocp4-cis"] [scanNamed "ocp4-cis-node-master"]
              (scanNamed "ocp4-cis-node-worker")
              "failed to list check results: context deadline exceeded" [operatorPod]
              eq_refl eq_refl eq_refl Hunique eq_refl)
    as (data & Hrun & Hscan & Hchecks & Hothers & _).
  exists data. split; [exact Hrun|]. split; [exact Hscan|]. split; [exact Hchecks|]. split.
  - apply (Hothers (scanNamed "ocp4-cis")). apply elem_of_cons. left. reflexivity.
  - apply (Hothers (scanNamed "ocp4-cis-node-master")).
    apply elem_of_cons. right. apply elem_of_cons. left. reflexivity.
Defined.

Lemma CollectAllData_operator_failure_witness :
  (GetOperatorPods noPodsClient tt).1
    = inr "failed to list operator pods: connection refused" ∧
  CollectAllData noPodsClient fixedClock tt =
    (inr "failed to collect operator status: failed to get operator pods: failed to list operator pods: connection refused",
     tt).
Proof.
  split; [reflexivity|].
  rewrite (CollectAllData_operator_failure noPodsClient fixedClock tt []
             [scanNamed "ocp4-cis"; scanNamed "ocp4-cis-node-master"]
             "failed to list operator pods: connection refused" eq_refl eq_refl eq_refl).
  reflexivity.
Defined.

(** ** The result-count table of the overview *)

Lemma wrap64_add_l (x y : Z) : Go.wrap64 (Go.wrap64 x + y) = Go.wrap64 (x + y).
Proof.
  unfold Go.wrap64. f_equal.
  replace ((x + 2 ^ 63) mod 2 ^ 64 - 2 ^ 63 + y + 2 ^ 63)
    with ((x + 2 ^ 63) mod 2 ^ 64 + y) by lia.
  rewrite Zplus_mod_idemp_l. f_equal. lia.
Qed.

Lemma string_app_assoc (a b c : string) : (a ++ b) ++ c = a ++ (b ++ c).
Proof. induction a as [|x a IH]; [reflexivity|]. exact (f_equal (String x) IH). Qed.

Lemma string_app_nil_r (a : string) : a ++ "" = a.
Proof. induction a as [|x a IH]; [reflexivity|]. exact (f_equal (String x) IH). Qed.

Lemma fold_writeResultCount (entries : list (string * Z)) (output : string) :
  fold_left writeResultCount entries output
    = output ++ String.concat "" (map resultCountLine entries).
Proof.
  revert output. induction entries as [|entry rest IH]; intros output.
  - simpl. symmetry. apply string_app_nil_r.
  - simpl fold_left. rewrite IH. unfold writeResultCount.
    change (map resultCountLine (entry :: rest))
      with (resultCountLine entry :: map resultCountLine rest).
    assert (Hconcat : ∀ x l, String.concat "" (x :: l) = x ++ String.concat "" l).
    { intros x [|y l]; [symmetry; apply string_app_nil_r | reflexivity]. }
    rewrite Hconcat. unfold resultCountLine.
    rewrite !string_app_assoc. reflexivity.
Qed.

(** [resultCounts] after the counting loop: a result value is a key exactly
    when some scan status carries it, and its count is the number of those
    statuses (as an [int]). *)
Lemma countResults_lookup (scanStatuses : list ComplianceScanStatusWrapper.t) (result : string) :
  countResults scanStatuses !! result =
    if statusesWith result scanStatuses =? 0 then None
    else Some (Go.wrap64 (statusesWith result scanStatuses)).
Proof.
  unfold countResults.
  assert (Hgen : ∀ l (m : gmap string Z),
    fold_left
      (λ resultCounts scanStatus,
         let result := ComplianceScanStatusWrapper.Result scanStatus in
         <[result := Go.incr (default 0 (resultCounts !! result))]> resultCounts) l m !! result
    = if statusesWith result l =? 0 then m !! result
      else Some (Go.wrap64 (default 0 (m !! result) + statusesWith result l))).
  { induction l as [|s l IH]; intros m; [reflexivity|].
    simpl fold_left. rewrite IH. unfold statusesWith. simpl List.filter.
    destruct (String.eqb_spec (ComplianceScanStatusWrapper.Result s) result) as [->|Hne].
    - rewrite lookup_insert_eq. simpl length. simpl default.
      set (n := Z.of_nat (length (List.filter _ l))).
      assert (Hn : 0 ≤ n) by (unfold n; lia).
      rewrite Nat2Z.inj_succ. fold n.
      destruct (Z.eqb_spec (Z.succ n) 0); [lia|].
      destruct (Z.eqb_spec n 0) as [Hz|Hz].
      + unfold Go.incr. rewrite Hz. reflexivity.
      + unfold Go.incr. rewrite wrap64_add_l. do 2 f_equal. lia.
    - rewrite lookup_insert_ne by exact Hne. reflexivity. }
  rewrite Hgen, lookup_empty. simpl. reflexivity.
Qed.

(** The loop that writes the result-count table, at any scan statuses:
    the table is written in the order in which the runtime visits the map of
    the counts. Two runs over the same scan statuses, each with its own
    admissible order of visit, write the same lines (one line per result
    value that occurs, with the number of statuses that carry it), and the
    lines of one run are a permutation of the lines of the other. *)
Lemma writeResultCounts_lines {W1 W2 : Type}
    (rangeMap1 : ∀ V : Type, gmap string V → State W1 (list (string * V)))
    (rangeMap2 : ∀ V : Type, gmap string V → State W2 (list (string * V)))
    (scanStatuses : list ComplianceScanStatusWrapper.t) (output : string)
    (w1 : W1) (w2 : W2) :
  rangeValid rangeMap1 →
  rangeValid rangeMap2 →
  ∃ entries1 entries2 : list (string * Z),
    (writeResultCounts rangeMap1 output (countResults scanStatuses) w1).1
      = output ++ String.concat "" (map resultCountLine entries1) ∧
    (writeResultCounts rangeMap2 output (countResults scanStatuses) w2).1
      = output ++ String.concat "" (map resultCountLine entries2) ∧
    map resultCountLine entries1 ≡ₚ map resultCountLine entries2 ∧
    NoDup entries1.*1 ∧
    (∀ result count,
       (result, count) ∈ entries1 ↔
       statusesWith result scanStatuses ≠ 0 ∧
       count = Go.wrap64 (statusesWith result scanStatuses)).
Proof.
  intros Hvalid1 Hvalid2.
  exists (rangeMap1 Z (countResults scanStatuses) w1).1,
         (rangeMap2 Z (countResults scanStatuses) w2).1.
  pose proof (Hvalid1 Z (countResults scanStatuses) w1) as Hp1.
  pose proof (Hvalid2 Z (countResults scanStatuses) w2) as Hp2.
  split; [|split; [|split; [|split]]].
  - unfold writeResultCounts. unfold_state.
    destruct (rangeMap1 Z _ w1) as [entries w']. simpl. apply fold_writeResultCount.
  - unfold writeResultCounts. unfold_state.
    destruct (rangeMap2 Z _ w2) as [entries w']. simpl. apply fold_writeResultCount.
  - apply Permutation_map. rewrite Hp1, Hp2. reflexivity.
  - rewrite Hp1. apply NoDup_fst_map_to_list.
  - intros result count. rewrite Hp1, elem_of_map_to_list, countResults_lookup.
    destruct (Z.eqb_spec (statusesWith result scanStatuses) 0) as [Hz|Hz].
    + split; [discriminate | intros [Hne _]; contradiction].
    + split.
      * intros Heq. injection Heq as <-. split; [exact Hz | reflexivity].
      * intros [_ ->]. reflexivity.
Qed.

(** The guard on the scan statuses matters. On a snapshot whose suite
    carries scan statuses of two different results, visiting the entries in
    one admissible order or in the reverse one gives the two lines of the
    table in opposite orders, and two different texts. No such snapshot comes
    out of [CollectAllData]: the client fills in no scan statuses. *)
Lemma writeResultCounts_follows_the_visit :
  rangeValid rangeAscending ∧
  rangeValid rangeDescending ∧
  (writeResultCounts rangeAscending ""
     (countResults (ComplianceSuiteStatus.ScanStatuses (ComplianceSuite.Status cisSuite))) tt).1
    = "  - COMPLIANT: 1" ++ LF ++ "  - NON-COMPLIANT: 2" ++ LF ∧
  (writeResultCounts rangeDescending ""
     (countResults (ComplianceSuiteStatus.ScanStatuses (ComplianceSuite.Status cisSuite))) tt).1
    = "  - NON-COMPLIANT: 2" ++ LF ++ "  - COMPLIANT: 1" ++ LF ∧
  formatStatusOverview rangeAscending noFloat overviewData overviewArgs tt
    ≠ formatStatusOverview rangeDescending noFloat overviewData overviewArgs tt.
Proof.
  split; [|split; [|split; [|split]]].
  - intros V m w. reflexivity.
  - intros V m w. apply reverse_Permutation.
  - vm_compute. reflexivity.
  - vm_compute. reflexivity.
  - intros Heq. vm_compute in Heq. discriminate Heq.
Qed.

(** * Properties of the rest of the sources *)

(* [set_solver] clears hypotheses by name and says so when one is gone. *)
#[local] Set Warnings "-clear-no-such-hyp".

(** ** The other rules of [DetectStuckScans] *)

Section StuckScansMore.
Context {W : Type}.
Variable Now : State W Go.Time.
Variable Duration_String : Z → string.

Lemma DetectStuckScans_cons scan rest w :
  (DetectStuckScans Now Duration_String (scan :: rest) w).1 =
    (scanIssues Now Duration_String scan w
       ++ (DetectStuckScans Now Duration_String rest
             (scanWorld Now Duration_String scan w)).1)%list.
Proof.
  pose proof (DetectStuckScans_split Now Duration_String [] scan rest w) as Hsplit.
  simpl in Hsplit. rewrite Hsplit. reflexivity.
Qed.

(** The issues of one scan, rule by rule. *)
Lemma scanIssues_parts scan w :
  scanIssues Now Duration_String scan w =
    ((checkRunning Now Duration_String [] scan w).1
       ++ (checkLaunching Now [] scan (checkRunning Now Duration_String [] scan w).2).1
       ++ checkErrorResult [] scan)%list.
Proof.
  unfold scanIssues, checkStuckScan. unfold_state.
  destruct (checkRunning Now Duration_String [] scan w) as [running w1]. simpl.
  rewrite (checkLaunching_emit Now running).
  destruct (checkLaunching Now [] scan w1) as [launching w2]. simpl.
  rewrite checkErrorResult_emit. rewrite <- app_assoc. reflexivity.
Qed.

Lemma checkRunning_cases scan w :
  (checkRunning Now Duration_String [] scan w).1 = [] ∨
  ∃ elapsed, (checkRunning Now Duration_String [] scan w).1
             = [stuckRunningIssue Duration_String scan elapsed].
Proof.
  unfold checkRunning, Since, Go.append. unfold_state.
  destruct (String.eqb _ PhaseRunning); [|left; reflexivity].
  destruct (ComplianceScanStatus.StartTimestamp _) as [start|]; [|left; reflexivity].
  destruct (Now w) as [now w1].
  destruct (_ >? _); [right; eexists; reflexivity | left; reflexivity].
Qed.

Lemma checkLaunching_cases scan w :
  (checkLaunching Now [] scan w).1 = [] ∨
  (checkLaunching Now [] scan w).1 = [stuckLaunchingIssue scan].
Proof.
  unfold checkLaunching, Since, Go.append. unfold_state.
  destruct (String.eqb _ PhaseLaunching); [|left; reflexivity].
  destruct (ComplianceScanStatus.StartTimestamp _) as [start|]; [|left; reflexivity].
  destruct (Now w) as [now w1].
  destruct (_ >? _); [right; reflexivity | left; reflexivity].
Qed.

(** The stuck-scan issues among the issues of a scan in phase LAUNCHING. *)
Lemma scanIssues_launching scan w :
  ComplianceScanStatus.Phase (ComplianceScan.Status scan) = PhaseLaunching →
  List.filter isStuckScanIssue (scanIssues Now Duration_String scan w) =
    match ComplianceScanStatus.StartTimestamp (ComplianceScan.Status scan) with
    | Some start =>
        if (Now w).1 - start >? 10 * Go.Minute then [stuckLaunchingIssue scan] else []
    | None => []
    end.
Proof.
  unfold scanIssues, checkStuckScan, checkRunning, checkLaunching, checkErrorResult,
    Since, Go.append. unfold_state.
  destruct scan as [name spec [phase result msg start warnings]]; simpl.
  intros ->. eval_eqb.
  destruct start as [start|]; simpl.
  - destruct (Now w) as [now w1]; simpl.
    rewrite Sub_gtb by (unfold Go.MinInt, Go.MaxInt, Go.Minute, Go.Second; lia).
    destruct (now - start >? 10 * Go.Minute); simpl;
      destruct (String.eqb result ResultError); reflexivity.
  - destruct (String.eqb result ResultError); reflexivity.
Qed.

(** X1: in a run of [DetectStuckScans], the issues emitted for a scan in phase
    LAUNCHING, when its turn comes, hold exactly one StuckScan issue,
    Critical and on that scan, if the start timestamp is present and the
    clock read then is more than 10 minutes after it, and no StuckScan issue
    otherwise (10 minutes or less, or no start timestamp). *)
Theorem DetectStuckScans_launching (pre post : list ComplianceScan.t)
    (scan : ComplianceScan.t) (w : W) :
  ComplianceScanStatus.Phase (ComplianceScan.Status scan) = PhaseLaunching →
  let w1 := (DetectStuckScans Now Duration_String pre w).2 in
  let now := (Now w1).1 in
  let w2 := scanWorld Now Duration_String scan w1 in
  (DetectStuckScans Now Duration_String (pre ++ scan :: post) w).1 =
    ((DetectStuckScans Now Duration_String pre w).1 ++ scanIssues Now Duration_String scan w1
       ++ (DetectStuckScans Now Duration_String post w2).1)%list ∧
  (∀ start,
     ComplianceScanStatus.StartTimestamp (ComplianceScan.Status scan) = Some start →
     now - start > 10 * Go.Minute →
     List.filter isStuckScanIssue (scanIssues Now Duration_String scan w1)
       = [stuckLaunchingIssue scan] ∧
     Issue.Severity (stuckLaunchingIssue scan) = SeverityCritical ∧
     Issue.Resources (stuckLaunchingIssue scan) = [ComplianceScan.Name scan]) ∧
  (∀ start,
     ComplianceScanStatus.StartTimestamp (ComplianceScan.Status scan) = Some start →
     now - start ≤ 10 * Go.Minute →
     List.filter isStuckScanIssue (scanIssues Now Duration_String scan w1) = []) ∧
  (ComplianceScanStatus.StartTimestamp (ComplianceScan.Status scan) = None →
   List.filter isStuckScanIssue (scanIssues Now Duration_String scan w1) = []).
Proof.
  intros Hphase w1 now w2. split; [|split; [|split]].
  - rewrite DetectStuckScans_split. reflexivity.
  - intros start Hstart Helapsed. rewrite (scanIssues_launching scan w1 Hphase), Hstart.
    fold now. destruct (Z.gtb_spec (now - start) (10 * Go.Minute)); [|lia].
    split; [reflexivity|]. split; reflexivity.
  - intros start Hstart Helapsed. rewrite (scanIssues_launching scan w1 Hphase), Hstart.
    fold now. destruct (Z.gtb_spec (now - start) (10 * Go.Minute)); [lia|]. reflexivity.
  - intros Hstart. rewrite (scanIssues_launching scan w1 Hphase), Hstart. reflexivity.
Qed.

Lemma scanIssues_failedPod scan w :
  List.filter isFailedPodIssue (scanIssues Now Duration_String scan w) =
    if hasErrorResult scan then [errorResultIssue scan] else [].
Proof.
  rewrite scanIssues_parts, !List.filter_app.
  destruct (checkRunning_cases scan w) as [-> | [elapsed ->]];
    destruct (checkLaunching_cases scan (checkRunning Now Duration_String [] scan w).2)
      as [-> | ->];
    unfold checkErrorResult, hasErrorResult, Go.append;
    destruct (String.eqb _ ResultError); reflexivity.
Qed.

(** X2: whatever the phases, the timestamps and the clock, the FailedPod issues
    [DetectStuckScans] returns are, in the order of the scans, one issue for
    each scan whose result is ERROR, quoting its error message, and none for
    any other scan. *)
Theorem DetectStuckScans_error_results (scans : list ComplianceScan.t) (w : W) :
  List.filter isFailedPodIssue (DetectStuckScans Now Duration_String scans w).1
    = map errorResultIssue (List.filter hasErrorResult scans) ∧
  (∀ scan,
     Issue.Severity (errorResultIssue scan) = SeverityCritical ∧
     Issue.Resources (errorResultIssue scan) = [ComplianceScan.Name scan] ∧
     Issue.Description (errorResultIssue scan) =
       "Scan '" ++ ComplianceScan.Name scan ++ "' completed with ERROR result: "
         ++ ComplianceScanStatus.ErrorMessage (ComplianceScan.Status scan)).
Proof.
  split; [|intros scan; repeat split].
  revert w. induction scans as [|scan rest IH]; intros w.
  - reflexivity.
  - rewrite DetectStuckScans_cons, List.filter_app, scanIssues_failedPod, IH.
    simpl. destruct (hasErrorResult scan); reflexivity.
Qed.

Lemma scanIssues_shape scan w :
  (length (scanIssues Now Duration_String scan w) ≤ 2)%nat ∧
  Forall (stuckScanShape [scan]) (scanIssues Now Duration_String scan w).
Proof.
  assert (Hin : scan ∈ [scan]) by (apply elem_of_cons; left; reflexivity).
  assert (Hrun : ∀ elapsed,
    stuckScanShape [scan] (stuckRunningIssue Duration_String scan elapsed)).
  { intros elapsed. split; [reflexivity|]. split; [left; reflexivity|].
    exists scan. split; [exact Hin | reflexivity]. }
  assert (Hlaunch : stuckScanShape [scan] (stuckLaunchingIssue scan)).
  { split; [reflexivity|]. split; [left; reflexivity|].
    exists scan. split; [exact Hin | reflexivity]. }
  assert (Herr : stuckScanShape [scan] (errorResultIssue scan)).
  { split; [reflexivity|]. split; [right; reflexivity|].
    exists scan. split; [exact Hin | reflexivity]. }
  rewrite scanIssues_parts.
  (* the two phase rules exclude each other *)
  unfold checkRunning, checkLaunching, checkErrorResult, Since, Go.append. unfold_state.
  destruct scan as [name spec [phase result msg start warnings]]; simpl in *.
  destruct (String.eqb_spec phase PhaseRunning) as [->|Hr].
  - eval_eqb. destruct start as [start|]; simpl.
    + destruct (Now w) as [now w1]; simpl.
      destruct (_ >? _); simpl; destruct (String.eqb result ResultError); simpl;
        shape_done Hrun Hlaunch Herr.
    + destruct (String.eqb result ResultError); simpl;
        shape_done Hrun Hlaunch Herr.
  - simpl. destruct (String.eqb phase PhaseLaunching); simpl.
    + destruct start as [start|]; simpl.
      * destruct (Now w) as [now w1]; simpl.
        destruct (_ >? _); simpl; destruct (String.eqb result ResultError); simpl;
          shape_done Hrun Hlaunch Herr.
      * destruct (String.eqb result ResultError); simpl;
          shape_done Hrun Hlaunch Herr.
    + destruct (String.eqb result ResultError); simpl;
        shape_done Hrun Hlaunch Herr.
Qed.

Lemma stuckScanShape_mono scans scans' issue :
  (∀ scan, scan ∈ scans → scan ∈ scans') →
  stuckScanShape scans issue → stuckScanShape scans' issue.
Proof.
  intros Hsub (Hsev & Hty & scan & Hin & Hres).
  split; [exact Hsev|]. split; [exact Hty|]. exists scan. split; [apply Hsub; exact Hin | exact Hres].
Qed.

Lemma DetectStuckScans_shape_all (scans : list ComplianceScan.t) (w : W) :
  (length (DetectStuckScans Now Duration_String scans w).1 ≤ 2 * length scans)%nat ∧
  Forall (stuckScanShape scans) (DetectStuckScans Now Duration_String scans w).1.
Proof.
  revert w. induction scans as [|scan rest IH]; intros w.
  - split; [simpl; lia | apply List.Forall_nil].
  - rewrite DetectStuckScans_cons.
    destruct (scanIssues_shape scan w) as [Hlen Hshape].
    destruct (IH (scanWorld Now Duration_String scan w)) as [Hlen' Hshape'].
    split.
    + rewrite length_app. simpl length. lia.
    + apply Forall_app. split.
      * eapply Forall_impl; [exact Hshape|]. intros issue.
        apply stuckScanShape_mono. intros s Hs.
        apply elem_of_cons in Hs. destruct Hs as [->|Hs];
          [apply elem_of_cons; left; reflexivity | apply elem_of_nil in Hs; contradiction].
      * eapply Forall_impl; [exact Hshape'|]. intros issue.
        apply stuckScanShape_mono. intros s Hs. apply elem_of_cons. right. exact Hs.
Qed.

(** X3: every issue [DetectStuckScans] returns is Critical, is of type StuckScan
    or FailedPod, and carries as its resources the name of exactly one scan
    of the list; no scan gets more than two issues. *)
Theorem DetectStuckScans_shape (scans : list ComplianceScan.t) (w : W) :
  (length (DetectStuckScans Now Duration_String scans w).1 ≤ 2 * length scans)%nat ∧
  Forall (stuckScanShape scans) (DetectStuckScans Now Duration_String scans w).1.
Proof. apply DetectStuckScans_shape_all. Qed.

End StuckScansMore.

Lemma DetectStuckScans_launching_witness :
  ComplianceScanStatus.Phase (ComplianceScan.Status (launchingScan "rhcos4-moderate" (Some 0)))
    = PhaseLaunching ∧
  (DetectStuckScans tickingClock minutesString [launchingScan "rhcos4-moderate" (Some 0)]
     (11 * Go.Minute)).1 = [stuckLaunchingIssue (launchingScan "rhcos4-moderate" (Some 0))] ∧
  (DetectStuckScans tickingClock minutesString [launchingScan "rhcos4-moderate" (Some 0)]
     (10 * Go.Minute)).1 = [].
Proof.
  assert (Hphase :
    ComplianceScanStatus.Phase (ComplianceScan.Status (launchingScan "rhcos4-moderate" (Some 0)))
      = PhaseLaunching) by reflexivity.
  split; [exact Hphase|].
  pose proof (DetectStuckScans_launching tickingClock minutesString [] []
                (launchingScan "rhcos4-moderate" (Some 0)) (11 * Go.Minute) Hphase) as (H11 & _).
  pose proof (DetectStuckScans_launching tickingClock minutesString [] []
                (launchingScan "rhcos4-moderate" (Some 0)) (10 * Go.Minute) Hphase) as (H10 & _).
  simpl app in H11, H10. rewrite H11, H10. split; reflexivity.
Defined.


(** ** The other rules of [DetectFailedPods] *)

Lemma containerIssues_parts pod cs :
  containerIssues pod cs =
    (waitingIssues pod cs ++ if isOOMKilled cs then [oomIssue pod cs] else [])%list.
Proof.
  unfold containerIssues, checkContainer, waitingIssues, isOOMKilled, Go.append.
  destruct (corev1.ContainerState.Waiting _) as [waiting|];
    destruct (corev1.ContainerState.Terminated _) as [terminated|];
    repeat match goal with |- context [if ?b then _ else _] => destruct b end;
    reflexivity.
Qed.

Lemma restartIssues_parts pod cs :
  restartIssues pod cs = if hasHighRestarts cs then [restartIssue pod cs] else [].
Proof.
  unfold restartIssues, checkRestartCount, hasHighRestarts, Go.append.
  destruct (_ >? 5); reflexivity.
Qed.

(** The issues of one pod: the one for its phase, then those of the first
    loop over its containers, then those of the second. *)
Lemma podIssues_parts (pod : corev1.Pod.t) :
  podIssues pod =
    ((if String.eqb (corev1.PodStatus.Phase (corev1.Pod.Status pod)) corev1.PodFailed
      then [failedPodIssue pod] else [])
     ++ flat_map (containerIssues pod)
          (corev1.PodStatus.ContainerStatuses (corev1.Pod.Status pod))
     ++ flat_map (restartIssues pod)
          (corev1.PodStatus.ContainerStatuses (corev1.Pod.Status pod)))%list.
Proof.
  unfold podIssues, checkFailedPod, Go.append.
  rewrite !(fold_left_emit _ _ (checkContainer_emit pod)).
  rewrite !(fold_left_emit _ _ (checkRestartCount_emit pod)).
  destruct (String.eqb _ corev1.PodFailed); simpl; rewrite <- ?app_assoc; reflexivity.
Qed.

Lemma waitingIssues_not_warning pod cs :
  List.filter isWarningIssue (waitingIssues pod cs) = [].
Proof.
  unfold waitingIssues. destruct (corev1.ContainerState.Waiting _) as [waiting|];
    repeat match goal with |- context [if ?b then _ else _] => destruct b end; reflexivity.
Qed.

Lemma podIssues_warnings (pod : corev1.Pod.t) :
  List.filter isWarningIssue (podIssues pod) =
    map (restartIssue pod)
        (List.filter hasHighRestarts
           (corev1.PodStatus.ContainerStatuses (corev1.Pod.Status pod))).
Proof.
  rewrite podIssues_parts, !List.filter_app, !filter_flat_map.
  rewrite (flat_map_nil (λ x, List.filter isWarningIssue (containerIssues pod x))).
  2:{ intros cs. rewrite containerIssues_parts, List.filter_app, waitingIssues_not_warning.
      destruct (isOOMKilled cs); reflexivity. }
  rewrite (flat_map_ext (λ x, List.filter isWarningIssue (restartIssues pod x))
             (λ x, if hasHighRestarts x then [restartIssue pod x] else [])).
  2:{ intros cs. rewrite restartIssues_parts. destruct (hasHighRestarts cs); reflexivity. }
  rewrite flat_map_filter_map.
  destruct (String.eqb _ corev1.PodFailed); reflexivity.
Qed.

Lemma failedPodShape_mono pods pods' issue :
  (∀ pod, pod ∈ pods → pod ∈ pods') → failedPodShape pods issue → failedPodShape pods' issue.
Proof.
  intros Hsub (Hsev & Hty & pod & Hin & Hres).
  split; [exact Hsev|]. split; [exact Hty|].
  exists pod. split; [apply Hsub; exact Hin | exact Hres].
Qed.

Lemma Forall_flat_map {A B : Type} (P : B → Prop) (g : A → list B) (l : list A) :
  (∀ x, x ∈ l → Forall P (g x)) → Forall P (flat_map g l).
Proof.
  induction l as [|x l IH]; intros Hg; simpl.
  - apply List.Forall_nil.
  - apply Forall_app. split.
    + apply Hg. apply elem_of_cons. left. reflexivity.
    + apply IH. intros y Hy. apply Hg. apply elem_of_cons. right. exact Hy.
Qed.

Lemma podIssues_shape (pod : corev1.Pod.t) : Forall (failedPodShape [pod]) (podIssues pod).
Proof.
  assert (Hin : pod ∈ [pod]) by (apply elem_of_cons; left; reflexivity).
  assert (Hshape : ∀ issue,
    (Issue.Severity issue = SeverityCritical ∨
     Issue.Severity issue = SeverityWarning ∧ Issue.Type_ issue = IssueTypeFailedPod) →
    (Issue.Type_ issue = IssueTypeFailedPod ∨ Issue.Type_ issue = IssueTypeOOM) →
    Issue.Resources issue = [corev1.Pod.Name pod] → failedPodShape [pod] issue).
  { intros issue Hs Ht Hr. split; [exact Hs|]. split; [exact Ht|].
    exists pod. split; [exact Hin | exact Hr]. }
  rewrite podIssues_parts. apply Forall_app. split; [|apply Forall_app; split].
  - destruct (String.eqb _ corev1.PodFailed); [|apply List.Forall_nil].
    apply List.Forall_cons; [|apply List.Forall_nil].
    apply Hshape; [left; reflexivity | left; reflexivity | reflexivity].
  - apply Forall_flat_map. intros cs _. rewrite containerIssues_parts.
    apply Forall_app. split.
    + unfold waitingIssues. destruct (corev1.ContainerState.Waiting _) as [waiting|];
        [|apply List.Forall_nil].
      repeat match goal with |- context [if ?b then _ else _] => destruct b end;
        try apply List.Forall_nil;
        (apply List.Forall_cons; [|apply List.Forall_nil]);
        (apply Hshape; [left; reflexivity | left; reflexivity | reflexivity]).
    + destruct (isOOMKilled cs); [|apply List.Forall_nil].
      apply List.Forall_cons; [|apply List.Forall_nil].
      apply Hshape; [left; reflexivity | right; reflexivity | reflexivity].
  - apply Forall_flat_map. intros cs _. rewrite restartIssues_parts.
    destruct (hasHighRestarts cs); [|apply List.Forall_nil].
    apply List.Forall_cons; [|apply List.Forall_nil].
    apply Hshape; [right; split; reflexivity | left; reflexivity | reflexivity].
Qed.

Lemma DetectFailedPods_shape (pods : list corev1.Pod.t) :
  Forall (failedPodShape pods) (DetectFailedPods pods).
Proof.
  rewrite DetectFailedPods_flat_map.
  apply Forall_flat_map. intros pod Hpod.
  eapply Forall_impl; [apply podIssues_shape|]. intros issue.
  apply failedPodShape_mono. intros p Hp.
  apply elem_of_cons in Hp. destruct Hp as [->|Hp];
    [exact Hpod | apply elem_of_nil in Hp; contradiction].
Qed.

(** X4: the Warning issues [DetectFailedPods] returns are, pod by pod and
    container by container, one issue for each container that restarted
    more than 5 times; every other issue it returns is Critical; every issue
    is of type FailedPod or OutOfMemory and carries as its resources the
    name of exactly one pod of the list. *)
Theorem DetectFailedPods_warnings (pods : list corev1.Pod.t) :
  List.filter isWarningIssue (DetectFailedPods pods) =
    flat_map
      (λ pod, map (restartIssue pod)
                (List.filter hasHighRestarts
                   (corev1.PodStatus.ContainerStatuses (corev1.Pod.Status pod))))
      pods ∧
  Forall (failedPodShape pods) (DetectFailedPods pods).
Proof.
  split; [|apply DetectFailedPods_shape].
  rewrite DetectFailedPods_flat_map, filter_flat_map.
  apply flat_map_ext. intros pod. apply podIssues_warnings.
Qed.

Lemma flat_map_eq_nil {A B : Type} (g : A → list B) (l : list A) :
  flat_map g l = [] ↔ ∀ x, x ∈ l → g x = [].
Proof.
  induction l as [|x l IH]; simpl.
  - split; [intros _ y Hy; apply elem_of_nil in Hy; contradiction | reflexivity].
  - split.
    + intros Happ. apply app_eq_nil in Happ. destruct Happ as [Hx Hl].
      intros y Hy. apply elem_of_cons in Hy. destruct Hy as [->|Hy];
        [exact Hx | apply IH; assumption].
    + intros Hall. rewrite (Hall x) by (apply elem_of_cons; left; reflexivity).
      apply IH. intros y Hy. apply Hall. apply elem_of_cons. right. exact Hy.
Qed.

Lemma waitingIssues_nil_iff pod cs :
  waitingIssues pod cs = [] ↔
  ∀ waiting,
    corev1.ContainerState.Waiting (corev1.ContainerStatus.State cs) = Some waiting →
    corev1.ContainerStateWaiting.Reason waiting ≠ "ImagePullBackOff" ∧
    corev1.ContainerStateWaiting.Reason waiting ≠ "ErrImagePull" ∧
    corev1.ContainerStateWaiting.Reason waiting ≠ "CrashLoopBackOff".
Proof.
  unfold waitingIssues.
  destruct (corev1.ContainerState.Waiting _) as [waiting|].
  - destruct (String.eqb_spec (corev1.ContainerStateWaiting.Reason waiting) "ImagePullBackOff")
      as [H1|H1]; simpl.
    { split; [discriminate|]. intros Hw. destruct (Hw waiting eq_refl) as (Hn & _ & _).
      contradiction. }
    destruct (String.eqb_spec (corev1.ContainerStateWaiting.Reason waiting) "ErrImagePull")
      as [H2|H2]; simpl.
    { split; [discriminate|]. intros Hw. destruct (Hw waiting eq_refl) as (_ & Hn & _).
      contradiction. }
    destruct (String.eqb_spec (corev1.ContainerStateWaiting.Reason waiting) "CrashLoopBackOff")
      as [H3|H3]; simpl.
    { split; [discriminate|]. intros Hw. destruct (Hw waiting eq_refl) as (_ & _ & Hn).
      contradiction. }
    split; [|reflexivity]. intros _ waiting' [= <-]. repeat split; assumption.
  - split; [|reflexivity]. intros _ waiting' Hw. discriminate Hw.
Qed.

Lemma oomIssues_nil_iff pod cs :
  (if isOOMKilled cs then [oomIssue pod cs] else []) = [] ↔
  ∀ terminated,
    corev1.ContainerState.Terminated (corev1.ContainerStatus.LastTerminationState cs)
      = Some terminated →
    corev1.ContainerStateTerminated.Reason terminated ≠ "OOMKilled".
Proof.
  unfold isOOMKilled.
  destruct (corev1.ContainerState.Terminated _) as [terminated|].
  - destruct (String.eqb_spec (corev1.ContainerStateTerminated.Reason terminated) "OOMKilled")
      as [H1|H1].
    + split; [discriminate|]. intros Ht. specialize (Ht terminated eq_refl). contradiction.
    + split; [|reflexivity]. intros _ terminated' [= <-]. assumption.
  - split; [|reflexivity]. intros _ terminated' Ht. discriminate Ht.
Qed.

Lemma restartIssues_nil_iff pod cs :
  restartIssues pod cs = [] ↔ corev1.ContainerStatus.RestartCount cs ≤ 5.
Proof.
  rewrite restartIssues_parts. unfold hasHighRestarts.
  destruct (Z.gtb_spec (corev1.ContainerStatus.RestartCount cs) 5).
  - split; [discriminate | lia].
  - split; [intros _; assumption | reflexivity].
Qed.

Lemma containerIsQuiet_iff pod cs :
  containerIssues pod cs = [] ∧ restartIssues pod cs = [] ↔ containerIsQuiet cs.
Proof.
  unfold containerIsQuiet.
  rewrite <- (waitingIssues_nil_iff pod), <- (oomIssues_nil_iff pod),
    <- (restartIssues_nil_iff pod), containerIssues_parts.
  split.
  - intros [Happ Hr]. apply app_eq_nil in Happ. destruct Happ as [Hw Ho].
    split; [exact Hw|]. split; [exact Ho | exact Hr].
  - intros (Hw & Ho & Hr). split; [|exact Hr]. rewrite Hw, Ho. reflexivity.
Qed.

(** X5: [DetectFailedPods] returns no issue exactly when no pod of the list is
    in phase Failed and no container of theirs waits on an image pull or in
    a crash loop, was last terminated for memory, or restarted more than 5
    times. *)
Theorem DetectFailedPods_nil_iff (pods : list corev1.Pod.t) :
  DetectFailedPods pods = [] ↔ ∀ pod, pod ∈ pods → podIsQuiet pod.
Proof.
  rewrite DetectFailedPods_flat_map, flat_map_eq_nil.
  apply forall_proper. intros pod. apply forall_proper. intros _.
  rewrite podIssues_parts. unfold podIsQuiet.
  split.
  - intros Happ. apply app_eq_nil in Happ. destruct Happ as [Hphase Happ].
    apply app_eq_nil in Happ. destruct Happ as [Hc Hr].
    split.
    + destruct (String.eqb_spec (corev1.PodStatus.Phase (corev1.Pod.Status pod))
                  corev1.PodFailed); [discriminate Hphase | assumption].
    + intros cs Hcs. apply (containerIsQuiet_iff pod). split.
      * apply (proj1 (flat_map_eq_nil _ _) Hc). exact Hcs.
      * apply (proj1 (flat_map_eq_nil _ _) Hr). exact Hcs.
  - intros [Hphase Hquiet].
    destruct (String.eqb_spec (corev1.PodStatus.Phase (corev1.Pod.Status pod))
                corev1.PodFailed); [contradiction|].
    simpl.
    assert (Hc : flat_map (containerIssues pod)
                   (corev1.PodStatus.ContainerStatuses (corev1.Pod.Status pod)) = []).
    { apply flat_map_eq_nil. intros cs Hcs.
      apply (containerIsQuiet_iff pod cs). apply Hquiet. exact Hcs. }
    assert (Hr : flat_map (restartIssues pod)
                   (corev1.PodStatus.ContainerStatuses (corev1.Pod.Status pod)) = []).
    { apply flat_map_eq_nil. intros cs Hcs.
      apply (containerIsQuiet_iff pod cs). apply Hquiet. exact Hcs. }
    rewrite Hc, Hr. reflexivity.
Qed.


(** ** [DetectResourceConstraints] *)

Lemma checkCondition_emit pod issues condition :
  checkCondition pod issues condition =
    (issues ++ if isUnschedulable condition
               then [resourceConstraintIssue pod condition] else [])%list.
Proof.
  unfold checkCondition, isUnschedulable, Go.append.
  destruct (String.eqb _ corev1.PodScheduled), (String.eqb _ corev1.ConditionFalse),
    (Go.Contains (corev1.PodCondition.Reason condition) "Insufficient"),
    (Go.Contains (corev1.PodCondition.Message condition) "Insufficient");
    simpl; rewrite ?app_nil_r; reflexivity.
Qed.

Lemma checkPendingPod_emit issues pod :
  checkPendingPod issues pod =
    (issues ++ if isPending pod
               then map (resourceConstraintIssue pod)
                      (List.filter isUnschedulable
                         (corev1.PodStatus.Conditions (corev1.Pod.Status pod)))
               else [])%list.
Proof.
  unfold checkPendingPod, isPending.
  destruct (String.eqb _ corev1.PodPending); [|symmetry; apply app_nil_r].
  rewrite (fold_left_emit _ _ (checkCondition_emit pod)), flat_map_filter_map. reflexivity.
Qed.

Lemma DetectResourceConstraints_flat_map (pods : list corev1.Pod.t) :
  DetectResourceConstraints pods =
    flat_map
      (λ pod, if isPending pod
              then map (resourceConstraintIssue pod)
                     (List.filter isUnschedulable
                        (corev1.PodStatus.Conditions (corev1.Pod.Status pod)))
              else [])
      pods.
Proof.
  unfold DetectResourceConstraints.
  rewrite (fold_left_emit _ _ checkPendingPod_emit). reflexivity.
Qed.

(** X6: [DetectResourceConstraints] returns, pod by pod and condition by
    condition, one Critical ResourceConstraint issue naming the pod for each
    condition of a pod in phase Pending that is of type PodScheduled, has
    status False and has "Insufficient" somewhere in its reason or in its
    message (matched as written, case included); it returns nothing for a
    pod in any other phase. *)
Theorem DetectResourceConstraints_spec (pods : list corev1.Pod.t) :
  DetectResourceConstraints pods =
    flat_map
      (λ pod, if isPending pod
              then map (resourceConstraintIssue pod)
                     (List.filter isUnschedulable
                        (corev1.PodStatus.Conditions (corev1.Pod.Status pod)))
              else [])
      pods ∧
  (∀ condition,
     isUnschedulable condition = true ↔
     corev1.PodCondition.Type_ condition = corev1.PodScheduled ∧
     corev1.PodCondition.Status condition = corev1.ConditionFalse ∧
     ((∃ pre post, corev1.PodCondition.Reason condition = pre ++ "Insufficient" ++ post) ∨
      (∃ pre post, corev1.PodCondition.Message condition = pre ++ "Insufficient" ++ post))) ∧
  (∀ pod condition,
     Issue.Type_ (resourceConstraintIssue pod condition) = IssueTypeResourceConstraint ∧
     Issue.Severity (resourceConstraintIssue pod condition) = SeverityCritical ∧
     Issue.Resources (resourceConstraintIssue pod condition) = [corev1.Pod.Name pod]).
Proof.
  split; [|split].
  - apply DetectResourceConstraints_flat_map.
  - intros condition. unfold isUnschedulable.
    rewrite !andb_true_iff, orb_true_iff, !String.eqb_eq, !Contains_spec. tauto.
  - intros pod condition. repeat split.
Qed.

(** ** [AnalyzeAll] *)

Lemma separateIssue_fold (issues critical warnings : list Issue.t) :
  fold_left separateIssue issues (critical, warnings) =
    ((critical ++ List.filter isCriticalIssue issues)%list,
     (warnings ++ List.filter (λ issue, negb (isCriticalIssue issue)) issues)%list).
Proof.
  revert critical warnings. induction issues as [|issue rest IH]; intros critical warnings.
  - simpl. rewrite !app_nil_r. reflexivity.
  - simpl fold_left. unfold separateIssue at 2, isCriticalIssue, Go.append. simpl.
    destruct (String.eqb (Issue.Severity issue) SeverityCritical); simpl;
      rewrite IH, <- ?app_assoc; reflexivity.
Qed.

Lemma stuckScanShape_diagnosis scans issue :
  stuckScanShape scans issue → diagnosisShape issue.
Proof.
  intros (Hsev & _ & scan & _ & Hres). split; [rewrite Hres; discriminate | left; exact Hsev].
Qed.

Lemma failedPodShape_diagnosis pods issue :
  failedPodShape pods issue → diagnosisShape issue.
Proof.
  intros (Hsev & _ & pod & _ & Hres). split; [rewrite Hres; discriminate | exact Hsev].
Qed.

Lemma DetectResourceConstraints_shape pods :
  Forall diagnosisShape (DetectResourceConstraints pods).
Proof.
  rewrite DetectResourceConstraints_flat_map. apply Forall_flat_map. intros pod _.
  destruct (isPending pod); [|apply List.Forall_nil].
  apply Forall_forall. intros issue Hin. apply list_elem_of_In, in_map_iff in Hin.
  destruct Hin as (condition & <- & _). split; [discriminate | left; reflexivity].
Qed.

Lemma eventIssues_shape scanName event : Forall diagnosisShape (eventIssues scanName event).
Proof.
  rewrite eventIssues_cases.
  destruct (_ && _); [|apply List.Forall_nil].
  apply List.Forall_cons; [|apply List.Forall_nil].
  split; [discriminate | left; reflexivity].
Qed.

Section AnalyzerProps.
Context {W : Type}.
Variable client : ComplianceClient W.
Variable Now : State W Go.Time.
Variable Duration_String : Z → string.

(** What [DetectPermissionIssuesForScan] returns, and the world it leaves. *)
Lemma DetectPermissionIssuesForScan_run scanName w :
  DetectPermissionIssuesForScan client scanName w =
    (match (GetEvents client "ComplianceScan" scanName w).1 with
     | inl events => (flat_map (eventIssues scanName) events, None)
     | inr err => ([], Some err)
     end, (GetEvents client "ComplianceScan" scanName w).2).
Proof.
  unfold DetectPermissionIssuesForScan. unfold_state.
  destruct (GetEvents client "ComplianceScan" scanName w) as [[events|err] w']; simpl.
  - rewrite (fold_left_emit _ _ (checkEvent_emit scanName)). reflexivity.
  - reflexivity.
Qed.

(** The issues one pass of the loop body of [AnalyzeAll] adds for a scan in
    the world [w], and the world it leaves. *)
Lemma analyzeScan_run issues scan w :
  let name := ComplianceScan.Name scan in
  let pods := GetScannerPods client name w in
  let events := GetEvents client "ComplianceScan" name pods.2 in
  analyzeScan client issues scan w =
    match pods.1 with
    | inr _ => (issues, pods.2)
    | inl ps =>
        ((issues ++ DetectFailedPods ps ++ DetectResourceConstraints ps
            ++ match events.1 with
               | inl es => flat_map (eventIssues name) es
               | inr _ => []
               end)%list, events.2)
    end.
Proof.
  intros name pods events. subst events pods name. unfold analyzeScan. unfold_state.
  destruct (GetScannerPods client (ComplianceScan.Name scan) w) as [[ps|err] w1]; simpl;
    [|reflexivity].
  rewrite DetectPermissionIssuesForScan_run.
  destruct (GetEvents client "ComplianceScan" (ComplianceScan.Name scan) w1)
    as [[es|err] w2]; simpl; rewrite <- ?app_assoc, ?app_nil_r; reflexivity.
Qed.

Lemma analyzeScan_emit issues scan w :
  analyzeScan client issues scan w =
    ((issues ++ (analyzeScan client [] scan w).1)%list, (analyzeScan client [] scan w).2).
Proof.
  rewrite !analyzeScan_run. simpl.
  destruct (GetScannerPods client _ w).1; simpl; rewrite ?app_nil_r; reflexivity.
Qed.

Lemma analyzeScans_emit scans issues w :
  analyzeScans client scans issues w =
    ((issues ++ (analyzeScans client scans [] w).1)%list, (analyzeScans client scans [] w).2).
Proof.
  revert issues w. induction scans as [|scan rest IH]; intros issues w; simpl.
  - unfold_state. simpl. rewrite app_nil_r. reflexivity.
  - unfold_state. rewrite (analyzeScan_emit issues).
    destruct (analyzeScan client [] scan w) as [here w1]. simpl.
    rewrite (IH (issues ++ here)%list), (IH here). simpl.
    rewrite <- app_assoc. reflexivity.
Qed.

Lemma analyzeScan_shape scan w : Forall diagnosisShape (analyzeScan client [] scan w).1.
Proof.
  rewrite analyzeScan_run. simpl.
  destruct (GetScannerPods client _ w) as [[ps|err] w1]; simpl; [|apply List.Forall_nil].
  apply Forall_app. split; [|apply Forall_app; split].
  - eapply Forall_impl; [apply DetectFailedPods_shape|]. apply failedPodShape_diagnosis.
  - apply DetectResourceConstraints_shape.
  - destruct (GetEvents client _ _ w1).1 as [es|err]; [|apply List.Forall_nil].
    apply Forall_flat_map. intros event _. apply eventIssues_shape.
Qed.

Lemma analyzeScans_shape scans w : Forall diagnosisShape (analyzeScans client scans [] w).1.
Proof.
  revert w. induction scans as [|scan rest IH]; intros w; simpl.
  - apply List.Forall_nil.
  - unfold_state. pose proof (analyzeScan_shape scan w) as Hhere.
    destruct (analyzeScan client [] scan w) as [here w1]. simpl in *.
    rewrite analyzeScans_emit. simpl. apply Forall_app. split; [exact Hhere | apply IH].
Qed.

(** [AnalyzeAll], step by step. *)
Lemma AnalyzeAll_run w :
  AnalyzeAll client Now Duration_String w =
    match (GetComplianceScans client "" w).1 with
    | inr err =>
        (inr (Go.Errorf "failed to get scans: " err), (GetComplianceScans client "" w).2)
    | inl scans =>
        let collected :=
          collectedIssues client Now Duration_String scans (GetComplianceScans client "" w).2 in
        (inl (DiagnosisResult.mk
                (List.filter isCriticalIssue collected.1)
                (List.filter (λ issue, negb (isCriticalIssue issue)) collected.1)
                (if (length (List.filter isCriticalIssue collected.1) =? 0)%nat
                    && (length (List.filter (λ issue, negb (isCriticalIssue issue))
                                  collected.1) =? 0)%nat
                 then [noIssuesSuggestion] else [])),
         collected.2)
    end.
Proof.
  unfold AnalyzeAll, collectedIssues. unfold_state.
  destruct (GetComplianceScans client "" w) as [[scans|err] w1]; simpl; [|reflexivity].
  destruct (DetectStuckScans Now Duration_String scans w1) as [stuck w2]. simpl.
  rewrite analyzeScans_emit.
  destruct (analyzeScans client scans [] w2) as [analyzed w3]. simpl.
  rewrite separateIssue_fold. simpl. reflexivity.
Qed.

Lemma collectedIssues_shape scans w :
  Forall diagnosisShape (collectedIssues client Now Duration_String scans w).1.
Proof.
  unfold collectedIssues. simpl. apply Forall_app. split.
  - destruct (DetectStuckScans_shape_all Now Duration_String scans w) as [_ Hshape].
    eapply Forall_impl; [exact Hshape|]. apply stuckScanShape_diagnosis.
  - apply analyzeScans_shape.
Qed.

(** X7: [AnalyzeAll] fails only when the scans cannot be listed, with that
    error wrapped; once they are listed it returns a diagnosis whatever the
    listings of scanner pods and of events answer. *)
Theorem AnalyzeAll_fails_only_on_scans (w : W) :
  (∀ err,
     (GetComplianceScans client "" w).1 = inr err →
     AnalyzeAll client Now Duration_String w =
       (inr (Go.Errorf "failed to get scans: " err), (GetComplianceScans client "" w).2)) ∧
  (∀ scans,
     (GetComplianceScans client "" w).1 = inl scans →
     ∃ diagnosis,
       AnalyzeAll client Now Duration_String w =
         (inl diagnosis,
          (collectedIssues client Now Duration_String scans
             (GetComplianceScans client "" w).2).2)).
Proof.
  split.
  - intros err Herr. rewrite AnalyzeAll_run, Herr. reflexivity.
  - intros scans Hscans. rewrite AnalyzeAll_run, Hscans. eexists. reflexivity.
Qed.

Lemma filter_length_0 {A : Type} (p : A → bool) (l : list A) :
  (length (List.filter p l) =? 0)%nat = true ↔ List.filter p l = [].
Proof.
  destruct (List.filter p l); simpl; split; congruence.
Qed.

(** X8: in a diagnosis [AnalyzeAll] returns, every issue of [Issues] is
    Critical; every issue of [Warnings] is the restart warning of
    [DetectFailedPods] (severity Warning, type FailedPod); every issue
    names at least one resource; and [Suggestions] holds the single
    "no issues" sentence when both lists are empty and nothing otherwise. *)
Theorem AnalyzeAll_diagnosis (w w' : W) (diagnosis : DiagnosisResult.t) :
  AnalyzeAll client Now Duration_String w = (inl diagnosis, w') →
  Forall (λ issue, Issue.Severity issue = SeverityCritical)
    (DiagnosisResult.Issues diagnosis) ∧
  Forall (λ issue, Issue.Severity issue = SeverityWarning ∧
                   Issue.Type_ issue = IssueTypeFailedPod)
    (DiagnosisResult.Warnings diagnosis) ∧
  Forall (λ issue, Issue.Resources issue ≠ [])
    (DiagnosisResult.Issues diagnosis ++ DiagnosisResult.Warnings diagnosis)%list ∧
  (DiagnosisResult.Issues diagnosis = [] → DiagnosisResult.Warnings diagnosis = [] →
   DiagnosisResult.Suggestions diagnosis = [noIssuesSuggestion]) ∧
  ((DiagnosisResult.Issues diagnosis ++ DiagnosisResult.Warnings diagnosis)%list ≠ [] →
   DiagnosisResult.Suggestions diagnosis = []).
Proof.
  rewrite AnalyzeAll_run.
  destruct (GetComplianceScans client "" w) as [[scans|err] w1]; cbn [fst snd];
    [|discriminate].
  pose proof (collectedIssues_shape scans w1) as Hshape.
  destruct (collectedIssues client Now Duration_String scans w1) as [collected w2].
  cbn [fst snd] in *. intros [= <- <-]. cbn [DiagnosisResult.Issues
    DiagnosisResult.Warnings DiagnosisResult.Suggestions].
  assert (Hcrit : Forall (λ issue, Issue.Severity issue = SeverityCritical)
                    (List.filter isCriticalIssue collected)).
  { apply Forall_forall. intros issue Hin. apply list_elem_of_In, filter_In in Hin.
    destruct Hin as [_ Hc]. apply String.eqb_eq in Hc. exact Hc. }
  assert (Hwarn : Forall (λ issue, Issue.Severity issue = SeverityWarning ∧
                                   Issue.Type_ issue = IssueTypeFailedPod)
                    (List.filter (λ issue, negb (isCriticalIssue issue)) collected)).
  { apply Forall_forall. intros issue Hin. apply list_elem_of_In, filter_In in Hin.
    destruct Hin as [Hin Hc]. apply list_elem_of_In in Hin.
    rewrite Forall_forall in Hshape. destruct (Hshape issue Hin) as [_ [Hs|Hs]].
    - unfold isCriticalIssue in Hc. rewrite Hs in Hc. discriminate Hc.
    - exact Hs. }
  split; [exact Hcrit|]. split; [exact Hwarn|]. split; [|split].
  - apply Forall_app. split; apply Forall_forall; intros issue Hin;
      apply list_elem_of_In, filter_In in Hin; destruct Hin as [Hin _];
      apply list_elem_of_In in Hin; rewrite Forall_forall in Hshape;
      apply (Hshape issue Hin).
  - intros -> ->. reflexivity.
  - intros Hne.
    destruct (List.filter isCriticalIssue collected) as [|c cs]; simpl; [|reflexivity].
    destruct (List.filter (λ issue, negb (isCriticalIssue issue)) collected) as [|x xs];
      simpl; [contradiction | reflexivity].
Qed.

Lemma analyzeScans_without_pods scans w :
  (∀ name w0, ∃ err, (GetScannerPods client name w0).1 = inr err) →
  (analyzeScans client scans [] w).1 = [].
Proof.
  intros Hfail. revert w. induction scans as [|scan rest IH]; intros w; simpl.
  - reflexivity.
  - unfold_state. rewrite analyzeScan_run. simpl.
    destruct (Hfail (ComplianceScan.Name scan) w) as [err Herr]. rewrite Herr. apply IH.
Qed.

(** X9: when the scans are listed but the scanner pods of no scan can be
    listed, [AnalyzeAll] reports exactly the issues of [DetectStuckScans]:
    no pod, resource or permission issue (the events are not consulted) and
    no warning. *)
Theorem AnalyzeAll_without_pods (w : W) (scans : list ComplianceScan.t) :
  (GetComplianceScans client "" w).1 = inl scans →
  (∀ name w0, ∃ err, (GetScannerPods client name w0).1 = inr err) →
  ∃ diagnosis w',
    AnalyzeAll client Now Duration_String w = (inl diagnosis, w') ∧
    DiagnosisResult.Issues diagnosis =
      (DetectStuckScans Now Duration_String scans (GetComplianceScans client "" w).2).1 ∧
    DiagnosisResult.Warnings diagnosis = [].
Proof.
  intros Hscans Hfail. rewrite AnalyzeAll_run, Hscans. simpl.
  eexists _, _. split; [reflexivity|]. simpl.
  unfold collectedIssues. simpl. rewrite (analyzeScans_without_pods _ _ Hfail), app_nil_r.
  destruct (DetectStuckScans_shape_all Now Duration_String scans
              (GetComplianceScans client "" w).2) as [_ Hshape].
  assert (Hall : ∀ issue,
    In issue (DetectStuckScans Now Duration_String scans (GetComplianceScans client "" w).2).1 →
    isCriticalIssue issue = true).
  { intros issue Hin. apply list_elem_of_In in Hin. rewrite Forall_forall in Hshape.
    destruct (Hshape issue Hin) as (Hsev & _). unfold isCriticalIssue. rewrite Hsev.
    reflexivity. }
  revert Hall.
  generalize (DetectStuckScans Now Duration_String scans (GetComplianceScans client "" w).2).1.
  intros l Hall. split.
  - induction l as [|x l IH]; [reflexivity|]. simpl.
    rewrite (Hall x) by (left; reflexivity). f_equal. apply IH.
    intros y Hy. apply Hall. right. exact Hy.
  - induction l as [|x l IH]; [reflexivity|]. simpl.
    rewrite (Hall x) by (left; reflexivity). simpl. apply IH.
    intros y Hy. apply Hall. right. exact Hy.
Qed.

End AnalyzerProps.

Lemma AnalyzeAll_diagnosis_witness :
  ∃ diagnosis,
    AnalyzeAll crashingClient fixedClock minutesString tt = (inl diagnosis, tt) ∧
    DiagnosisResult.Issues diagnosis =
      [crashLoopIssue crashingPod; permissionIssue "ocp4-cis" forbiddenWarning] ∧
    Forall (λ issue, Issue.Severity issue = SeverityWarning ∧
                     Issue.Type_ issue = IssueTypeFailedPod)
      (DiagnosisResult.Warnings diagnosis) ∧
    DiagnosisResult.Suggestions diagnosis = [].
Proof.
  eexists. split; [reflexivity|]. split; [reflexivity|].
  pose proof (AnalyzeAll_diagnosis crashingClient fixedClock minutesString tt tt _ eq_refl)
    as (_ & Hwarn & _ & _ & Hsugg).
  split; [exact Hwarn|]. apply Hsugg. discriminate.
Defined.

Lemma AnalyzeAll_without_pods_witness :
  (GetComplianceScans podlessClient "" tt).1
    = inl [scanWith "ocp4-cis" ResultError "scanner failed"] ∧
  ∃ diagnosis w',
    AnalyzeAll podlessClient fixedClock minutesString tt = (inl diagnosis, w') ∧
    DiagnosisResult.Issues diagnosis
      = [errorResultIssue (scanWith "ocp4-cis" ResultError "scanner failed")] ∧
    DiagnosisResult.Warnings diagnosis = [].
Proof.
  split; [reflexivity|].
  destruct (AnalyzeAll_without_pods podlessClient fixedClock minutesString tt
              [scanWith "ocp4-cis" ResultError "scanner failed"] eq_refl)
    as (diagnosis & w' & Hrun & Hissues & Hwarnings).
  { intros name w0. eexists. reflexivity. }
  exists diagnosis, w'. split; [exact Hrun|]. split; [|exact Hwarnings].
  rewrite Hissues. reflexivity.
Defined.


(** ** [GetCheckCounts] on any list, and with [CalculateCompliancePercentage] *)

Lemma incr_wrap (z : Z) : Go.incr (Go.wrap64 z) = Go.wrap64 (z + 1).
Proof. unfold Go.incr. apply wrap64_add_l. Qed.

(** Overflow or not, each counter is the tally of its status, as an [int]. *)
Lemma GetCheckCounts_wrap (l : list ComplianceCheckResult.t) :
  GetCheckCounts l =
    CheckCounts.mk
      (Go.wrap64 (tally (hasStatus CheckPass) l)) (Go.wrap64 (tally (hasStatus CheckFail) l))
      (Go.wrap64 (tally (hasStatus CheckManual) l)) (Go.wrap64 (tally (hasStatus CheckError) l))
      (Go.wrap64 (tally (hasStatus CheckInfo) l)) (Go.wrap64 (Z.of_nat (length l))).
Proof.
  unfold GetCheckCounts.
  assert (Hgen : ∀ l p f m e i t,
    fold_left countCheck l
      (CheckCounts.mk (Go.wrap64 p) (Go.wrap64 f) (Go.wrap64 m) (Go.wrap64 e) (Go.wrap64 i)
         (Go.wrap64 t)) =
    CheckCounts.mk
      (Go.wrap64 (p + tally (hasStatus CheckPass) l))
      (Go.wrap64 (f + tally (hasStatus CheckFail) l))
      (Go.wrap64 (m + tally (hasStatus CheckManual) l))
      (Go.wrap64 (e + tally (hasStatus CheckError) l))
      (Go.wrap64 (i + tally (hasStatus CheckInfo) l))
      (Go.wrap64 (t + Z.of_nat (length l)))).
  { clear l. induction l as [|c l IH]; intros p f m e i t.
    - rewrite !tally_nil. simpl. rewrite !Z.add_0_r. reflexivity.
    - simpl fold_left. rewrite !tally_cons. simpl length. rewrite Nat2Z.inj_succ.
      destruct c as [? ? status ? ? ? ?]. rewrite !hasStatus_mk.
      unfold countCheck. simpl. rewrite !incr_wrap.
      case_eqb status CheckPass.
      { eval_eqb. rewrite IH. f_equal; f_equal; lia. }
      case_eqb status CheckFail.
      { eval_eqb. rewrite IH. f_equal; f_equal; lia. }
      case_eqb status CheckManual.
      { eval_eqb. rewrite IH. f_equal; f_equal; lia. }
      case_eqb status CheckError.
      { eval_eqb. rewrite IH. f_equal; f_equal; lia. }
      case_eqb status CheckInfo.
      { eval_eqb. rewrite IH. f_equal; f_equal; lia. }
      rewrite IH. f_equal; f_equal; lia. }
  change CheckCounts.zero with
    (CheckCounts.mk (Go.wrap64 0) (Go.wrap64 0) (Go.wrap64 0) (Go.wrap64 0) (Go.wrap64 0)
       (Go.wrap64 0)).
  rewrite Hgen. reflexivity.
Qed.

Lemma tally_app p l1 l2 : tally p (l1 ++ l2)%list = tally p l1 + tally p l2.
Proof. unfold tally. rewrite List.filter_app, length_app. lia. Qed.

Lemma tally_Permutation p l1 l2 : l1 ≡ₚ l2 → tally p l1 = tally p l2.
Proof.
  intros Hperm. unfold tally. f_equal.
  induction Hperm as [|x l l' _ IH|x y l|l l' l'' _ IH1 _ IH2]; simpl.
  - reflexivity.
  - destruct (p x); simpl; rewrite IH; reflexivity.
  - destruct (p x), (p y); reflexivity.
  - rewrite IH1. exact IH2.
Qed.

Lemma wrap64_add (x y : Z) : Go.add64 (Go.wrap64 x) (Go.wrap64 y) = Go.wrap64 (x + y).
Proof.
  unfold Go.add64. rewrite wrap64_add_l, Z.add_comm, wrap64_add_l. f_equal. lia.
Qed.

(** X10: the counts of [GetCheckCounts] do not depend on the order of the
    results, and the counts of a concatenation are the sums, as [int]s, of
    the counts of its parts: tallying lists apart and adding up, as the
    overview does, loses nothing. *)
Theorem GetCheckCounts_order_and_sum (l1 l2 : list ComplianceCheckResult.t) :
  (∀ l, l ≡ₚ l1 → GetCheckCounts l = GetCheckCounts l1) ∧
  GetCheckCounts (l1 ++ l2)%list =
    CheckCounts.mk
      (Go.add64 (CheckCounts.Pass (GetCheckCounts l1)) (CheckCounts.Pass (GetCheckCounts l2)))
      (Go.add64 (CheckCounts.Fail (GetCheckCounts l1)) (CheckCounts.Fail (GetCheckCounts l2)))
      (Go.add64 (CheckCounts.Manual (GetCheckCounts l1))
         (CheckCounts.Manual (GetCheckCounts l2)))
      (Go.add64 (CheckCounts.Error (GetCheckCounts l1)) (CheckCounts.Error (GetCheckCounts l2)))
      (Go.add64 (CheckCounts.Info (GetCheckCounts l1)) (CheckCounts.Info (GetCheckCounts l2)))
      (Go.add64 (CheckCounts.Total (GetCheckCounts l1)) (CheckCounts.Total (GetCheckCounts l2))).
Proof.
  split.
  - intros l Hperm. rewrite !GetCheckCounts_wrap.
    rewrite !(tally_Permutation _ _ _ Hperm), (Permutation_length Hperm). reflexivity.
  - rewrite !GetCheckCounts_wrap. simpl. rewrite !wrap64_add, !tally_app, length_app.
    rewrite Nat2Z.inj_add. reflexivity.
Qed.

(** X11: on the counts [GetCheckCounts] returns, the guard of
    [CalculateCompliancePercentage] on [Total] changes nothing: for every
    list of check results (of a length that fits an [int]) the percentage is
    100 × passed / (passed + failed) over the results with status PASS and
    FAIL, and 0 when there is none of them. *)
Theorem CalculateCompliancePercentage_of_GetCheckCounts (l : list ComplianceCheckResult.t) :
  Z.of_nat (length l) ≤ Go.MaxInt →
  CalculateCompliancePercentage (GetCheckCounts l) =
    specPercentage (tally (hasStatus CheckPass) l) (tally (hasStatus CheckFail) l).
Proof.
  intros Hlen. rewrite GetCheckCounts_tallies by assumption.
  pose proof (tally_partition l) as Hpart.
  pose proof (tally_bounds (hasStatus CheckPass) l).
  pose proof (tally_bounds (hasStatus CheckFail) l).
  pose proof (tally_bounds (hasStatus CheckManual) l).
  pose proof (tally_bounds (hasStatus CheckError) l).
  pose proof (tally_bounds (hasStatus CheckInfo) l).
  pose proof (tally_bounds isUnrecognised l).
  unfold CalculateCompliancePercentage, specPercentage, Go.add64. simpl.
  rewrite wrap64_small by (unfold Go.MinInt, Go.MaxInt in *; lia).
  destruct (Z.eqb_spec (Z.of_nat (length l)) 0) as [Hz|Hz]; [|reflexivity].
  destruct (Z.eqb_spec (tally (hasStatus CheckPass) l + tally (hasStatus CheckFail) l) 0);
    [reflexivity | lia].
Qed.

Lemma CalculateCompliancePercentage_of_GetCheckCounts_witness :
  Z.of_nat (length sampleChecks) ≤ Go.MaxInt ∧
  CalculateCompliancePercentage (GetCheckCounts sampleChecks) = Go.float64_of_int 50.
Proof.
  assert (Hlen : Z.of_nat (length sampleChecks) ≤ Go.MaxInt)
    by (unfold Go.MaxInt; simpl; lia).
  split; [exact Hlen|].
  rewrite (CalculateCompliancePercentage_of_GetCheckCounts sampleChecks Hlen).
  vm_compute. reflexivity.
Defined.

(** ** [isPodReady] and the verdict of [collectOperatorStatus] *)

(** X12: a pod is ready exactly when the first of its conditions of type Ready
    has the status True: conditions of other types before it are skipped,
    and whatever comes after it is not looked at. *)
Theorem isPodReady_first_condition (pod : corev1.Pod.t) :
  isPodReady pod = true ↔
  ∃ before condition after,
    corev1.PodStatus.Conditions (corev1.Pod.Status pod)
      = (before ++ condition :: after)%list ∧
    Forall (λ c, corev1.PodCondition.Type_ c ≠ corev1.PodReady) before ∧
    corev1.PodCondition.Type_ condition = corev1.PodReady ∧
    corev1.PodCondition.Status condition = corev1.ConditionTrue.
Proof.
  unfold isPodReady.
  induction (corev1.PodStatus.Conditions (corev1.Pod.Status pod)) as [|c l IH]; simpl.
  - split; [discriminate|]. intros (before & condition & after & Heq & _).
    destruct before; discriminate Heq.
  - destruct (String.eqb_spec (corev1.PodCondition.Type_ c) corev1.PodReady) as [Hc|Hc].
    + rewrite String.eqb_eq. split.
      * intros Hstatus. exists [], c, l. repeat split; [apply List.Forall_nil | assumption..].
      * intros (before & condition & after & Heq & Hbefore & Hty & Hstatus).
        destruct before as [|b before].
        -- injection Heq as -> ->. exact Hstatus.
        -- injection Heq as -> ->. inversion Hbefore; contradiction.
    + rewrite IH. split.
      * intros (before & condition & after & -> & Hbefore & Hty & Hstatus).
        exists (c :: before), condition, after.
        repeat split; [apply List.Forall_cons; assumption | assumption..].
      * intros (before & condition & after & Heq & Hbefore & Hty & Hstatus).
        destruct before as [|b before].
        -- injection Heq as -> ->. contradiction.
        -- injection Heq as -> ->. inversion Hbefore; subst.
           exists before, condition, after. repeat split; assumption.
Qed.

Lemma fold_checkOperatorPod_pods pods status :
  OperatorHealthStatus.OperatorPods (fold_left checkOperatorPod pods status) =
    (OperatorHealthStatus.OperatorPods status ++ map podStatusOf pods)%list.
Proof.
  revert status. induction pods as [|pod pods IH]; intros status; simpl.
  - symmetry. apply app_nil_r.
  - rewrite IH. unfold checkOperatorPod, podStatusOf, Go.append.
    destruct (String.eqb _ corev1.PodRunning), (isPodReady pod), (_ >? 5); simpl;
      rewrite <- app_assoc; reflexivity.
Qed.

Lemma unhealthy_pods_have_issues (pods : list corev1.Pod.t) :
  forallb isRunningAndReady pods = false →
  flat_map (λ pod, phaseIssue pod ++ readyIssue pod ++ restartFlag pod)%list pods ≠ [].
Proof.
  induction pods as [|pod pods IH]; simpl; [discriminate|].
  destruct (isRunningAndReady pod) eqn:Hpod; simpl.
  - intros Hrest Happ. apply app_eq_nil in Happ. destruct Happ as [_ Happ].
    exact (IH Hrest Happ).
  - intros _ Happ. apply app_eq_nil in Happ. destruct Happ as [Happ _].
    apply app_eq_nil in Happ. destruct Happ as [Hphase Happ].
    apply app_eq_nil in Happ. destruct Happ as [Hready _].
    unfold isRunningAndReady in Hpod. unfold phaseIssue in Hphase. unfold readyIssue in Hready.
    destruct (String.eqb _ corev1.PodRunning); [|discriminate Hphase].
    destruct (isPodReady pod); [discriminate Hpod | discriminate Hready].
Qed.

(** X13: when the operator pods could be listed, [collectOperatorStatus]
    returns no error; [OperatorPods] has one entry per pod, in order, with
    its name, phase, readiness and restarts; [IsHealthy] is true exactly when
    there is at least one pod and every pod is Running and Ready; with no
    pod at all the only issue is "No compliance operator pods found"; and an
    unhealthy verdict always comes with at least one issue. *)
Theorem collectOperatorStatus_verdict {W : Type} (client : ComplianceClient W)
    (w w' : W) (pods : list corev1.Pod.t) :
  GetOperatorPods client w = (inl pods, w') →
  ∃ status,
    collectOperatorStatus client w = ((status, None), w') ∧
    OperatorHealthStatus.OperatorPods status = map podStatusOf pods ∧
    (OperatorHealthStatus.IsHealthy status = true ↔
     pods ≠ [] ∧ Forall (λ pod, isRunningAndReady pod = true) pods) ∧
    (pods = [] →
     OperatorHealthStatus.Issues status = ["No compliance operator pods found"]) ∧
    (OperatorHealthStatus.IsHealthy status = false →
     OperatorHealthStatus.Issues status ≠ []).
Proof.
  intros Hpods. unfold collectOperatorStatus. unfold_state. rewrite Hpods.
  destruct pods as [|pod pods].
  - simpl. eexists. split; [reflexivity|]. simpl. split; [reflexivity|].
    split; [split; [discriminate | intros [Hne _]; contradiction]|].
    split; [reflexivity | discriminate].
  - change (length (pod :: pods) =? 0)%nat with false. cbv iota.
    set (status0 := OperatorHealthStatus.mk [] true []).
    destruct (fold_checkOperatorPod (pod :: pods) status0) as [Hhealthy Hissues].
    pose proof (fold_checkOperatorPod_pods (pod :: pods) status0) as Hstatuses.
    exists (fold_left checkOperatorPod (pod :: pods) status0).
    split; [reflexivity|]. split; [exact Hstatuses|]. split; [|split].
    + rewrite Hhealthy. simpl OperatorHealthStatus.IsHealthy. rewrite andb_true_l.
      rewrite forallb_forall, Forall_forall. split.
      * intros Hall. split; [discriminate|]. intros p Hp. apply Hall.
        apply list_elem_of_In. exact Hp.
      * intros [_ Hall] p Hp. apply Hall. apply list_elem_of_In. exact Hp.
    + discriminate.
    + rewrite Hhealthy, Hissues. simpl OperatorHealthStatus.IsHealthy.
      simpl OperatorHealthStatus.Issues. rewrite andb_true_l. intros Hfalse.
      change ([] ++ ?l)%list with l. exact (unhealthy_pods_have_issues _ Hfalse).
Qed.

Lemma collectOperatorStatus_verdict_witness :
  GetOperatorPods
    (staticClient (inl []) (λ _, inl []) (λ _, inl []) (λ _, inl []) (inl [twiceReadyPod])
       (λ _, inl []) (λ _, inl [])) tt = (inl [twiceReadyPod], tt) ∧
  ∃ status,
    collectOperatorStatus
      (staticClient (inl []) (λ _, inl []) (λ _, inl []) (λ _, inl []) (inl [twiceReadyPod])
         (λ _, inl []) (λ _, inl [])) tt = ((status, None), tt) ∧
    OperatorHealthStatus.IsHealthy status = false ∧
    OperatorHealthStatus.Issues status = ["Pod compliance-operator-5c6b is not ready"].
Proof.
  split; [reflexivity|].
  destruct (collectOperatorStatus_verdict
              (staticClient (inl []) (λ _, inl []) (λ _, inl []) (λ _, inl [])
                 (inl [twiceReadyPod]) (λ _, inl []) (λ _, inl []))
              tt tt [twiceReadyPod] eq_refl) as (status & Hrun & _).
  exists status. split; [exact Hrun|].
  injection Hrun as <-. split; reflexivity.
Defined.

(** ** [CollectAllData]: what can fail it, and what a snapshot holds *)

Section CollectorMore.
Context {W : Type}.
Variable client : ComplianceClient W.
Variable Now : State W Go.Time.

Lemma CollectAllData_suites_error w0 err :
  (GetComplianceSuites client (Now w0).2).1 = inr err →
  CollectAllData client Now w0 =
    (inr (Go.Errorf "failed to collect suites: " err),
     (GetComplianceSuites client (Now w0).2).2).
Proof.
  intros Herr. unfold CollectAllData. unfold_state.
  destruct (Now w0) as [now w1]. simpl in *.
  destruct (GetComplianceSuites client w1) as [r w2]. simpl in *. subst r. reflexivity.
Qed.

Lemma CollectAllData_scans_error w0 suites err :
  (GetComplianceSuites client (Now w0).2).1 = inl suites →
  (GetComplianceScans client "" (GetComplianceSuites client (Now w0).2).2).1 = inr err →
  CollectAllData client Now w0 =
    (inr (Go.Errorf "failed to collect scans: " err),
     (GetComplianceScans client "" (GetComplianceSuites client (Now w0).2).2).2).
Proof.
  intros Hsuites Herr. unfold CollectAllData. unfold_state.
  destruct (Now w0) as [now w1]. simpl in *.
  destruct (GetComplianceSuites client w1) as [r w2]. simpl in *. subst r.
  destruct (GetComplianceScans client "" w2) as [r w3]. simpl in *. subst r. reflexivity.
Qed.

(** X14: [CollectAllData] stops at the first listing that fails: when the
    suites cannot be listed it returns that error wrapped and calls nothing
    else; when the scans cannot be listed, likewise; and when suites, scans
    and operator pods are all listed it returns a snapshot, whatever the
    fetches of check results and remediations answer. *)
Theorem CollectAllData_failures (w0 : W) :
  let w1 := (Now w0).2 in
  let w2 := (GetComplianceSuites client w1).2 in
  let w3 := (GetComplianceScans client "" w2).2 in
  (∀ err,
     (GetComplianceSuites client w1).1 = inr err →
     CollectAllData client Now w0 =
       (inr (Go.Errorf "failed to collect suites: " err), w2)) ∧
  (∀ suites err,
     (GetComplianceSuites client w1).1 = inl suites →
     (GetComplianceScans client "" w2).1 = inr err →
     CollectAllData client Now w0 =
       (inr (Go.Errorf "failed to collect scans: " err), w3)) ∧
  (∀ suites allScans pods,
     (GetComplianceSuites client w1).1 = inl suites →
     (GetComplianceScans client "" w2).1 = inl allScans →
     let data0 :=
       ComplianceData.with_Suites suites
         (ComplianceData.mk [] ∅ ∅ ∅ OperatorHealthStatus.zero (Now w0).1) in
     let w5 := (collectScans client allScans data0 w3).2 in
     (GetOperatorPods client w5).1 = inl pods →
     ∃ data, CollectAllData client Now w0 = (inl data, (GetOperatorPods client w5).2)).
Proof.
  intros w1 w2 w3. split; [|split].
  - apply CollectAllData_suites_error.
  - apply CollectAllData_scans_error.
  - intros suites allScans pods Hsuites Hscans data0 w5 Hpods.
    pose proof (CollectAllData_listed client Now w0 suites _ Hsuites Hscans) as Hrun.
    simpl in Hrun. fold w1 w2 w3 data0 in Hrun. fold w5 in Hrun.
    destruct (collectOperatorStatus_ok client w5 pods Hpods) as [status Hstatus].
    rewrite Hstatus in Hrun. simpl in Hrun. eexists. exact Hrun.
Qed.

(** The keys and the scans of the snapshot after the loop over the scans. *)
Lemma collectScans_doms scans data w :
  let data' := (collectScans client scans data w).1 in
  dom (ComplianceData.Scans data') =@{gset string}
    dom (ComplianceData.Scans data) ∪ list_to_set (map ComplianceScan.Name scans) ∧
  dom (ComplianceData.CheckResults data') ⊆@{gset string}
    dom (ComplianceData.CheckResults data) ∪ list_to_set (map ComplianceScan.Name scans) ∧
  dom (ComplianceData.Remediations data') ⊆@{gset string}
    dom (ComplianceData.Remediations data) ∪ list_to_set (map ComplianceScan.Name scans) ∧
  (∀ name scan,
     ComplianceData.Scans data' !! name = Some scan →
     ComplianceData.Scans data !! name = Some scan ∨
     ComplianceScan.Name scan = name ∧ scan ∈ scans).
Proof.
  revert data w. induction scans as [|scan rest IH]; intros data w; simpl.
  - split; [set_solver|]. split; [set_solver|]. split; [set_solver|].
    intros name s Hs. left. exact Hs.
  - unfold_state. rewrite collectScan_fields. simpl.
    match goal with |- context [collectScans client rest ?d ?w'] =>
      destruct (IH d w') as (HS & HC & HR & HV) end.
    simpl in *. split; [|split; [|split]].
    + rewrite HS, dom_insert_L. set_solver.
    + etrans; [exact HC|].
      destruct (GetComplianceCheckResults client _ "" w).1;
        [rewrite dom_insert_L|]; set_solver.
    + etrans; [exact HR|].
      destruct (GetComplianceRemediations client _ _).1;
        [rewrite dom_insert_L|]; set_solver.
    + intros name s Hs. destruct (HV name s Hs) as [Hold|[Hname Hin]].
      * destruct (decide (ComplianceScan.Name scan = name)) as [Heq|Hne].
        -- rewrite Heq, lookup_insert_eq in Hold. injection Hold as <-.
           right. split; [exact Heq | apply elem_of_cons; left; reflexivity].
        -- rewrite lookup_insert_ne in Hold by exact Hne. left. exact Hold.
      * right. split; [exact Hname | apply elem_of_cons; right; exact Hin].
Qed.

(** X15: in a snapshot [CollectAllData] returns, the suites are those listed
    and the timestamp is the clock read first; the keys of [Scans] are
    exactly the names of the scans listed, and each is bound to a listed
    scan of that name; every key of [CheckResults] and of [Remediations] is
    a key of [Scans]. *)
Theorem CollectAllData_snapshot (w0 w' : W) (suites : list ComplianceSuite.t)
    (allScans : list ComplianceScan.t) (data : ComplianceData.t) :
  (GetComplianceSuites client (Now w0).2).1 = inl suites →
  (GetComplianceScans client "" (GetComplianceSuites client (Now w0).2).2).1
    = inl allScans →
  CollectAllData client Now w0 = (inl data, w') →
  ComplianceData.Suites data = suites ∧
  ComplianceData.Timestamp data = (Now w0).1 ∧
  dom (ComplianceData.Scans data) =@{gset string}
    list_to_set (map ComplianceScan.Name allScans) ∧
  dom (ComplianceData.CheckResults data) ⊆@{gset string} dom (ComplianceData.Scans data) ∧
  dom (ComplianceData.Remediations data) ⊆@{gset string} dom (ComplianceData.Scans data) ∧
  (∀ name scan,
     ComplianceData.Scans data !! name = Some scan →
     ComplianceScan.Name scan = name ∧ scan ∈ allScans).
Proof.
  intros Hsuites Hscans Hrun.
  rewrite (CollectAllData_listed client Now w0 suites _ Hsuites Hscans) in Hrun.
  simpl in Hrun.
  match type of Hrun with context [collectScans client allScans ?d ?w3] =>
    destruct (collectScans_frame client allScans d w3) as (HSu & _ & HTs & _);
    destruct (collectScans_doms allScans d w3) as (HS & HC & HR & HV);
    destruct (collectOperatorStatus client (collectScans client allScans d w3).2)
      as [[status [err|]] w5]; simpl in Hrun; [discriminate Hrun|];
    injection Hrun as <- <-
  end.
  simpl in *. rewrite dom_empty_L in *.
  split; [exact HSu|]. split; [exact HTs|].
  split; [rewrite HS; set_solver|]. split; [rewrite HS; set_solver|].
  split; [rewrite HS; set_solver|].
  intros name scan Hs. destruct (HV name scan Hs) as [Hold|Hnew]; [|exact Hnew].
  rewrite lookup_empty in Hold. discriminate Hold.
Qed.

End CollectorMore.

Lemma CollectAllData_snapshot_witness :
  ∃ data,
    CollectAllData partialClient fixedClock tt = (inl data, tt) ∧
    ComplianceData.Timestamp data = 1700000000000000000 ∧
    dom (ComplianceData.Scans data) =@{gset string}
      list_to_set ["ocp4-cis"; "ocp4-cis-node-worker"; "ocp4-cis-node-master"] ∧
    dom (ComplianceData.CheckResults data) ⊆@{gset string} dom (ComplianceData.Scans data).
Proof.
  eexists. split; [reflexivity|].
  destruct (CollectAllData_snapshot partialClient fixedClock tt tt [] _ _
              eq_refl eq_refl eq_refl) as (_ & Hts & Hscans & Hchecks & _).
  split; [exact Hts|]. split; [exact Hscans | exact Hchecks].
Defined.

(** X16: if the suites and the scans are listed, the remediations of the scan
    [scan] cannot be fetched when its turn comes, no other scan of the list
    has its name, and the operator pods are listed, then [CollectAllData]
    returns a snapshot; that scan is a key of [Scans] and not a key of
    [Remediations]; and its check results are in the snapshot exactly when
    their own fetch, made just before, returned them: the two fetches of a
    scan do not depend on each other. *)
Theorem CollectAllData_remediation_failure {W : Type} (client : ComplianceClient W)
    (Now : State W Go.Time) (w0 : W) (suites : list ComplianceSuite.t)
    (pre post : list ComplianceScan.t) (scan : ComplianceScan.t)
    (err : Go.error) (pods : list corev1.Pod.t) :
  let w1 := (Now w0).2 in
  (GetComplianceSuites client w1).1 = inl suites →
  let w2 := (GetComplianceSuites client w1).2 in
  (GetComplianceScans client "" w2).1 = inl (pre ++ scan :: post)%list →
  let w3 := (GetComplianceScans client "" w2).2 in
  let data0 :=
    ComplianceData.with_Suites suites
      (ComplianceData.mk [] ∅ ∅ ∅ OperatorHealthStatus.zero (Now w0).1) in
  let w4 := (collectScans client pre data0 w3).2 in
  let checks := GetComplianceCheckResults client (ComplianceScan.Name scan) "" w4 in
  (GetComplianceRemediations client (ComplianceScan.Name scan) checks.2).1 = inr err →
  ComplianceScan.Name scan ∉ map ComplianceScan.Name (pre ++ post)%list →
  let w5 := (collectScans client (pre ++ scan :: post)%list data0 w3).2 in
  (GetOperatorPods client w5).1 = inl pods →
  ∃ data,
    CollectAllData client Now w0 = (inl data, (GetOperatorPods client w5).2) ∧
    ComplianceData.Scans data !! ComplianceScan.Name scan = Some scan ∧
    ComplianceData.Remediations data !! ComplianceScan.Name scan = None ∧
    ComplianceData.CheckResults data !! ComplianceScan.Name scan =
      match checks.1 with
      | inl checkResults => Some checkResults
      | inr _ => None
      end.
Proof.
  intros w1 Hsuites w2 Hscans w3 data0 w4 checks Hfetch Hunique w5 Hpods.
  pose proof (CollectAllData_listed client Now w0 suites _ Hsuites Hscans) as Hrun.
  simpl in Hrun. fold w1 w2 w3 data0 in Hrun. fold w5 in Hrun.
  destruct (collectOperatorStatus_ok client w5 pods Hpods) as [status Hstatus].
  rewrite Hstatus in Hrun. simpl in Hrun.
  eexists. split; [exact Hrun|].
  rewrite map_app in Hunique.
  apply not_elem_of_app in Hunique. destruct Hunique as [Hpre Hpost].
  assert (Hloop : (collectScans client (pre ++ scan :: post) data0 w3).1 =
    (collectScans client post
       (collectScan client (collectScans client pre data0 w3).1 scan w4).1
       (collectScan client (collectScans client pre data0 w3).1 scan w4).2).1).
  { rewrite collectScans_app. fold w4. simpl. unfold_state.
    destruct (collectScan client _ scan w4) as [d w']. reflexivity. }
  destruct (collectScans_frame client pre data0 w3) as (_ & _ & _ & Hkpre).
  destruct (Hkpre _ Hpre) as (_ & HCpre & HRpre).
  simpl. rewrite Hloop.
  match goal with |- context [collectScans client post ?d ?w'] =>
    destruct (collectScans_frame client post d w') as (_ & _ & _ & Hk) end.
  destruct (Hk _ Hpost) as (-> & -> & ->).
  rewrite collectScan_fields. simpl. fold w4. fold checks. rewrite Hfetch.
  split; [apply lookup_insert_eq|]. split.
  - rewrite HRpre. reflexivity.
  - destruct checks.1 as [checkResults|err']; [apply lookup_insert_eq|].
    rewrite HCpre. reflexivity.
Qed.

Lemma CollectAllData_remediation_failure_witness :
  (GetComplianceRemediations remediationClient "ocp4-cis-node-worker" tt).1
    = inr "failed to list remediations: context deadline exceeded" ∧
  ∃ data,
    CollectAllData remediationClient fixedClock tt = (inl data, tt) ∧
    ComplianceData.Scans data !! "ocp4-cis-node-worker"
      = Some (scanNamed "ocp4-cis-node-worker") ∧
    ComplianceData.Remediations data !! "ocp4-cis-node-worker" = None ∧
    ComplianceData.CheckResults data !! "ocp4-cis-node-worker" = Some sampleChecks.
Proof.
  split; [reflexivity|].
  assert (Hunique :
    ComplianceScan.Name (scanNamed "ocp4-cis-node-worker")
      ∉ map ComplianceScan.Name ([scanNamed "ocp4-cis"] ++ [])%list).
  { simpl. intros Hin. apply elem_of_cons in Hin. destruct Hin as [Hin|Hin]; [discriminate|].
    apply elem_of_nil in Hin. exact Hin. }
  destruct (CollectAllData_remediation_failure remediationClient fixedClock tt []
              [scanNamed "ocp4-cis"] [] (scanNamed "ocp4-cis-node-worker")
              "failed to list remediations: context deadline exceeded" [operatorPod]
              eq_refl eq_refl eq_refl Hunique eq_refl)
    as (data & Hrun & Hscan & Hrem & Hchecks).
  exists data. split; [exact Hrun|]. split; [exact Hscan|]. split; [exact Hrem|exact Hchecks].
Defined.

(** ** [CollectSuiteData] *)

Section SuiteCollectorProps.
Context {W : Type}.
Variable client : ComplianceClient W.

Lemma collectSuiteScans_fields scans data w :
  let data' := (collectSuiteScans client scans data w).1 in
  SuiteData.Suite data' = SuiteData.Suite data ∧
  SuiteData.Scans data' = SuiteData.Scans data ∧
  dom (SuiteData.CheckResults data') ⊆@{gset string}
    dom (SuiteData.CheckResults data) ∪ list_to_set (map ComplianceScan.Name scans) ∧
  dom (SuiteData.Remediations data') ⊆@{gset string}
    dom (SuiteData.Remediations data) ∪ list_to_set (map ComplianceScan.Name scans).
Proof.
  revert data w. induction scans as [|scan rest IH]; intros data w; simpl.
  - split; [reflexivity|]. split; [reflexivity|]. split; set_solver.
  - unfold_state. unfold collectSuiteScan. unfold_state.
    destruct (GetComplianceCheckResults client _ "" w) as [[checkResults|err] w1];
      destruct (GetComplianceRemediations client _ w1) as [[rems|err'] w2];
      match goal with |- context [collectSuiteScans client rest ?d ?w'] =>
        destruct (IH d w') as (HSu & HSc & HC & HR) end;
      simpl in *; rewrite HSu, HSc;
      (split; [reflexivity|]); (split; [reflexivity|]);
      rewrite ?dom_insert_L in *; split; set_solver.
Qed.

(** X17: [CollectSuiteData] fails fast: when the suite cannot be fetched it
    returns that error wrapped and lists nothing; when the scans of the suite
    cannot be listed it returns that error wrapped. Otherwise it succeeds,
    whatever the fetches of check results and remediations answer and without
    looking at the operator pods; the data holds the suite fetched and the
    scans listed, in order, and every key of its two maps is the name of one
    of these scans. *)
Theorem CollectSuiteData_spec (suiteName : string) (w : W) :
  let w1 := (GetComplianceSuite client suiteName w).2 in
  let w2 := (GetComplianceScans client suiteName w1).2 in
  (∀ err,
     (GetComplianceSuite client suiteName w).1 = inr err →
     CollectSuiteData client suiteName w = (inr (Go.Errorf "failed to get suite: " err), w1)) ∧
  (∀ suite err,
     (GetComplianceSuite client suiteName w).1 = inl suite →
     (GetComplianceScans client suiteName w1).1 = inr err →
     CollectSuiteData client suiteName w =
       (inr (Go.Errorf "failed to get scans for suite: " err), w2)) ∧
  (∀ suite scans,
     (GetComplianceSuite client suiteName w).1 = inl suite →
     (GetComplianceScans client suiteName w1).1 = inl scans →
     ∃ data,
       CollectSuiteData client suiteName w =
         (inl data, (collectSuiteScans client scans (SuiteData.mk suite scans ∅ ∅) w2).2) ∧
       SuiteData.Suite data = suite ∧
       SuiteData.Scans data = scans ∧
       dom (SuiteData.CheckResults data) ⊆@{gset string}
         list_to_set (map ComplianceScan.Name scans) ∧
       dom (SuiteData.Remediations data) ⊆@{gset string}
         list_to_set (map ComplianceScan.Name scans)).
Proof.
  intros w1 w2. subst w2 w1. unfold CollectSuiteData. unfold_state.
  destruct (GetComplianceSuite client suiteName w) as [[suite|err] w1]; simpl.
  - destruct (GetComplianceScans client suiteName w1) as [[scans|err] w2]; simpl.
    + split; [intros err; discriminate|]. split; [intros s err _; discriminate|].
      intros s scans' [= <-] [= <-].
      destruct (collectSuiteScans_fields scans (SuiteData.mk suite scans ∅ ∅) w2)
        as (HSu & HSc & HC & HR).
      destruct (collectSuiteScans client scans (SuiteData.mk suite scans ∅ ∅) w2)
        as [data w3]. simpl in *.
      exists data. split; [reflexivity|]. split; [exact HSu|]. split; [exact HSc|].
      rewrite dom_empty_L in *. split; set_solver.
    + split; [intros err'; discriminate|].
      split; [intros s err' _ [= <-]; reflexivity|]. intros s scans _; discriminate.
  - split; [intros err' [= <-]; reflexivity|].
    split; [intros s err'; discriminate | intros s scans; discriminate].
Qed.

End SuiteCollectorProps.


(** ** The overview: what depends on the order of a [range], and what
    does not *)

Lemma fold_left_swap_Permutation {A B : Type} (f : B → A → B) (l1 l2 : list A) :
  (∀ b x y, f (f b x) y = f (f b y) x) →
  l1 ≡ₚ l2 → ∀ b, fold_left f l1 b = fold_left f l2 b.
Proof.
  intros Hswap Hperm. induction Hperm as [|x l1 l2 _ IH|x y l|l1 l2 l3 _ IH1 _ IH2]; intros b.
  - reflexivity.
  - simpl. apply IH.
  - simpl. rewrite Hswap. reflexivity.
  - rewrite IH1. apply IH2.
Qed.

Lemma add64_swap (t a b : Z) : Go.add64 (Go.add64 t a) b = Go.add64 (Go.add64 t b) a.
Proof. unfold Go.add64. rewrite !wrap64_add_l. f_equal. lia. Qed.

Lemma addChecks_swap acc x y : addChecks (addChecks acc x) y = addChecks (addChecks acc y) x.
Proof.
  destruct acc as [[[t p] f] m]. unfold addChecks.
  rewrite (add64_swap t), (add64_swap p), (add64_swap f), (add64_swap m). reflexivity.
Qed.

Lemma addScanChecks_swap data acc x y :
  addScanChecks data (addScanChecks data acc x) y
    = addScanChecks data (addScanChecks data acc y) x.
Proof.
  destruct acc as [[t p] f]. unfold addScanChecks.
  destruct (ComplianceData.CheckResults data !! x.1) as [cx|];
    destruct (ComplianceData.CheckResults data !! y.1) as [cy|]; try reflexivity.
  rewrite (add64_swap t), (add64_swap p), (add64_swap f). reflexivity.
Qed.

Lemma rangeValid_agree {W1 W2 : Type}
    (range1 : ∀ V : Type, gmap string V → State W1 (list (string * V)))
    (range2 : ∀ V : Type, gmap string V → State W2 (list (string * V)))
    (V : Type) (m : gmap string V) (w1 : W1) (w2 : W2) :
  rangeValid range1 → rangeValid range2 → (range1 V m w1).1 ≡ₚ (range2 V m w2).1.
Proof. intros H1 H2. rewrite (H1 V m w1), (H2 V m w2). reflexivity. Qed.

Lemma writeSummary_any_order {W1 W2 : Type}
    (range1 : ∀ V : Type, gmap string V → State W1 (list (string * V)))
    (range2 : ∀ V : Type, gmap string V → State W2 (list (string * V)))
    (output : string) (data : ComplianceData.t) (w1 : W1) (w2 : W2) :
  rangeValid range1 → rangeValid range2 →
  (writeSummary range1 output data w1).1 = (writeSummary range2 output data w2).1.
Proof.
  intros H1 H2.
  pose proof (rangeValid_agree range1 range2 _ (ComplianceData.CheckResults data) w1 w2 H1 H2)
    as Hperm.
  unfold writeSummary. unfold_state.
  destruct (range1 _ (ComplianceData.CheckResults data) w1) as [e1 w1'].
  destruct (range2 _ (ComplianceData.CheckResults data) w2) as [e2 w2'].
  simpl in Hperm.
  rewrite (fold_left_swap_Permutation addChecks e1 e2 addChecks_swap Hperm).
  destruct (fold_left addChecks e2 (0, 0, 0, 0)) as [[[t p] f] m]. reflexivity.
Qed.

Lemma writeOverallCompliance_any_order {W1 W2 : Type}
    (range1 : ∀ V : Type, gmap string V → State W1 (list (string * V)))
    (range2 : ∀ V : Type, gmap string V → State W2 (list (string * V)))
    (fmt_f1 : Go.float64 → string)
    (output : string) (data : ComplianceData.t) (w1 : W1) (w2 : W2) :
  rangeValid range1 → rangeValid range2 →
  (writeOverallCompliance range1 fmt_f1 output data w1).1
    = (writeOverallCompliance range2 fmt_f1 output data w2).1.
Proof.
  intros H1 H2.
  pose proof (rangeValid_agree range1 range2 _ (ComplianceData.Scans data) w1 w2 H1 H2)
    as Hperm.
  unfold writeOverallCompliance. unfold_state.
  destruct (range1 _ (ComplianceData.Scans data) w1) as [e1 w1'].
  destruct (range2 _ (ComplianceData.Scans data) w2) as [e2 w2'].
  simpl in Hperm.
  rewrite (fold_left_swap_Permutation (addScanChecks data) e1 e2 (addScanChecks_swap data) Hperm).
  destruct (fold_left (addScanChecks data) e2 (0, 0, 0)) as [[t p] f].
  destruct (t >? 0); [|reflexivity].
  destruct (Go.add64 p f >? 0); reflexivity.
Qed.

(** X18: the totals of the overview do not depend on the order in which Go
    visits a map: whatever the order of the two [range] loops, the section
    "Summary" and the line "Overall Compliance" come out the same, the sums
    being taken in [int] arithmetic. *)
Theorem overview_totals_any_order {W1 W2 : Type}
    (range1 : ∀ V : Type, gmap string V → State W1 (list (string * V)))
    (range2 : ∀ V : Type, gmap string V → State W2 (list (string * V)))
    (fmt_f1 : Go.float64 → string)
    (output : string) (data : ComplianceData.t) (w1 : W1) (w2 : W2) :
  rangeValid range1 → rangeValid range2 →
  (writeSummary range1 output data w1).1 = (writeSummary range2 output data w2).1 ∧
  (writeOverallCompliance range1 fmt_f1 output data w1).1
    = (writeOverallCompliance range2 fmt_f1 output data w2).1.
Proof.
  intros H1 H2. split.
  - apply writeSummary_any_order; assumption.
  - apply writeOverallCompliance_any_order; assumption.
Qed.

Lemma rangeAscending_valid : rangeValid rangeAscending.
Proof. intros V m w. reflexivity. Qed.

Lemma rangeDescending_valid : rangeValid rangeDescending.
Proof. intros V m w. apply reverse_Permutation. Qed.

Lemma overview_totals_any_order_witness :
  rangeValid rangeAscending ∧ rangeValid rangeDescending ∧
  (writeSummary rangeAscending "" failingData tt).1
    = (writeSummary rangeDescending "" failingData tt).1 ∧
  (writeOverallCompliance rangeAscending noFloat "" failingData tt).1
    = (writeOverallCompliance rangeDescending noFloat "" failingData tt).1.
Proof.
  split; [exact rangeAscending_valid|]. split; [exact rangeDescending_valid|].
  exact (overview_totals_any_order rangeAscending rangeDescending noFloat "" failingData tt tt
           rangeAscending_valid rangeDescending_valid).
Defined.

Lemma Permutation_short {A : Type} (l1 l2 : list A) :
  l1 ≡ₚ l2 → (length l1 ≤ 1)%nat → l1 = l2.
Proof.
  intros Hperm Hlen. destruct l1 as [|a [|b l1]].
  - symmetry. apply Permutation.Permutation_nil. exact Hperm.
  - symmetry. apply Permutation.Permutation_length_1_inv. exact Hperm.
  - simpl in Hlen. lia.
Qed.


Lemma statusesWith_pos (result : string) (scanStatuses : list ComplianceScanStatusWrapper.t) :
  statusesWith result scanStatuses ≠ 0 →
  ∃ s, s ∈ scanStatuses ∧ ComplianceScanStatusWrapper.Result s = result.
Proof.
  unfold statusesWith. intros Hpos.
  destruct (List.filter
              (λ scanStatus, String.eqb (ComplianceScanStatusWrapper.Result scanStatus) result)
              scanStatuses) as [|s rest] eqn:Hfilter.
  - simpl in Hpos. contradiction.
  - assert (Hin : In s (s :: rest)) by (left; reflexivity).
    rewrite <- Hfilter in Hin. apply filter_In in Hin. destruct Hin as [Hin Heq].
    exists s. split; [apply list_elem_of_In; exact Hin|].
    apply String.eqb_eq. exact Heq.
Qed.

Lemma countResults_keys (scanStatuses : list ComplianceScanStatusWrapper.t) (result : string) :
  is_Some (countResults scanStatuses !! result) →
  ∃ s, s ∈ scanStatuses ∧ ComplianceScanStatusWrapper.Result s = result.
Proof.
  rewrite countResults_lookup. intros [count Hsome].
  destruct (statusesWith result scanStatuses =? 0) eqn:Hzero; [discriminate|].
  apply statusesWith_pos. apply Z.eqb_neq. exact Hzero.
Qed.

Lemma countResults_oneResult (suite : ComplianceSuite.t) :
  oneResult suite →
  (size (countResults (ComplianceSuiteStatus.ScanStatuses (ComplianceSuite.Status suite))) ≤ 1)%nat.
Proof.
  intros Hone.
  set (statuses := ComplianceSuiteStatus.ScanStatuses (ComplianceSuite.Status suite)) in *.
  destruct statuses as [|s0 rest] eqn:Hstatuses.
  - unfold countResults. simpl. rewrite map_size_empty. lia.
  - rewrite <- size_dom.
    assert (Hsub : dom (countResults (s0 :: rest))
                     ⊆@{gset string} {[ComplianceScanStatusWrapper.Result s0]}).
    { intros key Hkey. apply elem_of_dom in Hkey.
      apply countResults_keys in Hkey. destruct Hkey as (s & Hin & <-).
      apply elem_of_singleton. apply Hone.
      - subst statuses. rewrite Hstatuses. exact Hin.
      - subst statuses. rewrite Hstatuses. left. }
    apply subseteq_size in Hsub. rewrite size_singleton in Hsub. exact Hsub.
Qed.

Lemma writeSuite_oneResult {W1 W2 : Type}
    (range1 : ∀ V : Type, gmap string V → State W1 (list (string * V)))
    (range2 : ∀ V : Type, gmap string V → State W2 (list (string * V)))
    (fmt_f1 : Go.float64 → string)
    (data : ComplianceData.t) (output : string) (suite : ComplianceSuite.t) (w1 : W1) (w2 : W2) :
  rangeValid range1 → rangeValid range2 → oneResult suite →
  (writeSuite range1 fmt_f1 data output suite w1).1
    = (writeSuite range2 fmt_f1 data output suite w2).1.
Proof.
  intros H1 H2 Hone. apply countResults_oneResult in Hone.
  unfold writeSuite. unfold_state.
  destruct (0 <? length (ComplianceSuiteStatus.ScanStatuses (ComplianceSuite.Status suite)))%nat;
    [|reflexivity].
  unfold writeResultCounts. unfold_state.
  set (resultCounts :=
         countResults (ComplianceSuiteStatus.ScanStatuses (ComplianceSuite.Status suite))) in *.
  pose proof (rangeValid_agree range1 range2 Z resultCounts w1 w2 H1 H2) as Hperm.
  assert (Hlen : (length (range1 Z resultCounts w1).1 ≤ 1)%nat).
  { rewrite (H1 Z resultCounts w1). rewrite length_map_to_list. exact Hone. }
  apply Permutation_short in Hperm; [|exact Hlen].
  destruct (range1 Z resultCounts w1) as [e1 w1'].
  destruct (range2 Z resultCounts w2) as [e2 w2'].
  simpl in Hperm. subst e2. cbn [fst snd].
  set (output1 := fold_left writeResultCount e1 _).
  pose proof (writeOverallCompliance_any_order range1 range2 fmt_f1 output1 data w1' w2' H1 H2)
    as Hoverall.
  destruct (writeOverallCompliance range1 fmt_f1 output1 data w1') as [o1 w1''].
  destruct (writeOverallCompliance range2 fmt_f1 output1 data w2') as [o2 w2''].
  simpl in Hoverall. subst o2. reflexivity.
Qed.

Lemma writeSuites_oneResult {W1 W2 : Type}
    (range1 : ∀ V : Type, gmap string V → State W1 (list (string * V)))
    (range2 : ∀ V : Type, gmap string V → State W2 (list (string * V)))
    (fmt_f1 : Go.float64 → string)
    (data : ComplianceData.t) (suites : list ComplianceSuite.t) (output : string)
    (w1 : W1) (w2 : W2) :
  rangeValid range1 → rangeValid range2 → Forall oneResult suites →
  (writeSuites range1 fmt_f1 data suites output w1).1
    = (writeSuites range2 fmt_f1 data suites output w2).1.
Proof.
  intros H1 H2 Hall. revert output w1 w2.
  induction Hall as [|suite rest Hone _ IH]; intros output w1 w2; simpl.
  - reflexivity.
  - unfold_state.
    pose proof (writeSuite_oneResult range1 range2 fmt_f1 data output suite w1 w2 H1 H2 Hone)
      as Hhere.
    destruct (writeSuite range1 fmt_f1 data output suite w1) as [o1 w1'].
    destruct (writeSuite range2 fmt_f1 data output suite w2) as [o2 w2'].
    simpl in Hhere. subst o2. apply IH.
Qed.

Lemma filterSuite_sublist (suiteName : string) (suites : list ComplianceSuite.t) :
  ∀ suite, suite ∈ filterSuite suiteName suites → suite ∈ suites.
Proof.
  induction suites as [|s rest IH]; intros suite Hin; simpl in Hin.
  - exact Hin.
  - destruct (String.eqb (ComplianceSuite.Name s) suiteName).
    + apply list_elem_of_singleton in Hin. subst. left.
    + right. apply IH. exact Hin.
Qed.

Lemma overview_summary_step {W1 W2 : Type}
    (range1 : ∀ V : Type, gmap string V → State W1 (list (string * V)))
    (range2 : ∀ V : Type, gmap string V → State W2 (list (string * V)))
    (data : ComplianceData.t)
    (written1 : State W1 (result string)) (written2 : State W2 (result string))
    (w1 : W1) (w2 : W2) :
  rangeValid range1 → rangeValid range2 →
  (written1 w1).1 = (written2 w2).1 →
  ((r ← written1;
    match r with
    | inr err => mret (inr err)
    | inl output => inl <$> writeSummary range1 output data
    end) w1).1
  = ((r ← written2;
      match r with
      | inr err => mret (inr err)
      | inl output => inl <$> writeSummary range2 output data
      end) w2).1.
Proof.
  intros H1 H2. unfold mbind, State_bind.
  destruct (written1 w1) as [r1 v1], (written2 w2) as [r2 v2]. cbn [fst snd].
  intros ->. destruct r2 as [output|err]; [|reflexivity].
  unfold fmap, State_fmap.
  pose proof (writeSummary_any_order range1 range2 output data v1 v2 H1 H2) as Hsum.
  destruct (writeSummary range1 output data v1) as [s1 v1'].
  destruct (writeSummary range2 output data v2) as [s2 v2'].
  simpl in Hsum. subst s2. reflexivity.
Qed.

Lemma overview_suites_step {W1 W2 : Type}
    (range1 : ∀ V : Type, gmap string V → State W1 (list (string * V)))
    (range2 : ∀ V : Type, gmap string V → State W2 (list (string * V)))
    (fmt_f1 : Go.float64 → string)
    (data : ComplianceData.t) (suites : list ComplianceSuite.t) (output : string)
    (w1 : W1) (w2 : W2) :
  rangeValid range1 → rangeValid range2 → Forall oneResult suites →
  ((inl <$> writeSuites range1 fmt_f1 data suites output) w1).1
    = ((@inl string Go.error <$> writeSuites range2 fmt_f1 data suites output) w2).1.
Proof.
  intros H1 H2 Hall. unfold fmap, State_fmap.
  pose proof (writeSuites_oneResult range1 range2 fmt_f1 data suites output w1 w2 H1 H2 Hall)
    as Hhere.
  destruct (writeSuites range1 fmt_f1 data suites output w1) as [o1 v1].
  destruct (writeSuites range2 fmt_f1 data suites output w2) as [o2 v2].
  simpl in Hhere. subst o2. reflexivity.
Qed.

Lemma formatStatusOverview_oneResult {W1 W2 : Type}
    (range1 : ∀ V : Type, gmap string V → State W1 (list (string * V)))
    (range2 : ∀ V : Type, gmap string V → State W2 (list (string * V)))
    (fmt_f1 : Go.float64 → string)
    (data : ComplianceData.t) (args : StatusOverviewArgs.t) (w1 : W1) (w2 : W2) :
  rangeValid range1 → rangeValid range2 → Forall oneResult (ComplianceData.Suites data) →
  (formatStatusOverview range1 fmt_f1 data args w1).1
    = (formatStatusOverview range2 fmt_f1 data args w2).1.
Proof.
  intros H1 H2 Hall.
  assert (Hfiltered : ∀ suiteName,
            Forall oneResult (filterSuite suiteName (ComplianceData.Suites data))).
  { intros suiteName. apply List.Forall_forall. intros suite Hin.
    rewrite List.Forall_forall in Hall. apply Hall.
    apply list_elem_of_In. apply (filterSuite_sublist suiteName).
    apply list_elem_of_In. exact Hin. }
  unfold formatStatusOverview.
  apply overview_summary_step; [exact H1|exact H2|].
  destruct (length (ComplianceData.Suites data) =? 0)%nat; [reflexivity|].
  destruct (StatusOverviewArgs.SuiteName args) as [suiteName|].
  - destruct (negb (String.eqb suiteName "")).
    + destruct (length (filterSuite suiteName (ComplianceData.Suites data)) =? 0)%nat;
        [reflexivity|].
      apply overview_suites_step; [exact H1|exact H2|apply Hfiltered].
    + apply overview_suites_step; assumption.
  - apply overview_suites_step; assumption.
Qed.

(** X19: when, in every suite of the snapshot, all scans carry the same
    result, the text of the overview does not depend on the order in which
    Go visits its maps: two runs on the same snapshot give the same report
    (or the same error). *)
Theorem formatStatusOverview_same_text {W1 W2 : Type}
    (range1 : ∀ V : Type, gmap string V → State W1 (list (string * V)))
    (range2 : ∀ V : Type, gmap string V → State W2 (list (string * V)))
    (fmt_f1 : Go.float64 → string)
    (data : ComplianceData.t) (args : StatusOverviewArgs.t) (w1 : W1) (w2 : W2) :
  rangeValid range1 → rangeValid range2 → Forall oneResult (ComplianceData.Suites data) →
  (formatStatusOverview range1 fmt_f1 data args w1).1
    = (formatStatusOverview range2 fmt_f1 data args w2).1.
Proof. apply formatStatusOverview_oneResult. Qed.

Lemma oneResult_failingSuite : oneResult failingSuite.
Proof.
  intros s1 s2 Hin1 Hin2. simpl in Hin1, Hin2.
  repeat (apply elem_of_cons in Hin1; destruct Hin1 as [->|Hin1]);
    [| | |apply elem_of_nil in Hin1; contradiction];
    repeat (apply elem_of_cons in Hin2; destruct Hin2 as [->|Hin2]);
    try reflexivity; apply elem_of_nil in Hin2; contradiction.
Qed.

Lemma formatStatusOverview_same_text_witness :
  rangeValid rangeAscending ∧ rangeValid rangeDescending ∧
  Forall oneResult (ComplianceData.Suites failingData) ∧
  (formatStatusOverview rangeAscending noFloat failingData overviewArgs tt).1
    = (formatStatusOverview rangeDescending noFloat failingData overviewArgs tt).1.
Proof.
  assert (Hall : Forall oneResult (ComplianceData.Suites failingData)).
  { apply List.Forall_cons; [exact oneResult_failingSuite|apply List.Forall_nil]. }
  split; [exact rangeAscending_valid|]. split; [exact rangeDescending_valid|].
  split; [exact Hall|].
  exact (formatStatusOverview_same_text rangeAscending rangeDescending noFloat failingData
           overviewArgs tt tt rangeAscending_valid rangeDescending_valid Hall).
Defined.

Lemma filterSuite_nil_iff (suiteName : string) (suites : list ComplianceSuite.t) :
  filterSuite suiteName suites = [] ↔ suiteName ∉ map ComplianceSuite.Name suites.
Proof.
  induction suites as [|suite rest IH]; simpl.
  - split; [intros _; apply not_elem_of_nil|reflexivity].
  - rewrite not_elem_of_cons.
    destruct (String.eqb_spec (ComplianceSuite.Name suite) suiteName) as [Heq|Hne].
    + split; [discriminate|]. intros [Hne _]. symmetry in Heq. contradiction.
    + rewrite IH. split; [intros Hrest; split; [congruence|exact Hrest]|intros [_ Hrest]; exact Hrest].
Qed.

Lemma formatStatusOverview_error {W : Type}
    (rangeMap : ∀ V : Type, gmap string V → State W (list (string * V)))
    (fmt_f1 : Go.float64 → string)
    (data : ComplianceData.t) (args : StatusOverviewArgs.t) (w : W) (err : Go.error) :
  ((formatStatusOverview rangeMap fmt_f1 data args w).1 = inr err) ↔
  ∃ suiteName,
    StatusOverviewArgs.SuiteName args = Some suiteName ∧ suiteName ≠ "" ∧
    ComplianceData.Suites data ≠ [] ∧
    (suiteName ∉ map ComplianceSuite.Name (ComplianceData.Suites data)) ∧
    err = "suite '" ++ suiteName ++ "' not found".
Proof.
  unfold formatStatusOverview.
  set (output := (writeOperatorHealth _ _ ++ _)%string).
  assert (Hwritten : ∀ suites,
            ((r ← inl <$> writeSuites rangeMap fmt_f1 data suites output;
              match r with
              | inr err => mret (inr err)
              | inl output => inl <$> writeSummary rangeMap output data
              end) w).1 ≠ @inr string Go.error err).
  { intros suites. unfold_state.
    destruct (writeSuites rangeMap fmt_f1 data suites output w) as [o v].
    destruct (writeSummary rangeMap o data v) as [s v']. discriminate. }
  destruct (ComplianceData.Suites data) as [|suite rest] eqn:Hsuites.
  - simpl ((length [] =? 0)%nat). cbv iota.
    split.
    + unfold_state. destruct (writeSummary rangeMap _ data w) as [s v]. discriminate.
    + intros (suiteName & _ & _ & Hne & _). contradiction.
  - change ((length (suite :: rest) =? 0)%nat) with false. cbv iota.
    destruct (StatusOverviewArgs.SuiteName args) as [suiteName|].
    + destruct (String.eqb_spec suiteName "") as [Hempty|Hnonempty]; cbn [negb].
      * split; [intros Herr; exfalso; exact (Hwritten _ Herr)|].
        intros (n & Hn & Hne & _). injection Hn as <-. contradiction.
      * pose proof (filterSuite_nil_iff suiteName (suite :: rest)) as Hnil.
        destruct (filterSuite suiteName (suite :: rest)) as [|found others] eqn:Hfilter.
        -- simpl ((length [] =? 0)%nat). cbv iota. unfold_state. cbn [fst snd].
           split.
           ++ intros Herr. injection Herr as <-. exists suiteName.
              split; [reflexivity|]. split; [exact Hnonempty|]. split; [discriminate|].
              split; [apply Hnil; reflexivity|reflexivity].
           ++ intros (n & Hn & _ & _ & _ & ->). injection Hn as <-. reflexivity.
        -- change ((length (found :: others) =? 0)%nat) with false. cbv iota.
           split; [intros Herr; exfalso; exact (Hwritten _ Herr)|].
           intros (n & Hn & _ & _ & Hnotin & _). injection Hn as <-.
           apply Hnil in Hnotin. discriminate.
    + split; [intros Herr; exfalso; exact (Hwritten _ Herr)|].
      intros (n & Hn & _). discriminate.
Qed.

(** X20: the overview tool fails in two cases only: the collection of the
    snapshot failed, and the error is that of [CollectAllData] behind
    "failed to collect data: "; or a non-empty suite name was asked for that
    no suite of a non-empty snapshot carries, and the error is
    "suite '<name>' not found". With no suite in the snapshot, or with the
    empty name, a report is returned. *)
Theorem ComplianceStatusOverview_errors {W : Type}
    (client : ComplianceClient W) (Now : State W Go.Time)
    (rangeMap : ∀ V : Type, gmap string V → State W (list (string * V)))
    (fmt_f1 : Go.float64 → string)
    (args : StatusOverviewArgs.t) (w : W) (err : Go.error) :
  ((ComplianceStatusOverview client Now rangeMap fmt_f1 args w).1 = inr err) ↔
  (∃ cause, (CollectAllData client Now w).1 = inr cause ∧
            err = "failed to collect data: " ++ cause) ∨
  (∃ data suiteName,
     (CollectAllData client Now w).1 = inl data ∧
     StatusOverviewArgs.SuiteName args = Some suiteName ∧ suiteName ≠ "" ∧
     ComplianceData.Suites data ≠ [] ∧
     (suiteName ∉ map ComplianceSuite.Name (ComplianceData.Suites data)) ∧
     err = "suite '" ++ suiteName ++ "' not found").
Proof.
  unfold ComplianceStatusOverview. unfold mbind, State_bind.
  destruct (CollectAllData client Now w) as [[data|cause] w1]; cbn [fst snd].
  - rewrite formatStatusOverview_error. split.
    + intros (suiteName & H). right. exists data, suiteName. split; [reflexivity|exact H].
    + intros [(cause & Hcause & _)|(data' & suiteName & Hdata & H)]; [discriminate|].
      exists suiteName. injection Hdata as <-. exact H.
  - unfold mret, State_ret. cbn [fst]. unfold Go.Errorf. split.
    + intros Herr. injection Herr as <-. left. exists cause. split; reflexivity.
    + intros [(cause' & Hcause & ->)|(data & suiteName & Hdata & _)]; [|discriminate].
      injection Hcause as <-. reflexivity.
Qed.


(** ** The client over the Kubernetes libraries *)

Lemma checkStuckScan_no_start {W : Type} (Now : State W Go.Time) (Duration_String : Z → string)
    (issues : list Issue.t) (scan : ComplianceScan.t) (w : W) :
  ComplianceScanStatus.StartTimestamp (ComplianceScan.Status scan) = None →
  checkStuckScan Now Duration_String issues scan w = (checkErrorResult issues scan, w).
Proof.
  intros Hstart. unfold checkStuckScan, checkRunning, checkLaunching. rewrite Hstart.
  unfold_state.
  destruct (String.eqb _ PhaseRunning); destruct (String.eqb _ PhaseLaunching); reflexivity.
Qed.

Lemma detectStuckLoop_no_start {W : Type} (Now : State W Go.Time) (Duration_String : Z → string)
    (scans : list ComplianceScan.t) (issues : list Issue.t) (w : W) :
  Forall (λ scan, ComplianceScanStatus.StartTimestamp (ComplianceScan.Status scan) = None)
    scans →
  detectStuckLoop Now Duration_String scans issues w
    = ((issues ++ flat_map (checkErrorResult []) scans)%list, w).
Proof.
  intros Hall. revert issues.
  induction Hall as [|scan rest Hstart _ IH]; intros issues; simpl.
  - unfold_state. rewrite app_nil_r. reflexivity.
  - unfold_state. rewrite (checkStuckScan_no_start _ _ _ _ _ Hstart).
    rewrite IH, (checkErrorResult_emit issues), <- app_assoc. reflexivity.
Qed.

(** The suites of a snapshot are the suites the client listed. *)
Lemma CollectAllData_suites {W : Type} (client : ComplianceClient W) (Now : State W Go.Time)
    (w : W) (data : ComplianceData.t) :
  (CollectAllData client Now w).1 = inl data →
  (GetComplianceSuites client (Now w).2).1 = inl (ComplianceData.Suites data).
Proof.
  unfold CollectAllData. unfold_state.
  destruct (Now w) as [now w1]. cbn [fst snd].
  destruct (GetComplianceSuites client w1) as [[suites|err] w2]; [|discriminate].
  destruct (GetComplianceScans client "" w2) as [[allScans|err] w3]; [|discriminate].
  pose proof (collectScans_frame client allScans
                (ComplianceData.with_Suites suites
                   (ComplianceData.mk [] ∅ ∅ ∅ OperatorHealthStatus.zero now)) w3) as Hframe.
  cbv zeta in Hframe. destruct Hframe as [Hsuites _].
  destruct (collectScans client allScans _ w3) as [collected w4].
  destruct (collectOperatorStatus client w4) as [[status [err|]] w5]; [discriminate|].
  cbn [fst snd] in *. intros [= <-]. simpl. rewrite Hsuites. reflexivity.
Qed.

Section ClientProps.
Context {W : Type}.
Variable Unstructured : Type.
Variable Object : Type.
Variable Object_of : Unstructured → Object.
Variable GetName : Unstructured → string.
Variable NestedMap : Object → string → Object * bool.
Variable NestedString : Object → string → string.
Variable NestedBool : Object → string → bool.
Variable dynamicList :
  GroupVersionResource.t → string → string → State W (result (list Unstructured)).
Variable dynamicGet : GroupVersionResource.t → string → string → State W (result Unstructured).
Variable podsList : string → string → State W (result (list corev1.Pod.t)).
Variable eventsList : string → string → State W (result (list corev1.Event.t)).
Variable namespace : string.

Let client : ComplianceClient W :=
  kubeComplianceClient Unstructured Object Object_of GetName NestedMap NestedString NestedBool
    dynamicList dynamicGet podsList eventsList namespace.

(** No item is skipped when the conversion never fails: the objects are
    the conversions of the items, in their order. *)
Lemma convertItems_all {A : Type} (convert : Unstructured → result A)
    (name : A → string) (P : A → Prop) (items : list Unstructured) :
  (∀ item, ∃ x, convert item = inl x ∧ name x = GetName item ∧ P x) →
  map name (convertItems Unstructured convert items) = map GetName items ∧
  Forall P (convertItems Unstructured convert items).
Proof.
  intros Hconvert. unfold convertItems.
  assert (Hgen : ∀ converted,
    let objects :=
      fold_left
        (λ converted item,
           match convert item with
           | inr _ => converted
           | inl x => Go.append converted x
           end) items converted in
    map name objects = (map name converted ++ map GetName items)%list ∧
    (Forall P converted → Forall P objects)).
  { induction items as [|item rest IH]; intros converted; simpl.
    - rewrite app_nil_r. split; [reflexivity|exact id].
    - destruct (Hconvert item) as (x & -> & Hname & HP).
      destruct (IH (Go.append converted x)) as [Hnames Hall].
      split.
      + rewrite Hnames. unfold Go.append. rewrite map_app, <- app_assoc. simpl.
        rewrite Hname. reflexivity.
      + intros Hconverted. apply Hall. unfold Go.append.
        apply Forall_app. split; [exact Hconverted|].
        apply List.Forall_cons; [exact HP|apply List.Forall_nil]. }
  destruct (Hgen []) as [Hnames Hall]. split; [exact Hnames|].
  apply Hall. apply List.Forall_nil.
Qed.

Lemma unstructuredToComplianceSuite_fields (obj : Unstructured) :
  ∃ suite,
    unstructuredToComplianceSuite Unstructured Object Object_of GetName NestedMap NestedString obj
      = inl suite ∧
    ComplianceSuite.Name suite = GetName obj ∧
    ComplianceSuiteStatus.ScanStatuses (ComplianceSuite.Status suite) = [].
Proof.
  unfold unstructuredToComplianceSuite.
  destruct (NestedMap (Object_of obj) "status") as [status [|]];
    eexists; (split; [reflexivity|split; reflexivity]).
Qed.

Lemma unstructuredToComplianceScan_fields (obj : Unstructured) :
  ∃ scan,
    unstructuredToComplianceScan Unstructured Object Object_of GetName NestedMap NestedString obj
      = inl scan ∧
    ComplianceScan.Name scan = GetName obj ∧
    (ComplianceScanStatus.StartTimestamp (ComplianceScan.Status scan) = None ∧
     ComplianceScanStatus.Warnings (ComplianceScan.Status scan) = "").
Proof.
  unfold unstructuredToComplianceScan.
  destruct (NestedMap (Object_of obj) "spec") as [spec [|]];
    destruct (NestedMap (Object_of obj) "status") as [status [|]];
    eexists; (split; [reflexivity|split; [reflexivity|split; reflexivity]]).
Qed.

Lemma unstructuredToCheckResult_fields (obj : Unstructured) :
  ∃ check,
    unstructuredToCheckResult Unstructured Object Object_of GetName NestedString obj = inl check ∧
    ComplianceCheckResult.Name check = GetName obj ∧
    ComplianceCheckResult.Rationale check = "".
Proof. eexists. split; [reflexivity|split; reflexivity]. Qed.

Lemma unstructuredToRemediation_fields (obj : Unstructured) :
  ∃ remediation,
    unstructuredToRemediation Unstructured Object Object_of GetName NestedMap NestedString
      NestedBool obj = inl remediation ∧
    ComplianceRemediation.Name remediation = GetName obj ∧ True.
Proof.
  unfold unstructuredToRemediation.
  destruct (NestedMap (Object_of obj) "spec") as [spec [|]];
    destruct (NestedMap (Object_of obj) "status") as [status [|]];
    eexists; (split; [reflexivity|split; [reflexivity|exact I]]).
Qed.

(** What a list method answers, given what the dynamic client listed. *)
Lemma GetComplianceSuites_run (w : W) :
  GetComplianceSuites client w =
    (match (dynamicList ComplianceSuiteGVR namespace "" w).1 with
     | inr err => inr (Go.Errorf "failed to list compliance suites: " err)
     | inl items =>
         inl (convertItems Unstructured
                (unstructuredToComplianceSuite Unstructured Object Object_of GetName NestedMap
                   NestedString) items)
     end, (dynamicList ComplianceSuiteGVR namespace "" w).2).
Proof.
  subst client. simpl. unfold client_GetComplianceSuites. unfold_state.
  destruct (dynamicList ComplianceSuiteGVR namespace "" w) as [[items|err] w1]; reflexivity.
Qed.

Lemma GetComplianceScans_run (suiteLabel : string) (w : W) :
  let labelSelector :=
    if negb (String.eqb suiteLabel "") then SuiteLabel ++ "=" ++ suiteLabel else "" in
  GetComplianceScans client suiteLabel w =
    (match (dynamicList ComplianceScanGVR namespace labelSelector w).1 with
     | inr err => inr (Go.Errorf "failed to list compliance scans: " err)
     | inl items =>
         inl (convertItems Unstructured
                (unstructuredToComplianceScan Unstructured Object Object_of GetName NestedMap
                   NestedString) items)
     end, (dynamicList ComplianceScanGVR namespace labelSelector w).2).
Proof.
  intros labelSelector. subst client labelSelector. simpl.
  unfold client_GetComplianceScans. unfold_state.
  destruct (dynamicList ComplianceScanGVR namespace _ w) as [[items|err] w1]; reflexivity.
Qed.

Lemma GetComplianceScans_no_start (suiteLabel : string) (w : W) (scans : list ComplianceScan.t) :
  (GetComplianceScans client suiteLabel w).1 = inl scans →
  Forall (λ scan, ComplianceScanStatus.StartTimestamp (ComplianceScan.Status scan) = None)
    scans.
Proof.
  rewrite GetComplianceScans_run. cbv zeta. cbn [fst].
  destruct (dynamicList ComplianceScanGVR namespace _ w).1 as [items|err]; [|discriminate].
  intros [= <-].
  destruct (convertItems_all _ ComplianceScan.Name _ items unstructuredToComplianceScan_fields)
    as [_ Hall].
  eapply Forall_impl; [exact Hall|]. intros scan [Hstart _]. exact Hstart.
Qed.

Lemma GetComplianceSuites_no_statuses (w : W) (suites : list ComplianceSuite.t) :
  (GetComplianceSuites client w).1 = inl suites →
  Forall (λ suite, ComplianceSuiteStatus.ScanStatuses (ComplianceSuite.Status suite) = [])
    suites.
Proof.
  rewrite GetComplianceSuites_run. cbn [fst].
  destruct (dynamicList ComplianceSuiteGVR namespace "" w).1 as [items|err]; [|discriminate].
  intros [= <-].
  destruct (convertItems_all _ ComplianceSuite.Name _ items unstructuredToComplianceSuite_fields)
    as [_ Hall].
  exact Hall.
Qed.

(** X21: each list method of the client returns one object per item the
    cluster listed, in the order of the listing and under the item's name: no
    item is skipped. The conversions leave some fields of the data model
    unset: a suite comes without scan statuses, a scan without start
    timestamp and without warnings, a check result without rationale. When
    the listing fails, the method fails with the cause behind its own
    message. *)
Theorem kubeComplianceClient_lists (suiteLabel scanName statusFilter : string) (w : W) :
  (match (GetComplianceSuites client w).1,
         (dynamicList ComplianceSuiteGVR namespace "" w).1 with
   | inl suites, inl items =>
       map ComplianceSuite.Name suites = map GetName items ∧
       Forall (λ suite,
                 ComplianceSuiteStatus.ScanStatuses (ComplianceSuite.Status suite) = []) suites
   | inr err, inr cause => err = "failed to list compliance suites: " ++ cause
   | _, _ => False
   end) ∧
  (match (GetComplianceScans client suiteLabel w).1,
         (dynamicList ComplianceScanGVR namespace
            (if negb (String.eqb suiteLabel "") then SuiteLabel ++ "=" ++ suiteLabel else "")
            w).1 with
   | inl scans, inl items =>
       map ComplianceScan.Name scans = map GetName items ∧
       Forall (λ scan,
                 ComplianceScanStatus.StartTimestamp (ComplianceScan.Status scan) = None ∧
                 ComplianceScanStatus.Warnings (ComplianceScan.Status scan) = "") scans
   | inr err, inr cause => err = "failed to list compliance scans: " ++ cause
   | _, _ => False
   end) ∧
  (match (GetComplianceCheckResults client scanName statusFilter w).1,
         (dynamicList ComplianceCheckResultGVR namespace
            (if negb (String.eqb statusFilter "")
             then (ScanLabel ++ "=" ++ scanName) ++ ","
                    ++ "compliance.openshift.io/check-status" ++ "=" ++ statusFilter
             else ScanLabel ++ "=" ++ scanName)
            w).1 with
   | inl checks, inl items =>
       map ComplianceCheckResult.Name checks = map GetName items ∧
       Forall (λ check, ComplianceCheckResult.Rationale check = "") checks
   | inr err, inr cause => err = "failed to list check results: " ++ cause
   | _, _ => False
   end) ∧
  (match (GetComplianceRemediations client scanName w).1,
         (dynamicList ComplianceRemediationGVR namespace
            (if negb (String.eqb scanName "") then ScanLabel ++ "=" ++ scanName else "")
            w).1 with
   | inl remediations, inl items =>
       map ComplianceRemediation.Name remediations = map GetName items
   | inr err, inr cause => err = "failed to list remediations: " ++ cause
   | _, _ => False
   end).
Proof.
  split; [|split; [|split]].
  - rewrite GetComplianceSuites_run. cbn [fst].
    destruct (dynamicList ComplianceSuiteGVR namespace "" w).1 as [items|err]; [|reflexivity].
    exact (convertItems_all _ ComplianceSuite.Name _ items unstructuredToComplianceSuite_fields).
  - rewrite GetComplianceScans_run. cbv zeta. cbn [fst].
    destruct (dynamicList ComplianceScanGVR namespace _ w).1 as [items|err]; [|reflexivity].
    exact (convertItems_all _ ComplianceScan.Name _ items unstructuredToComplianceScan_fields).
  - subst client. simpl. unfold client_GetComplianceCheckResults. unfold_state.
    destruct (dynamicList ComplianceCheckResultGVR namespace _ w) as [[items|err] w1];
      [|reflexivity].
    cbn [fst].
    exact (convertItems_all _ ComplianceCheckResult.Name _ items
             unstructuredToCheckResult_fields).
  - subst client. simpl. unfold client_GetComplianceRemediations. unfold_state.
    destruct (dynamicList ComplianceRemediationGVR namespace _ w) as [[items|err] w1];
      [|reflexivity].
    cbn [fst].
    exact (proj1 (convertItems_all _ ComplianceRemediation.Name _ items
                    unstructuredToRemediation_fields)).
Qed.

Lemma collectedIssues_no_start (Now1 Now2 : State W Go.Time) (String1 String2 : Z → string)
    (scans : list ComplianceScan.t) (w : W) :
  Forall (λ scan, ComplianceScanStatus.StartTimestamp (ComplianceScan.Status scan) = None)
    scans →
  collectedIssues client Now1 String1 scans w = collectedIssues client Now2 String2 scans w.
Proof.
  intros Hall. unfold collectedIssues, DetectStuckScans.
  rewrite !(detectStuckLoop_no_start _ _ _ _ _ Hall). reflexivity.
Qed.

(** X22: through this client the stuck-scan rules never fire. The scans it
    returns carry no start timestamp, so [DetectStuckScans] reports for them
    the scans with the result ERROR and nothing else, and does not read the
    clock; and the diagnosis of [AnalyzeAll] is the same whatever the clock
    shows and however durations are printed. *)
Theorem AnalyzeAll_kubeComplianceClient_no_clock
    (Now1 Now2 : State W Go.Time) (String1 String2 : Z → string)
    (suiteLabel : string) (w : W) :
  AnalyzeAll client Now1 String1 w = AnalyzeAll client Now2 String2 w ∧
  match (GetComplianceScans client suiteLabel w).1 with
  | inl scans =>
      ∀ v, DetectStuckScans Now1 String1 scans v
           = (flat_map (λ scan, if hasErrorResult scan then [errorResultIssue scan] else [])
                scans, v)
  | inr _ => True
  end.
Proof.
  split.
  - rewrite !AnalyzeAll_run.
    pose proof (GetComplianceScans_no_start "" w) as Hstart.
    destruct (GetComplianceScans client "" w) as [[scans|err] w1]; [|reflexivity].
    cbn [fst snd] in *.
    rewrite (collectedIssues_no_start Now1 Now2 String1 String2 scans w1 (Hstart scans eq_refl)).
    reflexivity.
  - pose proof (GetComplianceScans_no_start suiteLabel w) as Hstart.
    destruct (GetComplianceScans client suiteLabel w).1 as [scans|err]; [|exact I].
    intros v. unfold DetectStuckScans.
    rewrite (detectStuckLoop_no_start _ _ _ _ _ (Hstart scans eq_refl)), app_nil_l.
    reflexivity.
Qed.



(** X23: through this client the overview tool answers the same text
    whatever the order in which Go visits its maps: the suites the client
    returns carry no scan statuses, so no table of results is written, and
    the totals do not depend on the order. *)
Theorem ComplianceStatusOverview_kubeComplianceClient
    (Now : State W Go.Time)
    (range1 range2 : ∀ V : Type, gmap string V → State W (list (string * V)))
    (fmt_f1 : Go.float64 → string) (args : StatusOverviewArgs.t) (w : W) :
  rangeValid range1 → rangeValid range2 →
  (ComplianceStatusOverview client Now range1 fmt_f1 args w).1
    = (ComplianceStatusOverview client Now range2 fmt_f1 args w).1.
Proof.
  intros H1 H2. unfold ComplianceStatusOverview. unfold mbind, State_bind.
  pose proof (CollectAllData_suites client Now w) as Hsuites.
  destruct (CollectAllData client Now w) as [[data|err] w1]; [|reflexivity].
  cbn [fst snd] in *.
  apply formatStatusOverview_oneResult; [exact H1|exact H2|].
  pose proof (GetComplianceSuites_no_statuses _ _ (Hsuites data eq_refl)) as Hnone.
  eapply Forall_impl; [exact Hnone|].
  intros suite Hempty s1 s2 Hin1. rewrite Hempty in Hin1.
  apply elem_of_nil in Hin1. contradiction.
Qed.

(** X24: the client builds the label selector of the check results by
    pasting the scan name and the status filter into it: a non-empty filter
    [f] on the scan [s] is the same request as no filter on the name
    [s,compliance.openshift.io/check-status=f]. *)
Theorem GetComplianceCheckResults_selector (scanName statusFilter : string) :
  statusFilter ≠ "" →
  GetComplianceCheckResults client scanName statusFilter
    = GetComplianceCheckResults client
        (scanName ++ ",compliance.openshift.io/check-status=" ++ statusFilter) "".
Proof.
  intros Hfilter. subst client. simpl. unfold client_GetComplianceCheckResults.
  destruct (String.eqb_spec statusFilter "") as [Heq|_]; [contradiction|].
  change (String.eqb "" "") with true. cbn [negb].
  replace ((ScanLabel ++ "=" ++ scanName) ++ ","
             ++ "compliance.openshift.io/check-status" ++ "=" ++ statusFilter)
    with (ScanLabel ++ "=" ++ scanName ++ ",compliance.openshift.io/check-status="
            ++ statusFilter); [reflexivity|].
  rewrite !string_app_assoc. reflexivity.
Qed.

End ClientProps.

Lemma ComplianceStatusOverview_kubeComplianceClient_witness :
  rangeValid rangeAscending ∧ rangeValid rangeDescending ∧
  (ComplianceStatusOverview sampleKubeClient fixedClock rangeAscending noFloat overviewArgs tt).1
    = (ComplianceStatusOverview sampleKubeClient fixedClock rangeDescending noFloat
         overviewArgs tt).1.
Proof.
  split; [exact rangeAscending_valid|]. split; [exact rangeDescending_valid|].
  exact (ComplianceStatusOverview_kubeComplianceClient string string id id sampleNestedMap
           sampleNestedString sampleNestedBool sampleList sampleGet
           (λ _ _, mret (inl [operatorPod])) (λ _ _, mret (inl []))
           "openshift-compliance" fixedClock rangeAscending rangeDescending noFloat
           overviewArgs tt rangeAscending_valid rangeDescending_valid).
Defined.

Lemma GetComplianceCheckResults_selector_witness :
  CheckFail ≠ "" ∧
  GetComplianceCheckResults sampleKubeClient "ocp4-cis" CheckFail
    = GetComplianceCheckResults sampleKubeClient
        ("ocp4-cis" ++ ",compliance.openshift.io/check-status=" ++ CheckFail) "".
Proof.
  split; [discriminate|].
  apply (GetComplianceCheckResults_selector string string id id sampleNestedMap
           sampleNestedString sampleNestedBool sampleList sampleGet
           (λ _ _, mret (inl [operatorPod])) (λ _ _, mret (inl []))
           "openshift-compliance" "ocp4-cis" CheckFail).
  discriminate.
Defined.

